(** * Analysis, decision and filter-graph assembly of the mastering tools

    A shallow embedding of the four tools of the repository:

    - [Pro33]    : the professional voice enhancer v3.3
                   (class [ProfessionalVocalProcessor] and its worker thread);
    - [Vocal20]  : the automatic voice enhancer v2.0 (class [VocalProcessor]);
    - [Bgm27]    : the broadcast background-music tool v2.7
                   (class [BackgroundMusicProcessor] and its worker thread);
    - [Bgm25]    : the smart-compression background-music tool v2.5
                   (class [SmartCompressor] and its worker thread).

    Modelling conventions.
    - Python [str] values are Rocq strings, read as UTF-8 byte sequences.
    - Python [int] values are [Z]; a Python [float] is the rational [Q] whose
      decimal text [str] prints for it; infinities and NaN are not modelled.
    - The conversions between text and floats ([float(s)] and [str(x)]) and
      the float operations whose result is rounded where the tools measure
      (the difference of two levels, the quotient of two counts, the
      percentage of the progress bar) belong to the Python runtime and are
      the fields of [FloatText]: nothing is assumed about them.  The sums and
      products of the scorer, of the equaliser gains and of the loudness
      target are written on the rationals; there a float may differ from the
      model in its last place.
    - [os.remove] fails where the operating system refuses the removal (a
      directory, a protected file, a file that a process keeps open): which
      paths these are is the field [remove_error] of the platform.
    - Code that may raise returns a [result]; code that talks to the file
      system or to the audio engine runs in the state-and-exception monad
      [io] over a [World]. *)

From Stdlib Require Import String Ascii List ZArith QArith Qabs Qminmax Lqa Lia.
From Stdlib Require Import DecimalString.
From stdpp Require Import gmap strings.
Import ListNotations.

(** ** The fragment of Python used by the tools *)

Module Py.

Local Open Scope string_scope.

(** *** Exceptions and results *)

Inductive exn : Type :=
| KeyError (key : string)
| IndexError
| ValueError
| FileNotFoundError (msg : string)
| RuntimeError (msg : string)
| Exception (msg : string)
| SubprocessError (msg : string)
| OSError (msg : string).

Inductive result (A : Type) : Type :=
| Ok (a : A)
| Raise (e : exn).

Arguments Ok {A} a.
Arguments Raise {A} e.

#[global] Instance result_ret : MRet result := fun _ a => Ok a.

#[global] Instance result_bind : MBind result := fun _ _ f m =>
  match m with
  | Ok a => f a
  | Raise e => Raise e
  end.

#[global] Instance result_fmap : FMap result := fun _ _ f m =>
  match m with
  | Ok a => Ok (f a)
  | Raise e => Raise e
  end.

(** [try: body except: handler] for pure code. *)
Definition try_except {A} (body : result A) (handler : exn -> result A) : result A :=
  match body with
  | Ok a => Ok a
  | Raise e => handler e
  end.

Definition raises {A} (r : result A) : bool :=
  match r with
  | Ok _ => false
  | Raise _ => true
  end.

(** *** Numbers *)

Definition fle (x y : Q) : bool := Qle_bool x y.
Definition flt (x y : Q) : bool := negb (Qle_bool y x).
Definition fge (x y : Q) : bool := fle y x.
Definition fgt (x y : Q) : bool := flt y x.

(** A value that is an [int] or a [float] at run time. *)
Inductive num : Type :=
| PyInt (z : Z)
| PyFloat (q : Q).

Definition num_val (n : num) : Q :=
  match n with
  | PyInt z => inject_Z z
  | PyFloat q => q
  end.

(** [max(a, b)] and [min(a, b)] return their first argument on ties. *)
Definition max (a b : num) : num := if fgt (num_val b) (num_val a) then b else a.
Definition min (a b : num) : num := if flt (num_val b) (num_val a) then b else a.

(** [str(z)] for an [int]. *)
Definition str_int (z : Z) : string := NilZero.string_of_int (Z.to_int z).

(** The floats of the runtime: [float(s)], [str(x)], and the operations
    [x - y], [x / y] and [x * y] with the rounding of the machine. *)
Class FloatText : Type := {
  float_of_str : string -> option Q;
  str_of_float : Q -> string;
  float_sub : Q -> Q -> Q;
  float_div : Q -> Q -> Q;
  float_mul : Q -> Q -> Q
}.

Definition float `{FloatText} (s : string) : result Q :=
  match float_of_str s with
  | Some q => Ok q
  | None => Raise ValueError
  end.

Definition str_num `{FloatText} (n : num) : string :=
  match n with
  | PyInt z => str_int z
  | PyFloat q => str_of_float q
  end.

(** *** Strings *)

Definition nl : string := String "010" "".

(** [c.isspace()] on the ASCII range. *)
Definition isspace (c : ascii) : bool :=
  let n := nat_of_ascii c in
  (n =? 32)%nat || ((9 <=? n)%nat && (n <=? 13)%nat) || ((28 <=? n)%nat && (n <=? 31)%nat).

(** [sub in s]. *)
Fixpoint contains (sub s : string) : bool :=
  String.prefix sub s ||
  match s with
  | "" => false
  | String _ s' => contains sub s'
  end.

(** [s.replace(old, new)] for a non-empty [old]; [skip] counts the
    characters of a matched [old] that are still to be dropped. *)
Fixpoint replace_from (old new : string) (skip : nat) (s : string) : string :=
  match s with
  | "" => ""
  | String c s' =>
      match skip with
      | S k => replace_from old new k s'
      | O =>
          if String.prefix old s
          then new ++ replace_from old new (String.length old - 1) s'
          else String c (replace_from old new 0 s')
      end
  end.

Definition replace (old new s : string) : string := replace_from old new 0 s.

(** [s.split(sep)] for a non-empty [sep]. *)
Fixpoint split_from (sep : string) (skip : nat) (s : string) : list string :=
  match s with
  | "" => [""]
  | String c s' =>
      match skip with
      | S k => split_from sep k s'
      | O =>
          if String.prefix sep s
          then "" :: split_from sep (String.length sep - 1) s'
          else match split_from sep 0 s' with
               | p :: ps => String c p :: ps
               | [] => [String c ""]
               end
      end
  end.

Definition split (sep s : string) : list string := split_from sep 0 s.

(** [s.split()]: the maximal runs of non-space characters. *)
Fixpoint split_ws (s : string) : list string :=
  match s with
  | "" => []
  | String c s' =>
      if isspace c then split_ws s'
      else match s' with
           | "" => [String c ""]
           | String d _ =>
               if isspace d then String c "" :: split_ws s'
               else match split_ws s' with
                    | w :: ws => String c w :: ws
                    | [] => [String c ""]
                    end
           end
  end.

Fixpoint lstrip (s : string) : string :=
  match s with
  | "" => ""
  | String c s' => if isspace c then lstrip s' else s
  end.

Definition reverse (s : string) : string :=
  string_of_list_ascii (rev (list_ascii_of_string s)).

Definition rstrip (s : string) : string := reverse (lstrip (reverse s)).

(** [s.strip()]. *)
Definition strip (s : string) : string := rstrip (lstrip s).

(** No character of [s] is a space or a newline. *)
Definition blank_free (s : string) : bool :=
  forallb (fun c => negb (Ascii.eqb c " ") && negb (Ascii.eqb c "010"))
    (list_ascii_of_string s).

(** [sep.join(l)]. *)
Definition join (sep : string) (l : list string) : string := String.concat sep l.

(** [s[:n]], counted in bytes. *)
Definition take (n : nat) (s : string) : string := substring 0 n s.

(** [l.append(x)], as a new list. *)
Definition append {A} (l : list A) (x : A) : list A := (l ++ [x])%list.

(** [l[0]] and [l[-1]]. *)
Definition first {A} (l : list A) : result A :=
  match l with
  | x :: _ => Ok x
  | [] => Raise IndexError
  end.

Definition last {A} (l : list A) : result A :=
  match rev l with
  | x :: _ => Ok x
  | [] => Raise IndexError
  end.

(** [s.lower()] on the ASCII range. *)
Definition lower_ascii (c : ascii) : ascii :=
  let n := nat_of_ascii c in
  if ((65 <=? n)%nat && (n <=? 90)%nat) then ascii_of_nat (n + 32) else c.

Fixpoint lower (s : string) : string :=
  match s with
  | "" => ""
  | String c s' => String (lower_ascii c) (lower s')
  end.

(** [s.splitlines()] with the ASCII line boundaries. *)
Definition is_linebreak (c : ascii) : bool :=
  let n := nat_of_ascii c in
  ((10 <=? n)%nat && (n <=? 13)%nat) || ((28 <=? n)%nat && (n <=? 30)%nat).

Fixpoint splitlines (s : string) : list string :=
  match s with
  | "" => []
  | String c s' =>
      if is_linebreak c then
        match s' with
        | String d s'' =>
            if ((nat_of_ascii c =? 13)%nat && (nat_of_ascii d =? 10)%nat)
            then "" :: splitlines s''
            else "" :: splitlines s'
        | "" => [""]
        end
      else match splitlines s' with
           | l :: ls => String c l :: ls
           | [] => [String c ""]
           end
  end.

(** [int(s)] for ASCII text: optional surrounding blanks, an optional sign,
    then decimal digits that single underscores may separate. *)
Definition digit_val (c : ascii) : option Z :=
  let n := nat_of_ascii c in
  if ((48 <=? n)%nat && (n <=? 57)%nat) then Some (Z.of_nat n - 48)%Z else None.

Fixpoint int_digits (acc : Z) (after_digit : bool) (s : string) : option Z :=
  match s with
  | "" => if after_digit then Some acc else None
  | String c s' =>
      if (nat_of_ascii c =? 95)%nat then
        match after_digit, s' with
        | true, String _ _ => int_digits acc false s'
        | _, _ => None
        end
      else match digit_val c with
           | Some d => int_digits (10 * acc + d)%Z true s'
           | None => None
           end
  end.

Definition int_of_str (s : string) : option Z :=
  match strip s with
  | String c d =>
      if (nat_of_ascii c =? 45)%nat then Z.opp <$> int_digits 0 false d
      else if (nat_of_ascii c =? 43)%nat then int_digits 0 false d
      else int_digits 0 false (String c d)
  | "" => None
  end.

Definition int (s : string) : result Z :=
  match int_of_str s with
  | Some z => Ok z
  | None => Raise ValueError
  end.

(** *** Dictionaries *)

(** [d[k]] for a dictionary with string keys. *)
Definition getitem {V} (d : gmap string V) (k : string) : result V :=
  match d !! k with
  | Some v => Ok v
  | None => Raise (KeyError k)
  end.

(** [d[k]] for a dictionary with integer keys. *)
Definition getitem_int {V} (d : gmap Z V) (k : Z) : result V :=
  match d !! k with
  | Some v => Ok v
  | None => Raise (KeyError (str_int k))
  end.

(** [d.get(k, default)]. *)
Definition get {K V} `{Countable K} (d : gmap K V) (k : K) (dflt : V) : V :=
  match d !! k with
  | Some v => v
  | None => dflt
  end.

(** *** The operating system and the audio engine *)

Record CompletedProcess : Type := {
  returncode : Z;
  stderr : string
}.

(** The state of the machine: the files with their sizes, the state of the
    external engine, and the log lines emitted so far. *)
Record World (S : Type) : Type := {
  fs : gmap string N;
  engine : S;
  logged : list string
}.

Arguments fs {S} w.
Arguments engine {S} w.
Arguments logged {S} w.

Definition io (S A : Type) : Type := World S -> World S * result A.

#[global] Instance io_ret S : MRet (io S) := fun _ a w => (w, Ok a).

#[global] Instance io_bind S : MBind (io S) := fun _ _ f m w =>
  match m w with
  | (w', Ok a) => f a w'
  | (w', Raise e) => (w', Raise e)
  end.

Definition raise {S A} (e : exn) : io S A := fun w => (w, Raise e).

Definition lift {S A} (r : result A) : io S A := fun w => (w, r).

(** [try: body except Exception as e: handler(e)]. *)
Definition io_try_except {S A} (body : io S A) (handler : exn -> io S A) : io S A :=
  fun w =>
    match body w with
    | (w', Ok a) => (w', Ok a)
    | (w', Raise e) => handler e w'
    end.

(** [try: body finally: cleanup].  The outcome of [body] is kept unless
    [cleanup] raises itself. *)
Definition io_try_finally {S A} (body : io S A) (cleanup : io S unit) : io S A :=
  fun w =>
    let (w1, r) := body w in
    match cleanup w1 with
    | (w2, Ok _) => (w2, r)
    | (w2, Raise e) => (w2, Raise e)
    end.

(** The outcome of [m] as a value: what a [try] statement inspects. *)
Definition io_catch {S A} (m : io S A) : io S (result A) :=
  fun w => let (w', r) := m w in (w', Ok r).

(** [str(e)] for an exception. *)
Definition str_exn (e : exn) : string :=
  match e with
  | KeyError k => "'" ++ k ++ "'"
  | IndexError => "list index out of range"
  | ValueError => "invalid literal"
  | FileNotFoundError m | RuntimeError m | Exception m | SubprocessError m
  | OSError m => m
  end.

Definition when {S} (b : bool) (m : io S unit) : io S unit :=
  if b then m else mret tt.

Definition os_path_exists {S} (p : string) : io S bool :=
  fun w => (w, Ok (bool_decide (is_Some (fs w !! p)))).

Definition os_path_getsize {S} (p : string) : io S N :=
  fun w =>
    match fs w !! p with
    | Some n => (w, Ok n)
    | None => (w, Raise (FileNotFoundError p))
    end.

(** [not os.path.exists(p) or os.path.getsize(p) < n]. *)
Definition missing_or_smaller {S} (p : string) (n : N) : io S bool :=
  found ← os_path_exists p;
  if negb found then mret true
  else size ← os_path_getsize p; mret (size <? n)%N.

(** [if b: raise e]. *)
Definition raise_if {S} (b : bool) (e : exn) : io S unit :=
  if b then raise e else mret tt.

Definition log_emit {S} (line : string) : io S unit :=
  fun w => ({| fs := fs w; engine := engine w; logged := logged w ++ [line] |}, Ok tt).

(** The platform: the path functions of [os.path], the external engine and
    the removal of files.  One invocation of the engine may change its own
    state and any file, and either completes or makes [subprocess.run]
    raise.  [remove_error s p] is the text of the [OSError] with which
    [os.remove(p)] fails in the state [s] when the operating system refuses
    to remove the existing path [p], and [None] when it removes it. *)
Class Platform (S : Type) : Type := {
  FFMPEG_PATH : string;
  splitext : string -> string * string;
  basename : string -> string;
  exec : list string -> S -> gmap string N -> S * gmap string N * result CompletedProcess;
  remove_error : S -> string -> option string
}.

(** [os.remove(p)]: a path that does not exist raises [FileNotFoundError],
    a path that the operating system refuses to remove raises its [OSError]
    and stays in place. *)
Definition os_remove {S} `{Platform S} (p : string) : io S unit :=
  fun w =>
    match fs w !! p with
    | Some _ =>
        match remove_error (engine w) p with
        | Some msg => (w, Raise (OSError msg))
        | None =>
            ({| fs := delete p (fs w); engine := engine w; logged := logged w |}, Ok tt)
        end
    | None => (w, Raise (FileNotFoundError p))
    end.

Definition subprocess_run {S} `{Platform S} (cmd : list string) : io S CompletedProcess :=
  fun w =>
    let '(e, f, r) := exec cmd (engine w) (fs w) in
    ({| fs := f; engine := e; logged := logged w |}, r).

(** *** Conversions and loops used by the worker threads *)

(** [int(x)] for a float: truncation towards zero. *)
Definition int_of_float (q : Q) : Z := Z.quot (Qnum q) (Z.pos (Qden q)).

(** [int(i / total * 100)], the argument of [progress_updated.emit]. *)
Definition percent `{FloatText} (i total : Z) : Z :=
  int_of_float (float_mul (float_div (inject_Z i) (inject_Z total)) 100).

(** [format(x, ".1f")] of the runtime. *)
Class FloatFormat : Type := {
  fixed1 : Q -> string
}.

(** [for x in l: acc = body(acc, x)] where the body may raise. *)
Fixpoint for_each {A B} (body : B -> A -> result B) (l : list A) (acc : B) : result B :=
  match l with
  | [] => Ok acc
  | x :: rest =>
      match body acc x with
      | Ok acc' => for_each body rest acc'
      | Raise e => Raise e
      end
  end.

End Py.

(** ** The professional voice enhancer v3.3 *)

Module Pro33.

Import Py.
Local Open Scope string_scope.
Local Open Scope Q_scope.

Definition TARGET_LUFS : Q := -16.0.
Definition PEAK_THRESHOLD : Q := -1.0.
Definition SAMPLE_RATE : Z := 44100.
Definition BIT_DEPTH : Z := 16.

(** The [analysis] dictionary of [analyze_audio_quality]; its keys are
    fixed by the literal that creates it. *)
Record Analysis : Type := {
  format : string;
  is_lossless : bool;
  bitrate : Z;
  sample_rate : Z;
  channels : Z;
  duration : Q;
  loudness : Q;
  dynamic_range : Q;
  noise_floor : Q;
  gender : string;
  high_freq_energy : Q;
  volume_level : Q;
  quality_score : Q
}.

(** *** [ProfessionalVocalProcessor.calculate_quality_score] *)

Definition calculate_quality_score (analysis : Analysis) : Q :=
  let score := 50.0 in
  let score :=
    if is_lossless analysis then score + 15
    else if (bitrate analysis >=? 320)%Z then score + 10
    else if (bitrate analysis >=? 192)%Z then score + 5
    else score in
  let score :=
    if (sample_rate analysis >=? 48000)%Z then score + 5 else score in
  let score :=
    if fle (Qabs (loudness analysis + 16)) 2 then score + 10
    else if fle (Qabs (loudness analysis + 16)) 4 then score + 5
    else score in
  let score :=
    if fge (dynamic_range analysis) 15 then score + 10
    else if fge (dynamic_range analysis) 12 then score + 5
    else score in
  let score :=
    if fle (noise_floor analysis) (-55) then score + 10
    else if fle (noise_floor analysis) (-45) then score + 5
    else score in
  Qmin score 100.0.

(** The additive formula of the quality scorer as the specification words
    it: a baseline and one bonus per dimension, capped at 100. *)
Module Spec.

Definition format_bonus (a : Analysis) : Q :=
  if is_lossless a then 15
  else if (320 <=? bitrate a)%Z then 10
  else if (192 <=? bitrate a)%Z then 5
  else 0.

Definition sample_rate_bonus (a : Analysis) : Q :=
  if (48000 <=? sample_rate a)%Z then 5 else 0.

Definition loudness_bonus (a : Analysis) : Q :=
  if Qle_bool (Qabs (loudness a - (-16))) 2 then 10
  else if Qle_bool (Qabs (loudness a - (-16))) 4 then 5
  else 0.

Definition dynamic_range_bonus (a : Analysis) : Q :=
  if Qle_bool 15 (dynamic_range a) then 10
  else if Qle_bool 12 (dynamic_range a) then 5
  else 0.

Definition noise_floor_bonus (a : Analysis) : Q :=
  if Qle_bool (noise_floor a) (-55) then 10
  else if Qle_bool (noise_floor a) (-45) then 5
  else 0.

Definition score (a : Analysis) : Q :=
  Qmin (50 + format_bonus a + sample_rate_bonus a + loudness_bonus a
        + dynamic_range_bonus a + noise_floor_bonus a) 100.

End Spec.

(** [analysis] with its ["dynamic_range"] entry replaced. *)
Definition with_dynamic_range (dr : Q) (a : Analysis) : Analysis :=
  {| format := format a; is_lossless := is_lossless a; bitrate := bitrate a;
     sample_rate := sample_rate a; channels := channels a;
     duration := duration a; loudness := loudness a; dynamic_range := dr;
     noise_floor := noise_floor a; gender := gender a;
     high_freq_energy := high_freq_energy a; volume_level := volume_level a;
     quality_score := quality_score a |}.

(** *** [ProfessionalVocalProcessor.build_gentle_reverb_filter] *)

Definition reverb_presets : gmap Z (gmap string string) :=
  {[ 1%Z := {[ "delays" := "30|55|80|110";
               "decays" := "0.20|0.16|0.13|0.10";
               "wet" := "0.12" ]};
     2%Z := {[ "delays" := "25|50|75|100|130";
               "decays" := "0.24|0.20|0.16|0.13|0.10";
               "wet" := "0.16" ]};
     3%Z := {[ "delays" := "20|40|60|85|110|140";
               "decays" := "0.28|0.24|0.20|0.16|0.13|0.10";
               "wet" := "0.20" ]};
     4%Z := {[ "delays" := "18|36|54|76|98|122|150";
               "decays" := "0.32|0.28|0.24|0.20|0.16|0.13|0.10";
               "wet" := "0.24" ]};
     5%Z := {[ "delays" := "16|32|48|68|88|110|135|165";
               "decays" := "0.36|0.32|0.28|0.24|0.20|0.16|0.13|0.10";
               "wet" := "0.28" ]} ]}.

(** A preset has the three entries the builder reads. *)
Definition complete_preset (p : gmap string string) : Prop :=
  exists d c w,
    p !! "delays" = Some d /\ p !! "decays" = Some c /\ p !! "wet" = Some w.

Definition build_gentle_reverb_filter (reverb_amount : Z) : result string :=
  if (reverb_amount =? 0)%Z then mret ""
  else
    fallback ← getitem_int reverb_presets 2;
    let params := get reverb_presets reverb_amount fallback in
    delays ← getitem params "delays";
    decays ← getitem params "decays";
    wet ← getitem params "wet";
    mret (replace " " "" (replace nl ""
      (nl ++
       "            asplit=2[dry][wet];" ++ nl ++
       "            [wet]aecho=0.6:0.4:" ++ delays ++ ":" ++ decays ++
         ",highpass=f=180,lowpass=f=8000,volume=" ++ wet ++ "[wet_out];" ++ nl ++
       "            [dry][wet_out]amix=inputs=2:normalize=0" ++ nl ++
       "        "))).

(** *** [ProfessionalVocalProcessor.build_professional_filter_chain] *)

Definition nr_map : gmap string string :=
  {[ "low" := "highpass=f=100,lowpass=f=14000";
     "medium" := "highpass=f=150,lowpass=f=12000";
     "high" := "highpass=f=200,lowpass=f=10000" ]}.

Definition nr_names : gmap string string :=
  {[ "轻" := "low"; "中" := "medium"; "重" := "high" ]}.

(** Stage 1, the noise-suppression stage. *)
Definition noise_stage (noise_reduction : string) : string :=
  let nr_key := get nr_names noise_reduction noise_reduction in
  get nr_map nr_key "highpass=f=150,lowpass=f=12000".

(** The preset part of [eq_settings]. *)
Definition preset_eq (preset : string) : list string :=
  if String.eqb preset "新闻播报" then
    [ "equalizer=f=100:g=1.5:w=0.707";
      "equalizer=f=300:g=-1.0:w=1.0";
      "equalizer=f=1000:g=2.0:w=1.0";
      "equalizer=f=3000:g=1.5:w=1.0";
      "equalizer=f=6000:g=0.5:w=2.0" ]
  else if String.eqb preset "纪录片解说" then
    [ "equalizer=f=80:g=2.0:w=0.707";
      "equalizer=f=250:g=1.0:w=1.0";
      "equalizer=f=800:g=1.5:w=1.0";
      "equalizer=f=2000:g=1.0:w=1.0";
      "equalizer=f=4000:g=0.5:w=1.0" ]
  else if String.eqb preset "广告配音" then
    [ "equalizer=f=120:g=1.5:w=0.707";
      "equalizer=f=400:g=1.0:w=1.0";
      "equalizer=f=1500:g=2.0:w=1.0";
      "equalizer=f=4000:g=2.0:w=1.0";
      "equalizer=f=8000:g=1.0:w=2.0" ]
  else
    [ "equalizer=f=100:g=1.5:w=0.707";
      "equalizer=f=300:g=-0.5:w=1.0";
      "equalizer=f=1000:g=1.5:w=1.0";
      "equalizer=f=3000:g=1.0:w=1.0";
      "equalizer=f=6000:g=0.5:w=2.0" ].

Section Chain.

Context {FT : FloatText}.

(** Stage 2, the joined [eq_settings]. *)
Definition eq_stage (preset : string) (voice_clarity warmth_level : Z) : string :=
  let eq_settings := preset_eq preset in
  let clarity_gain := inject_Z (voice_clarity - 3) * 0.6 in
  let eq_settings :=
    append eq_settings ("equalizer=f=2500:g=" ++ str_of_float (1.5 + clarity_gain) ++ ":w=1.2") in
  let warmth_gain := inject_Z (warmth_level - 3) * 0.5 in
  let eq_settings :=
    append eq_settings ("equalizer=f=200:g=" ++ str_of_float (1.0 + warmth_gain) ++ ":w=1.4") in
  join "," eq_settings.

(** Stage 6, the local [loudnorm_filter]. *)
Definition loudnorm_filter (analysis : Analysis) : string :=
  "loudnorm=I=" ++ str_of_float TARGET_LUFS ++ ":LRA=8:TP=" ++ str_of_float PEAK_THRESHOLD ++ ":" ++
  "measured_I=" ++ str_of_float (loudness analysis) ++
  ":measured_LRA=" ++ str_of_float (dynamic_range analysis) ++ ":measured_TP=-1.0".

(** The list [filters] when the function reaches its [return]. *)
Definition professional_filters
    (preset : string) (voice_clarity warmth_level reverb_amount : Z)
    (noise_reduction : string) (analysis : Analysis) : result (list string) :=
  let filters := [] in
  let filters := append filters (noise_stage noise_reduction) in
  let filters := append filters (eq_stage preset voice_clarity warmth_level) in
  let filters :=
    append filters "acompressor=threshold=-20dB:ratio=2.0:attack=50:release=500:makeup=2" in
  let filters := append filters "equalizer=f=2000:g=0.5:w=2.0" in
  filters ←
    (if (reverb_amount >? 0)%Z then
       reverb_filter ← build_gentle_reverb_filter reverb_amount;
       mret (if String.eqb reverb_filter "" then filters else append filters reverb_filter)
     else mret filters);
  let filters := append filters (loudnorm_filter analysis) in
  let filters :=
    append filters "alimiter=level_in=1:level_out=1:limit=0.9:attack=0.1:release=5:asc=0" in
  mret filters.

Definition build_professional_filter_chain
    (preset : string) (voice_clarity warmth_level reverb_amount : Z)
    (noise_reduction : string) (analysis : Analysis) : result string :=
  filters ← professional_filters preset voice_clarity warmth_level reverb_amount
              noise_reduction analysis;
  mret (replace " " "" (replace nl "" (join "," filters))).

End Chain.

(** *** [ProfessionalVocalProcessor.get_professional_output_params] *)

Record OutputParams : Type := {
  codec : string;
  params : list string;
  ext : string;
  out_sample_rate : Z;
  bit_depth : Z;
  is_video : bool
}.

Definition get_professional_output_params (analysis : Analysis) : OutputParams :=
  if existsb (String.eqb (format analysis)) [".mp4"; ".mov"; ".mkv"; ".avi"] then
    {| codec := "aac"; params := ["-b:a"; "192k"; "-profile:a"; "aac_low"];
       ext := ".mp4"; out_sample_rate := SAMPLE_RATE; bit_depth := BIT_DEPTH;
       is_video := true |}
  else if is_lossless analysis || (bitrate analysis >=? 320)%Z then
    {| codec := "flac"; params := ["-compression_level"; "6"];
       ext := ".flac"; out_sample_rate := SAMPLE_RATE; bit_depth := BIT_DEPTH;
       is_video := false |}
  else if existsb (String.eqb (format analysis)) [".m4a"; ".aac"] then
    {| codec := "aac"; params := ["-b:a"; "192k"; "-profile:a"; "aac_low"];
       ext := ".m4a"; out_sample_rate := SAMPLE_RATE; bit_depth := BIT_DEPTH;
       is_video := false |}
  else
    {| codec := "libmp3lame"; params := ["-b:a"; "192k"; "-q:a"; "2"];
       ext := ".mp3"; out_sample_rate := SAMPLE_RATE; bit_depth := BIT_DEPTH;
       is_video := false |}.

(** *** Assignments to the entries of [analysis] *)

Definition set_is_lossless (v : bool) (a : Analysis) : Analysis :=
  {| format := format a; is_lossless := v; bitrate := bitrate a;
     sample_rate := sample_rate a; channels := channels a; duration := duration a;
     loudness := loudness a; dynamic_range := dynamic_range a;
     noise_floor := noise_floor a; gender := gender a;
     high_freq_energy := high_freq_energy a; volume_level := volume_level a;
     quality_score := quality_score a |}.

Definition set_bitrate (v : Z) (a : Analysis) : Analysis :=
  {| format := format a; is_lossless := is_lossless a; bitrate := v;
     sample_rate := sample_rate a; channels := channels a; duration := duration a;
     loudness := loudness a; dynamic_range := dynamic_range a;
     noise_floor := noise_floor a; gender := gender a;
     high_freq_energy := high_freq_energy a; volume_level := volume_level a;
     quality_score := quality_score a |}.

Definition set_sample_rate (v : Z) (a : Analysis) : Analysis :=
  {| format := format a; is_lossless := is_lossless a; bitrate := bitrate a;
     sample_rate := v; channels := channels a; duration := duration a;
     loudness := loudness a; dynamic_range := dynamic_range a;
     noise_floor := noise_floor a; gender := gender a;
     high_freq_energy := high_freq_energy a; volume_level := volume_level a;
     quality_score := quality_score a |}.

Definition set_channels (v : Z) (a : Analysis) : Analysis :=
  {| format := format a; is_lossless := is_lossless a; bitrate := bitrate a;
     sample_rate := sample_rate a; channels := v; duration := duration a;
     loudness := loudness a; dynamic_range := dynamic_range a;
     noise_floor := noise_floor a; gender := gender a;
     high_freq_energy := high_freq_energy a; volume_level := volume_level a;
     quality_score := quality_score a |}.

Definition set_duration (v : Q) (a : Analysis) : Analysis :=
  {| format := format a; is_lossless := is_lossless a; bitrate := bitrate a;
     sample_rate := sample_rate a; channels := channels a; duration := v;
     loudness := loudness a; dynamic_range := dynamic_range a;
     noise_floor := noise_floor a; gender := gender a;
     high_freq_energy := high_freq_energy a; volume_level := volume_level a;
     quality_score := quality_score a |}.

Definition set_loudness (v : Q) (a : Analysis) : Analysis :=
  {| format := format a; is_lossless := is_lossless a; bitrate := bitrate a;
     sample_rate := sample_rate a; channels := channels a; duration := duration a;
     loudness := v; dynamic_range := dynamic_range a;
     noise_floor := noise_floor a; gender := gender a;
     high_freq_energy := high_freq_energy a; volume_level := volume_level a;
     quality_score := quality_score a |}.

Definition set_noise_floor (v : Q) (a : Analysis) : Analysis :=
  {| format := format a; is_lossless := is_lossless a; bitrate := bitrate a;
     sample_rate := sample_rate a; channels := channels a; duration := duration a;
     loudness := loudness a; dynamic_range := dynamic_range a;
     noise_floor := v; gender := gender a;
     high_freq_energy := high_freq_energy a; volume_level := volume_level a;
     quality_score := quality_score a |}.

Definition set_gender (v : string) (a : Analysis) : Analysis :=
  {| format := format a; is_lossless := is_lossless a; bitrate := bitrate a;
     sample_rate := sample_rate a; channels := channels a; duration := duration a;
     loudness := loudness a; dynamic_range := dynamic_range a;
     noise_floor := noise_floor a; gender := v;
     high_freq_energy := high_freq_energy a; volume_level := volume_level a;
     quality_score := quality_score a |}.

Definition set_high_freq_energy (v : Q) (a : Analysis) : Analysis :=
  {| format := format a; is_lossless := is_lossless a; bitrate := bitrate a;
     sample_rate := sample_rate a; channels := channels a; duration := duration a;
     loudness := loudness a; dynamic_range := dynamic_range a;
     noise_floor := noise_floor a; gender := gender a;
     high_freq_energy := v; volume_level := volume_level a;
     quality_score := quality_score a |}.

Definition set_volume_level (v : Q) (a : Analysis) : Analysis :=
  {| format := format a; is_lossless := is_lossless a; bitrate := bitrate a;
     sample_rate := sample_rate a; channels := channels a; duration := duration a;
     loudness := loudness a; dynamic_range := dynamic_range a;
     noise_floor := noise_floor a; gender := gender a;
     high_freq_energy := high_freq_energy a; volume_level := v;
     quality_score := quality_score a |}.

Definition set_quality_score (v : Q) (a : Analysis) : Analysis :=
  {| format := format a; is_lossless := is_lossless a; bitrate := bitrate a;
     sample_rate := sample_rate a; channels := channels a; duration := duration a;
     loudness := loudness a; dynamic_range := dynamic_range a;
     noise_floor := noise_floor a; gender := gender a;
     high_freq_energy := high_freq_energy a; volume_level := volume_level a;
     quality_score := v |}.

(** The dictionary returned by [get_volume_stats], with keys ["max"],
    ["min"] and ["mean"]. *)
Record VolumeStats : Type := {
  stat_max : Q;
  stat_min : Q;
  stat_mean : Q
}.

Section Extractor.

Context {FT : FloatText} {S : Type} {OS : Platform S}.

(** **** The container probe of [analyze_audio_quality] *)

(** The body of the [try] under [if "Duration" in line]; [None] when the
    text has not three colon-separated parts. *)
Definition duration_of_line (line : string) : result (option Q) :=
  head ← first (split "," line);
  tail ← last (split ":" head);
  let duration_str := strip tail in
  let parts := split ":" duration_str in
  match parts with
  | [hours; minutes; seconds] =>
      h ← float hours;
      m ← float minutes;
      s ← float seconds;
      mret (Some (h * 3600 + m * 60 + s))
  | _ => mret None
  end.

Definition bitrate_of_line (line : string) : result Z :=
  head ← first (split "kb/s" line);
  word ← last (split_ws head);
  int word.

Definition sample_rate_of_line (line : string) : result Z :=
  head ← first (split "Hz" line);
  word ← last (split_ws head);
  int word.

(** The body of the [try] under [if "Audio" in line]: an exception leaves
    the assignments made before it in place. *)
Definition parse_audio_line (line : string) (analysis : Analysis) : Analysis :=
  let analysis :=
    if contains "flac" line || contains "wav" line
    then set_is_lossless true analysis else analysis in
  match (if contains "kb/s" line then Some <$> bitrate_of_line line else mret None) with
  | Raise _ => analysis
  | Ok b =>
      let analysis := from_option (fun v => set_bitrate v analysis) analysis b in
      match (if contains "Hz" line then Some <$> sample_rate_of_line line else mret None) with
      | Raise _ => analysis
      | Ok r =>
          let analysis := from_option (fun v => set_sample_rate v analysis) analysis r in
          if contains "stereo" line then set_channels 2 analysis else analysis
      end
  end.

(** One iteration of the loop over the lines of the probe. *)
Definition parse_probe_line (analysis : Analysis) (line : string) : Analysis :=
  let analysis :=
    if contains "Duration" line then
      match duration_of_line line with
      | Ok (Some d) => set_duration d analysis
      | Ok None | Raise _ => analysis
      end
    else analysis in
  if contains "Audio" line then parse_audio_line line analysis else analysis.

(** **** [measure_loudness] *)

Definition loudness_of_line (line : string) : result Q :=
  tail ← last (split ":" line);
  word ← first (split_ws (strip tail));
  float word.

Fixpoint scan_loudness (lines : list string) : Q :=
  match lines with
  | [] => -20.0
  | line :: rest =>
      if contains "Input Integrated Loudness" line then
        match loudness_of_line line with
        | Ok v => v
        | Raise _ => scan_loudness rest
        end
      else scan_loudness rest
  end.

(** The local [cmd] of [measure_loudness]. *)
Definition loudness_cmd (input_path : string) : list string :=
  [FFMPEG_PATH; "-i"; input_path; "-af";
   "loudnorm=I=-16:LRA=8:TP=-1.0:print_format=summary";
   "-f"; "null"; "-"; "-hide_banner"].

Definition measure_loudness (input_path : string) : io S Q :=
  let cmd := loudness_cmd input_path in
  outcome ← io_catch (subprocess_run cmd);
  match outcome with
  | Raise _ => mret (-20.0)
  | Ok result => mret (scan_loudness (splitlines (stderr result)))
  end.

(** **** [get_volume_stats] *)

Definition volume_of_line (line : string) : result Q :=
  tail ← last (split ":" line);
  float (replace " dB" "" (strip tail)).

(** One iteration of the loop of [get_volume_stats] over the triple
    [(max_vol, min_vol, mean_vol)]. *)
Definition scan_volume_line (acc : Q * Q * Q) (line : string) : Q * Q * Q :=
  let '(max_vol, min_vol, mean_vol) := acc in
  let max_vol :=
    if contains "max_volume" line
    then match volume_of_line line with Ok v => v | Raise _ => max_vol end
    else max_vol in
  let min_vol :=
    if contains "min_volume" line
    then match volume_of_line line with Ok v => v | Raise _ => min_vol end
    else min_vol in
  let mean_vol :=
    if contains "mean_volume" line
    then match volume_of_line line with Ok v => v | Raise _ => mean_vol end
    else mean_vol in
  (max_vol, min_vol, mean_vol).

(** The local [cmd] of [get_volume_stats]. *)
Definition volume_cmd (input_path : string) : list string :=
  [FFMPEG_PATH; "-i"; input_path; "-af"; "volumedetect"; "-vn";
   "-f"; "null"; "-"; "-hide_banner"].

Definition get_volume_stats (input_path : string) : io S VolumeStats :=
  let cmd := volume_cmd input_path in
  outcome ← io_catch (subprocess_run cmd);
  match outcome with
  | Raise _ => mret {| stat_max := -10.0; stat_min := -60.0; stat_mean := -20.0 |}
  | Ok result =>
      let '(max_vol, min_vol, mean_vol) :=
        fold_left scan_volume_line (splitlines (stderr result)) (-10.0, -60.0, -20.0) in
      mret {| stat_max := max_vol; stat_min := min_vol; stat_mean := mean_vol |}
  end.

Definition analyze_dynamics (input_path : string) : io S (Q * Q) :=
  stats ← get_volume_stats input_path;
  mret (Qabs (float_sub (stat_max stats) (stat_min stats)), stat_min stats).

Definition detect_voice_characteristics (input_path : string) : io S (string * Q) :=
  stats ← get_volume_stats input_path;
  let max_vol := stat_max stats in
  let gender :=
    if fgt max_vol (-6) then "male"
    else if flt max_vol (-12) then "female"
    else "unknown" in
  mret (gender, max_vol).

Definition calculate_perceived_loudness (input_path : string) : io S Q :=
  stats ← get_volume_stats input_path;
  mret (stat_mean stats).

(** **** [analyze_audio_quality] *)

(** The literal that creates [analysis]. *)
Definition initial_analysis (input_path : string) : Analysis :=
  {| format := lower (snd (splitext input_path));
     is_lossless := false; bitrate := 192; sample_rate := 44100;
     channels := 2; duration := 0; loudness := -20.0;
     dynamic_range := 12.0; noise_floor := -60.0; gender := "unknown";
     high_freq_energy := -20.0; volume_level := 0.0; quality_score := 0.0 |}.

(** The local [cmd] of the container probe. *)
Definition probe_cmd (input_path : string) : list string :=
  [FFMPEG_PATH; "-i"; input_path; "-hide_banner"].

(** A line of the probe that leaves the default bitrate in place: it is not
    an audio stream line, or names no bitrate, or its bitrate does not
    parse. *)
Definition bitrate_silent (line : string) : Prop :=
  contains "Audio" line = false
  \/ contains "kb/s" line = false
  \/ raises (bitrate_of_line line) = true.

(** A line of the probe that leaves the default sample rate in place. *)
Definition sample_rate_silent (line : string) : Prop :=
  contains "Audio" line = false
  \/ (contains "kb/s" line = true /\ raises (bitrate_of_line line) = true)
  \/ contains "Hz" line = false
  \/ raises (sample_rate_of_line line) = true.

(** A line of the loudness summary that yields no loudness. *)
Definition loudness_silent (line : string) : Prop :=
  contains "Input Integrated Loudness" line = false
  \/ raises (loudness_of_line line) = true.

Definition analyze_audio_quality (input_path : string) : io S Analysis :=
  found ← os_path_exists input_path;
  if negb found then raise (FileNotFoundError ("文件不存在: " ++ input_path))
  else
    let analysis := initial_analysis input_path in
    let cmd := probe_cmd input_path in
    result ← io_try_except (subprocess_run cmd)
               (fun e => raise (RuntimeError ("分析文件失败: " ++ str_exn e)));
    let analysis := fold_left parse_probe_line (splitlines (stderr result)) analysis in
    l ← measure_loudness input_path;
    let analysis := set_loudness l analysis in
    '(dr, nf) ← analyze_dynamics input_path;
    let analysis := set_noise_floor nf (with_dynamic_range dr analysis) in
    '(g, hf) ← detect_voice_characteristics input_path;
    let analysis := set_high_freq_energy hf (set_gender g analysis) in
    v ← calculate_perceived_loudness input_path;
    let analysis := set_volume_level v analysis in
    let analysis := set_quality_score (calculate_quality_score analysis) analysis in
    mret analysis.

(** *** [ProfessionalProcessingThread._professional_process_safe] *)

Definition _professional_process_safe
    (input_path filter_chain : string) (output_params : OutputParams) : io S string :=
  let base := fst (splitext input_path) in
  let temp_wav := base ++ "_professional_temp.wav" in
  let output_path := base ++ "_专业优化后" ++ ext output_params in
  _ ← mapM (fun f => found ← os_path_exists f; when found (os_remove f))
        [temp_wav; output_path];
  io_try_finally
    (let pre_cmd :=
       [FFMPEG_PATH; "-y"; "-hide_banner"; "-i"; input_path;
        "-filter_complex"; filter_chain;
        "-c:a"; "pcm_s" ++ str_int (bit_depth output_params) ++ "le";
        "-ar"; str_int (out_sample_rate output_params);
        "-ac"; "2";
        "-vn";
        "-avoid_negative_ts"; "make_zero";
        temp_wav] in
     _ ← log_emit "  执行专业预处理...";
     result ← subprocess_run pre_cmd;
     _ ← (let error_msg := replace nl " " (take 200 (stderr result)) in
          raise_if (negb (returncode result =? 0)%Z)
            (Exception ("预处理失败：" ++ error_msg)));
     invalid ← missing_or_smaller temp_wav 1024;
     _ ← raise_if invalid (Exception "预处理未生成有效文件");
     let post_cmd :=
       if is_video output_params then
         ([FFMPEG_PATH; "-y"; "-hide_banner"; "-i"; input_path; "-i"; temp_wav;
           "-map"; "0:v"; "-map"; "1:a";
           "-c:v"; "copy";
           "-c:a"; codec output_params] ++ params output_params ++
          ["-ar"; str_int (out_sample_rate output_params);
           "-ac"; "2";
           "-movflags"; "+faststart";
           "-shortest";
           output_path])%list
       else
         ([FFMPEG_PATH; "-y"; "-hide_banner"; "-i"; temp_wav;
           "-c:a"; codec output_params] ++ params output_params ++
          ["-ar"; str_int (out_sample_rate output_params);
           "-ac"; "2";
           "-write_xing"; "0";
           output_path])%list in
     _ ← log_emit "  执行专业编码...";
     result ← subprocess_run post_cmd;
     _ ← (let error_msg := replace nl " " (take 200 (stderr result)) in
          raise_if (negb (returncode result =? 0)%Z)
            (Exception ("编码失败：" ++ error_msg)));
     invalid ← missing_or_smaller output_path (8 * 1024);
     _ ← raise_if invalid (Exception "输出文件无效");
     _ ← log_emit ("专业处理完成：" ++ basename output_path);
     mret output_path)
    (found ← os_path_exists temp_wav; when found (os_remove temp_wav)).

End Extractor.

(** The gender that [detect_voice_characteristics] assigns to a peak
    level, as its three branches spell it. *)
Definition gender_of_peak (max_vol : Q) : string :=
  if fgt max_vol (-6) then "male"
  else if flt max_vol (-12) then "female"
  else "unknown".

(** *** [ProfessionalProcessingThread.run] *)

(** The signals of the worker other than [log], whose lines go to [logged]. *)
Inductive Signal : Type :=
| progress_updated (percent : Z)
| all_finished
| error (msg : string)
| file_processed (input_path output_path : string)
| quality_report (analysis : Analysis).

(** The fields of [ProfessionalProcessingThread].  The flag [self.abort] is
    set by [stop] from the window while the worker runs: [abort idx] is the
    value that the iteration of index [idx] reads. *)
Record Thread : Type := {
  file_list : list string;
  preset : string;
  voice_clarity : Z;
  warmth_level : Z;
  reverb_amount : Z;
  noise_reduction : string;
  abort : Z -> bool
}.

Section Run.

Context {FT : FloatText} {FF : FloatFormat} {S : Type} {OS : Platform S}.

(** The statements of the [try] of [run] that follow
    [quality_report.emit(analysis)], up to the value of [output_path]. *)
Definition process_analysed
    (self : Thread) (input_path : string) (analysis : Analysis) : io S string :=
  let gender_text :=
    if String.eqb (gender analysis) "female" then "女声"
    else if String.eqb (gender analysis) "male" then "男声"
    else "未知" in
  let quality_level :=
    if fge (quality_score analysis) 80 then "优秀"
    else if fge (quality_score analysis) 60 then "良好"
    else "一般" in
  _ ← log_emit ("  质量评估：" ++ quality_level ++ " (" ++
                fixed1 (quality_score analysis) ++ "分)");
  _ ← log_emit ("  声音特征：" ++ gender_text ++ " | 响度" ++
                fixed1 (loudness analysis) ++ "LUFS | 动态范围" ++
                fixed1 (dynamic_range analysis) ++ "dB");
  _ ← log_emit ("  技术参数：" ++ str_int (sample_rate analysis) ++ "Hz | " ++
                (if is_lossless analysis then "无损"
                 else str_int (bitrate analysis) ++ "kbps"));
  _ ← log_emit "  构建专业滤镜链...";
  filter_chain ← lift (build_professional_filter_chain (preset self) (voice_clarity self)
                         (warmth_level self) (reverb_amount self)
                         (noise_reduction self) analysis);
  _ ← log_emit ("  滤镜链复杂度：" ++ str_int (Z.of_nat (String.length filter_chain)) ++
                " 字符");
  let output_params := get_professional_output_params analysis in
  _professional_process_safe input_path filter_chain output_params.

(** One iteration of the loop of [run] past the test of [self.abort], with
    the signals it emits.  The [try] is split at [quality_report.emit]: an
    exception of the analysis is reported before any quality report, an
    exception of a later statement after it. *)
Definition run_file (self : Thread) (idx : Z) (input_path : string) : io S (list Signal) :=
  let total := Z.of_nat (length (file_list self)) in
  let filename := basename input_path in
  _ ← log_emit ("开始专业处理：" ++ filename);
  _ ← log_emit "  执行专业音频分析...";
  analysed ← io_catch (analyze_audio_quality input_path);
  emitted ←
    match analysed return io S (list Signal) with
    | Raise e => mret [error (filename ++ " 处理失败：" ++ str_exn e)]
    | Ok analysis =>
        outcome ← io_catch (process_analysed self input_path analysis);
        mret [quality_report analysis;
              match outcome with
              | Ok output_path => file_processed input_path output_path
              | Raise e => error (filename ++ " 处理失败：" ++ str_exn e)
              end]
    end;
  let progress := percent idx total in
  mret (emitted ++ [progress_updated progress])%list.

(** The loop of [run] from the file of index [idx] on, and the closing
    [all_finished.emit()] that an abort skips. *)
Fixpoint run_from (self : Thread) (idx : Z) (files : list string) : io S (list Signal) :=
  match files with
  | [] => mret [all_finished]
  | input_path :: rest =>
      if abort self idx then
        _ ← log_emit "处理已终止";
        mret []
      else
        emitted ← run_file self idx input_path;
        later ← run_from self (idx + 1) rest;
        mret (emitted ++ later)%list
  end.

Definition run (self : Thread) : io S (list Signal) :=
  run_from self 1 (file_list self).

End Run.

(** What [run] emits for one file ahead of its progress update: an error
    alone when the analysis raises, else the quality report followed by the
    processed file or by an error. *)
Definition reports (input_path : string) (block : list Signal) : Prop :=
  (exists msg, block = [error msg])
  \/ (exists analysis msg, block = [quality_report analysis; error msg])
  \/ (exists analysis output_path,
        block = [quality_report analysis; file_processed input_path output_path]).

(** The signals of a run over files of index [idx] onwards, given what is
    emitted for each file: every block is followed by its progress update. *)
Fixpoint batch_signals `{FloatText} (total idx : Z) (blocks : list (list Signal)) : list Signal :=
  match blocks with
  | [] => []
  | block :: rest =>
      (block ++ progress_updated (percent idx total)
         :: batch_signals total (idx + 1) rest)%list
  end.

(** *** The window [ProfessionalVocalEnhancer] *)

(** [get_improvement_suggestions]. *)
Definition get_improvement_suggestions (analysis : Analysis) : string :=
  let suggestions := [] in
  let suggestions :=
    if flt (loudness analysis) (-18) then append suggestions "建议提升整体响度"
    else if fgt (loudness analysis) (-14) then append suggestions "建议降低整体响度"
    else suggestions in
  let suggestions :=
    if fgt (dynamic_range analysis) 18 then append suggestions "建议增加压缩量"
    else if flt (dynamic_range analysis) 10 then append suggestions "建议减少压缩量"
    else suggestions in
  let suggestions :=
    if fgt (noise_floor analysis) (-45) then append suggestions "建议加强降噪"
    else suggestions in
  let suggestions :=
    if flt (high_freq_energy analysis) (-25) then append suggestions "建议提升高频细节"
    else suggestions in
  match suggestions with
  | [] => "音频质量良好，适合专业使用"
  | _ => join " | " suggestions
  end.

(** The items of [noise_combo], and the tier that
    [start_professional_processing] passes to the worker for the current
    item: [currentText().split("（")[0]]. *)
Definition noise_combo_items : list string :=
  ["轻（高质量录音）"; "中（标准环境）"; "重（嘈杂环境）"].

Definition selected_noise_reduction (current_text : string) : result string :=
  first (split "（" current_text).

End Pro33.

(** ** The automatic voice enhancer v2.0 *)

Module Vocal20.

Import Py.
Local Open Scope string_scope.
Local Open Scope Q_scope.

Definition TARGET_LUFS : Q := -16.0.
Definition LRA : Z := 8.
Definition PEAK_THRESHOLD : Q := -1.5.
Definition NOISE_REDUCTION : Z := -30.

(** The [analysis] dictionary.  The builder reads the four measurements
    with [analysis.get(key, default)], so each of them may be absent. *)
Record Analysis : Type := {
  is_lossless : bool;
  ext : string;
  bitrate : Z;
  loudness : option Q;
  dynamic_range : option Q;
  noise_floor : option Q;
  high_freq_energy : option Q;
  input_path : string
}.

Definition dn_map : gmap string string :=
  {[ "low" := "-20"; "mid" := "-30"; "high" := "-40" ]}.

(** The local [base_dn] of [build_vocal_filter_chain]. *)
Definition base_dn (denoise_level : string) : result Z :=
  int (get dn_map denoise_level "-30").

(** The base level of each tier as the specification words it; a tier
    that is not recognised gets the default level. *)
Module Spec.

Definition tier_base (tier : string) : Z :=
  if String.eqb tier "low" then -20
  else if String.eqb tier "mid" then -30
  else if String.eqb tier "high" then -40
  else -30.

(** Base when the floor is above -45 dBFS, base relaxed by 10 when it is
    below -55 dBFS, base relaxed by 5 otherwise. *)
Definition strength (base : Z) (noise_floor : Q) : Z :=
  if Qlt_le_dec (-45) noise_floor then base
  else if Qlt_le_dec noise_floor (-55) then base + 10
  else base + 5.

End Spec.

(** The local [final_dn]: the base strength adjusted by the noise floor. *)
Definition final_dn (denoise_level : string) (analysis : Analysis) : result Z :=
  base_dn ← base_dn denoise_level;
  let noise_floor := default (-50.0) (noise_floor analysis) in
  mret (if fgt noise_floor (-45) then base_dn
        else if flt noise_floor (-55) then (base_dn + 10)%Z
        else (base_dn + 5)%Z).

(** Stage 1, the noise-suppression stage. *)
Definition denoise_stage (denoise_level : string) (analysis : Analysis) : result string :=
  final_dn ← final_dn denoise_level analysis;
  mret ("afftdn=nf=" ++ str_int final_dn ++ ":nt=w,highpass=f=80").

(** The scene part of [eq_parts]. *)
Definition scene_eq (scene_mode : string) : list string :=
  if String.eqb scene_mode "口播清晰档" then
    [ "equalizer=f=160:g=2.0:w=1.6";
      "equalizer=f=1200:g=2.5:w=1.0";
      "equalizer=f=8000:g=2.0:w=2.0" ]
  else if String.eqb scene_mode "情感饱满档" then
    [ "equalizer=f=160:g=3.5:w=1.6";
      "equalizer=f=1200:g=2.0:w=1.0";
      "equalizer=f=8000:g=2.2:w=2.0" ]
  else
    [ "equalizer=f=160:g=2.0:w=1.6";
      "equalizer=f=1200:g=2.0:w=1.0";
      "equalizer=f=8000:g=1.5:w=2.0" ].

Definition sound_field_presets : gmap string string :=
  {[ "原声相" := "stereo|c0=1.0*c0+0.0*c1|c1=0.0*c0+1.0*c1";
     "轻微扩展" := "stereo|c0=0.8*c0+0.2*c1|c1=0.2*c0+0.8*c1";
     "广播立体声" := "stereo|c0=0.7*c0+0.3*c1|c1=0.3*c0+0.7*c1,adelay=1ms|0ms" ]}.

Section Chain.

Context {FT : FloatText}.

(** Stage 3, the multi-band compressor, as the f-string spells it. *)
Definition compress_stage (ratio : Q) : string :=
  "asplit=3[low][mid][high];" ++ nl ++
  "            [low]lowpass=f=300,acompressor=threshold=-24dB:ratio=3.5:attack=50:release=1000[low_out];" ++ nl ++
  "            [mid]highpass=f=300,lowpass=f=3000,acompressor=threshold=-22dB:ratio=" ++
    str_of_float ratio ++ ":attack=30:release=800[mid_out];" ++ nl ++
  "            [high]highpass=f=3000,acompressor=threshold=-20dB:ratio=2.0:attack=20:release=500[high_out];" ++ nl ++
  "            [low_out][mid_out][high_out]amix=inputs=3:weights=1.1 1.0 0.9".

(** The list [filters] when the function reaches its last statements. *)
Definition vocal_filters
    (scene_mode : string) (voice_clarity_level : Z) (deesser_on : bool)
    (sound_field denoise_level : string) (analysis : Analysis) : result (list string) :=
  let filters := [] in
  denoise ← denoise_stage denoise_level analysis;
  let filters := append filters denoise in
  let eq_parts := scene_eq scene_mode in
  let clarity_gain := inject_Z (voice_clarity_level - 3) * 0.5 in
  let eq_parts :=
    append eq_parts ("equalizer=f=3500:g=" ++ str_of_float (2.0 + clarity_gain) ++ ":w=1.0") in
  let filters := append filters (join "," eq_parts) in
  let dr := default 12 (dynamic_range analysis) in
  let ratio := if fgt dr 20 then 3.0 else 2.0 in
  let filters := append filters (compress_stage ratio) in
  let filters :=
    if deesser_on then
      let high_freq_energy := default (-20.0) (high_freq_energy analysis) in
      let i_val := if fgt high_freq_energy (-15) then 0.6 else 0.4 in
      let m_val := if fgt high_freq_energy (-15) then 0.6 else 0.4 in
      append filters
        ("deesser=i=" ++ str_of_float i_val ++ ":m=" ++ str_of_float m_val ++ ":f=0.5")
    else filters in
  fallback ← getitem sound_field_presets "轻微扩展";
  let pan_expr := get sound_field_presets sound_field fallback in
  let filters := append filters ("pan=" ++ pan_expr) in
  mret filters.

Definition build_vocal_filter_chain
    (scene_mode : string) (voice_clarity_level : Z) (deesser_on : bool)
    (sound_field denoise_level : string) (analysis : Analysis) : result string :=
  filters ← vocal_filters scene_mode voice_clarity_level deesser_on
              sound_field denoise_level analysis;
  let chain := join "," (List.filter (fun f => negb (String.eqb f "")) filters) in
  let chain := replace " " "" (replace nl "" chain) in
  mret chain.

End Chain.

(** The items of [sound_field_combo] and of [denoise_combo] up to the
    opening bracket, the values the window passes to the worker. *)
Definition sound_field_items : list string := ["原声相"; "轻微扩展"; "广播立体声"].
Definition denoise_items : list string := ["轻"; "中"; "重"].

(** The full items of [denoise_combo], and the tier that [start_processing]
    passes to the worker for the current item:
    [currentText().split("（")[0]]. *)
Definition denoise_combo_items : list string :=
  ["轻（干净录音）"; "中（默认）"; "重（嘈杂环境）"].

Definition selected_denoise_level (current_text : string) : result string :=
  first (split "（" current_text).

End Vocal20.

(** ** The broadcast background-music tool v2.7 *)

Module Bgm27.

Import Py.
Local Open Scope string_scope.
Local Open Scope Q_scope.

Definition TARGET_LUFS : Q := -16.0.
Definition LRA : Z := 10.
Definition PEAK_THRESHOLD : Q := -1.5.
Definition NOISE_REDUCTION : Z := -35.

(** The dictionary returned by [analyze_file]. *)
Record Analysis : Type := {
  is_lossless : bool;
  ext : string;
  bitrate : Z;
  dynamic_range : Q;
  loudness : Q
}.

(** The dictionary returned by [get_output_params]. *)
Record OutputParams : Type := {
  codec : string;
  params : string;
  out_ext : string;
  loudnorm : string
}.

Definition sound_field_presets : gmap string string :=
  {[ "原声相" := "stereo|c0=1.0*c0+0.0*c1|c1=0.0*c0+1.0*c1";
     "轻微扩展" := "stereo|c0=0.8*c0+0.2*c1|c1=0.2*c0+0.8*c1";
     "宽声场" := "stereo|c0=0.7*c0+0.3*c1|c1=0.3*c0+0.7*c1" ]}.

(** The items of [sound_field_combo], the values the window passes on. *)
Definition sound_field_items : list string := ["原声相"; "轻微扩展"; "宽声场"].

Section Chain.

Context {FT : FloatText}.

(** The multi-band compressor, as the f-string spells it. *)
Definition compress_stage (ratio : Q) : string :=
  "asplit=3[low][mid][high];" ++ nl ++
  "                [low]lowpass=f=300,acompressor=threshold=-24dB:ratio=3.5:attack=50:release=1000[low_out];" ++ nl ++
  "                [mid]highpass=f=300,lowpass=f=3000,acompressor=threshold=-22dB:ratio=" ++
    str_of_float ratio ++ ":attack=30:release=800[mid_out];" ++ nl ++
  "                [high]highpass=f=3000,acompressor=threshold=-20dB:ratio=2.0:attack=20:release=500[high_out];" ++ nl ++
  "                [low_out][mid_out][high_out]amix=inputs=3:weights=1.1 1.0 0.9".

(** The list [filters] when the function reaches its [return]. *)
Definition processing_filters
    (use_compress : bool) (sound_field : string) (avoid_vocal : bool)
    (analysis : Analysis) : result (list string) :=
  let filters := ["afftdn=nf=" ++ str_int NOISE_REDUCTION ++ ":nt=w,highpass=f=50"] in
  let filters :=
    if avoid_vocal then
      append filters
        "equalizer=f=1500:g=-4:w=2.0,equalizer=f=300:g=1.5:w=1.0,equalizer=f=8000:g=1.5:w=2.0"
    else
      append filters "equalizer=f=200:g=1:w=1.0,equalizer=f=5000:g=1:w=2.0" in
  let filters :=
    if use_compress then
      let ratio := if fgt (dynamic_range analysis) 20 then 3.0 else 2.0 in
      append filters (compress_stage ratio)
    else filters in
  pan ← getitem sound_field_presets sound_field;
  let filters := append filters ("pan=" ++ pan) in
  mret filters.

Definition build_processing_chain
    (use_compress : bool) (sound_field : string) (avoid_vocal : bool)
    (analysis : Analysis) : result string :=
  filters ← processing_filters use_compress sound_field avoid_vocal analysis;
  mret (replace " " "" (replace nl "" (join "," filters))).

Definition get_output_params (analysis : Analysis) : OutputParams :=
  let loudnorm :=
    "loudnorm=I=" ++ str_of_float TARGET_LUFS ++ ":LRA=" ++ str_int LRA ++
    ":TP=" ++ str_of_float PEAK_THRESHOLD ++
    ":measured_I=" ++ str_of_float (loudness analysis) in
  if is_lossless analysis then
    {| codec := "flac"; params := "-compression_level 5";
       out_ext := ".flac"; loudnorm := loudnorm |}
  else if existsb (String.eqb (ext analysis)) [".m4a"; ".aac"] then
    {| codec := "aac";
       params := "-b:a " ++ str_int (bitrate analysis) ++ "k -profile:a aac_low";
       out_ext := ".m4a"; loudnorm := loudnorm |}
  else
    {| codec := "libmp3lame";
       params := "-b:a " ++ str_int (bitrate analysis) ++ "k -q:a 2";
       out_ext := ".mp3"; loudnorm := loudnorm |}.

End Chain.

(** *** [ProcessingThread._process] *)

Section Process.

Context {S : Type} {OS : Platform S}.

Definition _process
    (input_path filter_chain : string) (output_params : OutputParams) : io S string :=
  let base := fst (splitext input_path) in
  let temp_wav := base ++ "_bgm_temp.wav" in
  let output_path := base ++ "_背景音乐适配后" ++ out_ext output_params in
  io_try_finally
    (let pre_cmd :=
       [FFMPEG_PATH; "-y"; "-hide_banner"; "-i"; input_path;
        "-filter_complex"; filter_chain; "-c:a"; "pcm_s16le";
        "-ar"; "44100"; "-ac"; "2"; temp_wav] in
     result ← subprocess_run pre_cmd;
     _ ← raise_if (negb (returncode result =? 0)%Z)
           (Exception ("预处理失败：" ++ replace nl " " (take 100 (stderr result))));
     let post_cmd :=
       ([FFMPEG_PATH; "-y"; "-hide_banner"; "-i"; temp_wav;
         "-af"; loudnorm output_params; "-c:a"; codec output_params] ++
        split_ws (params output_params) ++ [output_path])%list in
     result ← subprocess_run post_cmd;
     _ ← raise_if (negb (returncode result =? 0)%Z)
           (Exception ("标准化失败：" ++ replace nl " " (take 100 (stderr result))));
     invalid ← missing_or_smaller output_path (10 * 1024);
     _ ← raise_if invalid (Exception "输出文件无效");
     _ ← log_emit ("处理完成：" ++ basename output_path);
     mret output_path)
    (found ← os_path_exists temp_wav; when found (os_remove temp_wav)).

End Process.

(** *** [BackgroundMusicProcessor.analyze_file] and its detection passes *)

Section Analyze.

Context {FT : FloatText} {S : Type} {OS : Platform S}.

(** The body of the [try] under [if "bitrate" in line and "kb/s" in line]. *)
Definition bitrate_of_line (line : string) : result Z :=
  tail ← last (split "bitrate:" line);
  head ← first (split "kb/s" tail);
  int (strip head).

(** One iteration of the loop over the lines of the probe. *)
Definition scan_bitrate (bitrate : Z) (line : string) : Z :=
  if contains "bitrate" line && contains "kb/s" line then
    match bitrate_of_line line with
    | Ok b => b
    | Raise _ => bitrate
    end
  else bitrate.

Definition volume_of_line (line : string) : result Q :=
  tail ← last (split ":" line);
  float (replace " dB" "" (strip tail)).

(** One iteration of the loop of [detect_dynamic_range] over the pair
    [(max_vol, min_vol)]; no [try] guards the conversions. *)
Definition scan_volume_line (acc : Q * Q) (line : string) : result (Q * Q) :=
  let '(max_vol, min_vol) := acc in
  max_vol ← (if contains "max_volume" line then volume_of_line line else Ok max_vol);
  min_vol ← (if contains "min_volume" line then volume_of_line line else Ok min_vol);
  mret (max_vol, min_vol).

(** The local [cmd] of [detect_dynamic_range]. *)
Definition volume_cmd (input_path : string) : list string :=
  [FFMPEG_PATH; "-i"; input_path; "-af"; "volumedetect"; "-vn";
   "-f"; "null"; "-"; "-hide_banner"].

Definition detect_dynamic_range (input_path : string) : io S Q :=
  let cmd := volume_cmd input_path in
  result ← subprocess_run cmd;
  vols ← lift (for_each scan_volume_line (splitlines (stderr result)) (-10.0, -40.0));
  mret (Qabs (float_sub (fst vols) (snd vols))).

Definition loudness_of_line (line : string) : result Q :=
  tail ← last (split ":" line);
  word ← first (split_ws (strip tail));
  float word.

(** The loop of [detect_loudness]: the first line that carries the marker
    decides, by its value or by the exception of its conversion. *)
Fixpoint scan_loudness (lines : list string) : result Q :=
  match lines with
  | [] => Ok (-20.0)
  | line :: rest =>
      if contains "Input Integrated Loudness" line then loudness_of_line line
      else scan_loudness rest
  end.

(** The local [cmd] of [detect_loudness]. *)
Definition loudness_cmd (input_path : string) : list string :=
  [FFMPEG_PATH; "-i"; input_path; "-af";
   "loudnorm=I=-16:LRA=10:print_format=summary";
   "-f"; "null"; "-"; "-hide_banner"].

Definition detect_loudness (input_path : string) : io S Q :=
  let cmd := loudness_cmd input_path in
  result ← subprocess_run cmd;
  lift (scan_loudness (splitlines (stderr result))).

(** The local [cmd] of the container probe. *)
Definition probe_cmd (input_path : string) : list string :=
  [FFMPEG_PATH; "-i"; input_path; "-hide_banner"].

Definition analyze_file (input_path : string) : io S Analysis :=
  let ext := lower (snd (splitext input_path)) in
  let is_lossless := existsb (String.eqb ext) [".flac"; ".wav"; ".alac"; ".aiff"] in
  let cmd := probe_cmd input_path in
  result ← subprocess_run cmd;
  let bitrate := fold_left scan_bitrate (splitlines (stderr result)) 192%Z in
  dr ← detect_dynamic_range input_path;
  loudness ← detect_loudness input_path;
  mret {| is_lossless := is_lossless; ext := ext; bitrate := Z.min bitrate 320;
          dynamic_range := dr; loudness := loudness |}.

End Analyze.

(** *** [ProcessingThread.run] *)

(** The signals of the worker other than [log], whose lines go to [logged]. *)
Inductive Signal : Type :=
| progress_updated (percent : Z)
| all_finished
| error (msg : string)
| file_processed (input_path output_path : string).

(** The fields of [ProcessingThread]. *)
Record Thread : Type := {
  file_list : list string;
  use_compress : bool;
  sound_field : string;
  avoid_vocal : bool
}.

Section Run.

Context {FT : FloatText} {FF : FloatFormat} {S : Type} {OS : Platform S}.

(** The body of the [try] of [run] up to the value of [output_path]. *)
Definition process_file (self : Thread) (input_path : string) : io S string :=
  analysis ← analyze_file input_path;
  _ ← log_emit ("  响度：" ++ fixed1 (loudness analysis) ++ "LUFS | 动态范围：" ++
                fixed1 (dynamic_range analysis) ++ "dB");
  _ ← when (use_compress self && flt (dynamic_range analysis) 15)
        (log_emit "  提示：动态范围较小，可关闭压缩保留细节");
  filter_chain ← lift (build_processing_chain (use_compress self) (sound_field self)
                         (avoid_vocal self) analysis);
  _ ← log_emit ("  处理链：" ++ take 50 filter_chain ++ "...");
  let output_params := get_output_params analysis in
  _process input_path filter_chain output_params.

(** One iteration of the loop of [run], with the signals it emits. *)
Definition run_file (self : Thread) (i : Z) (input_path : string) : io S (list Signal) :=
  let filename := basename input_path in
  _ ← log_emit ("开始处理：" ++ filename);
  outcome ← io_catch (process_file self input_path);
  let report :=
    match outcome with
    | Ok output_path => file_processed input_path output_path
    | Raise e => error (filename ++ " 处理失败：" ++ str_exn e)
    end in
  mret [report; progress_updated (percent i (Z.of_nat (length (file_list self))))].

(** The loop of [run] from the file of index [i] on. *)
Fixpoint run_from (self : Thread) (i : Z) (files : list string) : io S (list Signal) :=
  match files with
  | [] => mret []
  | input_path :: rest =>
      emitted ← run_file self i input_path;
      later ← run_from self (i + 1) rest;
      mret (emitted ++ later)%list
  end.

Definition run (self : Thread) : io S (list Signal) :=
  emitted ← run_from self 1 (file_list self);
  mret (emitted ++ [all_finished])%list.

End Run.

(** What [run] reports for one file: the file is processed or an error is
    shown. *)
Definition reports (input_path : string) (s : Signal) : Prop :=
  (exists output_path, s = file_processed input_path output_path)
  \/ (exists msg, s = error msg).

(** The signals of a run over files of index [i] onwards, given the report
    of each file: every report is followed by its progress update. *)
Fixpoint batch_signals `{FloatText} (total i : Z) (reported : list Signal) : list Signal :=
  match reported with
  | [] => []
  | s :: rest => s :: progress_updated (percent i total) :: batch_signals total (i + 1) rest
  end.

End Bgm27.

(** ** The smart-compression background-music tool v2.5 *)

Module Bgm25.

Import Py.
Local Open Scope string_scope.
Local Open Scope Q_scope.

Definition TARGET_LUFS : Q := -16.0.

(** The fields of [BGMMusicMasteringThread] that the processing reads. *)
Record Thread : Type := {
  pan_type : string;
  eq_enabled : bool;
  eq_freq : Z;
  eq_gain : Z;
  compress_enabled : bool;
  use_smart_compress : bool;
  test_mode : bool
}.

(** The items of [pan_combo], the values the window passes on. *)
Definition pan_items : list string :=
  ["默认（轻微拉宽）"; "宽声相（远离人声）"; "极宽声相（环绕感）"].

Definition pan_options : gmap string string :=
  {[ "宽声相（远离人声）" := "stereo|c0=0.9*c0+0.1*c1|c1=0.1*c0+0.9*c1";
     "极宽声相（环绕感）" := "stereo|c0=1.0*c0+0.0*c1|c1=0.0*c0+1.0*c1";
     "默认（轻微拉宽）" := "stereo|c0=0.8*c0+0.2*c1|c1=0.2*c0+0.8*c1" ]}.

(** [BGMMusicMasteringThread._get_traditional_compress_params]. *)
Definition _get_traditional_compress_params (dynamic_range : Q) : string :=
  if fge dynamic_range 20 then
    "threshold=-20dB:ratio=4:attack=10:release=100:knee=8dB:makeup=6dB"
  else if fle 10 dynamic_range && flt dynamic_range 20 then
    "threshold=-18dB:ratio=3:attack=8:release=80:knee=6dB:makeup=4dB"
  else
    "threshold=-16dB:ratio=2:attack=5:release=60:knee=4dB:makeup=2dB".

(** The effective target of [SmartCompressor.get_adaptive_loudnorm], its
    local [target_lufs] at the [return]. *)
Definition adaptive_target (input_lufs : Q) : Q :=
  let target_lufs := TARGET_LUFS in
  if flt input_lufs (TARGET_LUFS - 10) then input_lufs + 8 else target_lufs.

Section Filters.

Context {FT : FloatText}.

(** [SmartCompressor.get_multi_band_params]. *)
Definition get_multi_band_params
    (dynamic_range : Q) (attack release eq_freq eq_gain : Z) : string :=
  let base_ratio : Z :=
    (if flt dynamic_range 15 then 2 else if flt dynamic_range 20 then 3 else 4)%Z in
  let low_compress :=
    "acompressor=threshold=-22dB:ratio=" ++ str_int base_ratio ++
    ":attack=" ++ str_int attack ++ ":release=" ++ str_int release ++
    ":knee=12dB:makeup=4dB" in
  let mid_compress :=
    "acompressor=threshold=-20dB:ratio=" ++
      str_num (max (PyFloat 1.5) (PyFloat (inject_Z base_ratio - 0.5))) ++
    ":attack=" ++ str_int (Z.min (attack + 20) 50) ++
    ":release=" ++ str_int (Z.min (release + 300) 800) ++ ":knee=8dB:makeup=3dB," ++
    "equalizer=f=" ++ str_int eq_freq ++ ":g=" ++ str_int eq_gain ++ ":w=1.0" in
  let high_compress :=
    "acompressor=threshold=-18dB:ratio=" ++
      str_num (max (PyFloat 1.2) (PyInt (base_ratio - 1))) ++
    ":attack=" ++ str_int (Z.max (attack - 2) 3) ++
    ":release=" ++ str_int (Z.min (release + 100) 500) ++ ":knee=6dB:makeup=2dB" in
  "asplit=3[low][mid][high];" ++
  "[low]lowpass=250," ++ low_compress ++ "[low_out];" ++
  "[mid]highpass=250,lowpass=2000," ++ mid_compress ++ "[mid_out];" ++
  "[high]highpass=2000," ++ high_compress ++ "[high_out];" ++
  "[low_out][mid_out][high_out]amix=inputs=3:weights=1.2 1 0.8".

(** [SmartCompressor.get_adaptive_loudnorm]. *)
Definition get_adaptive_loudnorm (input_lufs : Q) : string :=
  "loudnorm=I=" ++ str_of_float (adaptive_target input_lufs) ++ ":LRA=11:TP=-1.5".

(** The pair [(compress_filter, loudnorm_filter)] that [run] selects for a
    file, given what the three detection passes returned. *)
Definition select_filters (self : Thread)
    (dynamic_range : Q) (attack release : Z) (input_lufs : Q) : string * string :=
  if compress_enabled self && use_smart_compress self then
    (get_multi_band_params dynamic_range attack release (eq_freq self) (eq_gain self),
     get_adaptive_loudnorm input_lufs)
  else if compress_enabled self then
    ("acompressor=" ++ _get_traditional_compress_params dynamic_range,
     "loudnorm=I=" ++ str_of_float TARGET_LUFS ++ ":LRA=11:TP=-1.5")
  else
    ("anull", "loudnorm=I=" ++ str_of_float TARGET_LUFS ++ ":LRA=11:TP=-1.5").

(** The local [pre_filter_complex] of [_process_audio], the chain that is
    handed to the engine. *)
Definition pre_filter_complex (self : Thread) (compress_filter : string) : result string :=
  let pre_filters := [] in
  let pre_filters :=
    if eq_enabled self then
      append pre_filters
        ("equalizer=f=" ++ str_int (eq_freq self) ++ ":g=" ++ str_int (eq_gain self) ++ ":w=1.0")
    else pre_filters in
  let pre_filters := append pre_filters compress_filter in
  pre_filters ←
    (if negb (String.eqb (pan_type self) "") then
       pan ← getitem pan_options (pan_type self);
       mret (append pre_filters ("pan=" ++ pan))
     else mret pre_filters);
  mret (join "," pre_filters).

End Filters.

(** The numbers that [get_multi_band_params] writes into the three bands:
    the local [base_ratio] and the ratio, attack and release expressions of
    the f-strings. *)
Definition base_ratio (dynamic_range : Q) : Z :=
  if flt dynamic_range 15 then 2 else if flt dynamic_range 20 then 3 else 4.

Definition mid_ratio (dynamic_range : Q) : num :=
  max (PyFloat 1.5) (PyFloat (inject_Z (base_ratio dynamic_range) - 0.5)).

Definition high_ratio (dynamic_range : Q) : num :=
  max (PyFloat 1.2) (PyInt (base_ratio dynamic_range - 1)).

Definition mid_attack (attack : Z) : Z := Z.min (attack + 20) 50.
Definition mid_release (release : Z) : Z := Z.min (release + 300) 800.
Definition high_attack (attack : Z) : Z := Z.max (attack - 2) 3.
Definition high_release (release : Z) : Z := Z.min (release + 100) 500.

(** *** The detection passes of [SmartCompressor] *)

Section Passes.

Context {FT : FloatText} {S : Type} {OS : Platform S}.

Definition volume_of_line (line : string) : result Q :=
  tail ← last (split ":" line);
  float (replace " dB" "" (strip tail)).

(** One iteration of the loop of [detect_dynamic_range] over the pair
    [(max_vol, min_vol)]; no [try] guards the conversions. *)
Definition scan_volume_line (acc : Q * Q) (line : string) : result (Q * Q) :=
  let '(max_vol, min_vol) := acc in
  max_vol ← (if contains "max_volume" line then volume_of_line line else Ok max_vol);
  min_vol ← (if contains "min_volume" line then volume_of_line line else Ok min_vol);
  mret (max_vol, min_vol).

(** The local [cmd] of [detect_dynamic_range]. *)
Definition volume_cmd (ffmpeg_path input_path : string) : list string :=
  [ffmpeg_path; "-i"; input_path; "-af"; "volumedetect";
   "-vn"; "-f"; "null"; "-"; "-hide_banner"].

Definition detect_dynamic_range (input_path ffmpeg_path : string) : io S Q :=
  let cmd := volume_cmd ffmpeg_path input_path in
  result ← subprocess_run cmd;
  if negb (returncode result =? 0)%Z then mret 15.0
  else
    vols ← lift (for_each scan_volume_line (splitlines (stderr result)) (-10.0, -30.0));
    mret (Qabs (float_sub (fst vols) (snd vols))).

(** One iteration of the loop of [detect_transient] over the pair
    [(transient_count, total_count)]. *)
Definition scan_peak_factor (acc : Z * Z) (line : string) : Z * Z :=
  let '(transient_count, total_count) := acc in
  if contains "PeakFactor" line then
    match (tail ← last (split "=" line); float tail) with
    | Ok peak_factor =>
        let transient_count :=
          if fgt peak_factor 6 then (transient_count + 1)%Z else transient_count in
        (transient_count, (total_count + 1)%Z)
    | Raise _ => (transient_count, total_count)
    end
  else (transient_count, total_count).

(** The statements of [detect_transient] that follow the run of the
    engine: the triple [(attack, release, transient_ratio)]. *)
Definition transient_of_lines (lines : list string) : Z * Z * Q :=
  let '(transient_count, total_count) := fold_left scan_peak_factor lines (0%Z, 0%Z) in
  let transient_ratio :=
    if (total_count >? 0)%Z
    then float_div (inject_Z transient_count) (inject_Z total_count)
    else 0.3 in
  let attack := if fgt transient_ratio 0.4 then 5%Z else 30%Z in
  let release := if fgt transient_ratio 0.4 then 200%Z else 500%Z in
  (attack, release, transient_ratio).

(** The local [cmd] of [detect_transient]. *)
Definition transient_cmd (ffmpeg_path input_path : string) : list string :=
  [ffmpeg_path; "-i"; input_path; "-af";
   "astats=metadata=1:reset=1,ametadata=print:key=lavfi.astats.Overall.PeakFactor:file=-";
   "-vn"; "-f"; "null"; "-"; "-hide_banner"].

Definition detect_transient (input_path ffmpeg_path : string) : io S (Z * Z * Q) :=
  let cmd := transient_cmd ffmpeg_path input_path in
  result ← subprocess_run cmd;
  mret (transient_of_lines (splitlines (stderr result))).

(** *** [BGMMusicMasteringThread._process_audio]

    [ffmpeg_path] is the field [self.ffmpeg_path] of the worker. *)
Definition _process_audio (self : Thread)
    (ffmpeg_path input_path compress_filter loudnorm_filter : string) : io S string :=
  let base := fst (splitext input_path) in
  let temp_path := base ++ "_temp.wav" in
  let output_path := base ++ "_母带处理后.mp3" in
  io_try_finally
    (pre_filter_complex ← lift (pre_filter_complex self compress_filter);
     let pre_cmd :=
       [ffmpeg_path; "-y"; "-hide_banner";
        "-i"; input_path;
        "-filter_complex"; pre_filter_complex;
        "-codec:a"; "pcm_s16le"; "-ar"; "44100"; "-ac"; "2";
        temp_path] in
     _ ← log_emit ("预处理命令: " ++ join " " (firstn 10 pre_cmd) ++ "...");
     result ← subprocess_run pre_cmd;
     _ ← raise_if (negb (returncode result =? 0)%Z)
           (Exception ("预处理失败：" ++ take 200 (stderr result)));
     let post_cmd :=
       [ffmpeg_path; "-y"; "-hide_banner";
        "-i"; temp_path;
        "-af"; loudnorm_filter;
        "-codec:a"; "libmp3lame"; "-qscale:a"; "2";
        output_path] in
     _ ← log_emit ("后处理命令: " ++ join " " (firstn 10 post_cmd) ++ "...");
     result ← subprocess_run post_cmd;
     _ ← raise_if (negb (returncode result =? 0)%Z)
           (Exception ("后处理失败：" ++ take 200 (stderr result)));
     _ ← log_emit ("处理完成: " ++ basename output_path);
     mret output_path)
    (found ← os_path_exists temp_path; when found (os_remove temp_path)).

End Passes.

End Bgm25.

(** ** A runtime instance and sample inputs

    [Decimal] reads and prints floats as finite decimals, which is what the
    Python runtime does for the short decimal numbers the engine prints.  It
    serves to run the model on concrete inputs. *)

Module Decimal.

Import Py.
Local Open Scope string_scope.

Definition digit_char (d : Z) : ascii := ascii_of_nat (48 + Z.to_nat d).

Fixpoint frac_digits (fuel : nat) (r d : Z) : string :=
  match fuel with
  | O => ""
  | S fuel' =>
      if (r =? 0)%Z then ""
      else String (digit_char (10 * r / d)) (frac_digits fuel' (10 * r mod d) d)
  end.

Definition print (q : Q) : string :=
  let n := Qnum q in
  let d := Z.pos (Qden q) in
  let a := Z.abs n in
  (if (n <? 0)%Z then "-" else "") ++ str_int (a / d) ++ "." ++
  (if (a mod d =? 0)%Z then "0" else frac_digits 17 (a mod d) d).

Fixpoint read_digits (acc : Z) (scale : positive) (s : string) : option Q :=
  match s with
  | "" => Some (acc # scale)
  | String c s' =>
      match digit_val c with
      | Some d => read_digits (10 * acc + d) (10 * scale) s'
      | None => None
      end
  end.

Definition read_unsigned (s : string) : option Q :=
  match split "." s with
  | [i] => inject_Z <$> int_digits 0 false i
  | [i; f] =>
      match int_digits 0 false i, read_digits 0 1 f with
      | Some z, Some q => Some (inject_Z z + q)%Q
      | _, _ => None
      end
  | _ => None
  end.

Definition read (s : string) : option Q :=
  match strip s with
  | String c d =>
      if (nat_of_ascii c =? 45)%nat then Qopp <$> read_unsigned d
      else read_unsigned (String c d)
  | "" => None
  end.

(** The sample runtime reads and prints short decimals and computes on
    them exactly. *)
#[export] Instance runtime : FloatText :=
  {| float_of_str := read; str_of_float := print;
     float_sub := Qminus; float_div := Qdiv; float_mul := Qmult |}.

(** One decimal place, ties to the even digit. *)
Definition fixed1 (q : Q) : string :=
  let n := Qnum q in
  let d := Z.pos (Qden q) in
  let a := Z.abs n in
  let t := (10 * a / d)%Z in
  let r := ((10 * a) mod d)%Z in
  let t :=
    if (2 * r >? d)%Z then (t + 1)%Z
    else if (2 * r =? d)%Z then (if Z.even t then t else t + 1)%Z
    else t in
  (if (n <? 0)%Z then "-" else "") ++ str_int (t / 10) ++ "." ++ str_int (t mod 10).

#[export] Instance formats : FloatFormat :=
  {| Py.fixed1 := fixed1 |}.

End Decimal.

Module Samples.

Import Py.
Local Open Scope string_scope.

(** A lossy stereo file at 44.1 kHz with the measurements of scenario 1. *)
Definition pro_analysis : Pro33.Analysis :=
  {| Pro33.format := ".mp3"; Pro33.is_lossless := false; Pro33.bitrate := 192;
     Pro33.sample_rate := 44100; Pro33.channels := 2; Pro33.duration := 12.5;
     Pro33.loudness := -22.0; Pro33.dynamic_range := 10.0;
     Pro33.noise_floor := -38.0; Pro33.gender := "unknown";
     Pro33.high_freq_energy := -3.0; Pro33.volume_level := -21.4;
     Pro33.quality_score := 55.0 |}.

(** A loud recording whose peaks reach -0.2 dB. *)
Definition hot_analysis : Pro33.Analysis :=
  {| Pro33.format := ".wav"; Pro33.is_lossless := true; Pro33.bitrate := 1411;
     Pro33.sample_rate := 48000; Pro33.channels := 2; Pro33.duration := 0;
     Pro33.loudness := -9.5; Pro33.dynamic_range := 30.0;
     Pro33.noise_floor := -30.2; Pro33.gender := "male";
     Pro33.high_freq_energy := -0.2; Pro33.volume_level := -11.0;
     Pro33.quality_score := 80.0 |}.


Definition bgm_analysis : Bgm27.Analysis :=
  {| Bgm27.is_lossless := false; Bgm27.ext := ".mp3"; Bgm27.bitrate := 192;
     Bgm27.dynamic_range := 22.5; Bgm27.loudness := -22.0 |}.

(** The v2.5 worker with its default controls: equaliser at 2000 Hz and
    -6 dB, smart compression on, default stereo field. *)
Definition smart_thread : Bgm25.Thread :=
  {| Bgm25.pan_type := "默认（轻微拉宽）"; Bgm25.eq_enabled := true;
     Bgm25.eq_freq := 2000; Bgm25.eq_gain := -6;
     Bgm25.compress_enabled := true; Bgm25.use_smart_compress := true;
     Bgm25.test_mode := false |}.

(** The same worker with smart compression switched off. *)
Definition plain_thread : Bgm25.Thread :=
  {| Bgm25.pan_type := "默认（轻微拉宽）"; Bgm25.eq_enabled := true;
     Bgm25.eq_freq := 2000; Bgm25.eq_gain := -6;
     Bgm25.compress_enabled := true; Bgm25.use_smart_compress := false;
     Bgm25.test_mode := false |}.

(** A plain [os.path]: the extension starts at the last dot and the base
    name after the last slash. *)
Definition splitext (p : string) : string * string :=
  match rev (split "." p) with
  | e :: r :: rest => (join "." (rev (r :: rest)), "." ++ e)
  | _ => (p, "")
  end.

Definition basename (p : string) : string :=
  List.last (split "/" p) "".

Definition completed (code : Z) (text : string) : result CompletedProcess :=
  Ok {| returncode := code; stderr := text |}.

Definition probe_text : string :=
  "Input #0, mp3, from 'a.mp3':" ++ nl ++
  "  Duration: 00:00:12.50, start: 0.000000, bitrate: 192 kb/s" ++ nl ++
  "  Stream #0:0: Audio: mp3, 44100 Hz, stereo, fltp, 192 kb/s" ++ nl.

Definition volume_text : string :=
  "[Parsed_volumedetect_0 @ 0x5581] mean_volume: -21.4 dB" ++ nl ++
  "[Parsed_volumedetect_0 @ 0x5581] max_volume: -3.0 dB" ++ nl ++
  "[Parsed_volumedetect_0 @ 0x5581] min_volume: -38.0 dB" ++ nl.

Definition loudness_text : string :=
  "[Parsed_loudnorm_0 @ 0x5581]" ++ nl ++
  "Input Integrated Loudness: -22.0 LUFS" ++ nl.

(** An engine that works: the analysis passes print their summaries, the
    filter pass writes the intermediate file and the encoding pass writes
    the output file, each named by the last argument. *)
Definition studio_exec (cmd : list string) (s : unit) (files : gmap string N)
  : unit * gmap string N * result CompletedProcess :=
  let out := List.last cmd "" in
  if existsb (String.eqb "-filter_complex") cmd then
    (tt, <[out := 2000000%N]> files, completed 0 "")
  else if existsb (String.eqb "-c:a") cmd then
    (tt, <[out := 300000%N]> files, completed 0 "")
  else if existsb (String.eqb "volumedetect") cmd then
    (tt, files, completed 0 volume_text)
  else if existsb (contains "loudnorm") cmd then
    (tt, files, completed 0 loudness_text)
  else (tt, files, completed 1 probe_text).

#[export] Instance studio : Platform unit :=
  {| FFMPEG_PATH := "ffmpeg"; Py.splitext := splitext; Py.basename := basename;
     exec := studio_exec;
     remove_error := fun _ _ => None |}.

(** An engine whose filter pass fails after writing 500 bytes. *)
Definition broken_exec (cmd : list string) (s : unit) (files : gmap string N)
  : unit * gmap string N * result CompletedProcess :=
  if existsb (String.eqb "-filter_complex") cmd then
    (tt, <[List.last cmd "" := 500%N]> files, completed 1 ("Error" ++ nl ++ "in filter"))
  else studio_exec cmd s files.

Definition broken : Platform unit :=
  {| FFMPEG_PATH := "ffmpeg"; Py.splitext := splitext; Py.basename := basename;
     exec := broken_exec;
     remove_error := fun _ _ => None |}.

(** An engine whose filter pass reports success but writes 500 bytes only. *)
Definition tiny_exec (cmd : list string) (s : unit) (files : gmap string N)
  : unit * gmap string N * result CompletedProcess :=
  if existsb (String.eqb "-filter_complex") cmd then
    (tt, <[List.last cmd "" := 500%N]> files, completed 0 "")
  else studio_exec cmd s files.

Definition tiny : Platform unit :=
  {| FFMPEG_PATH := "ffmpeg"; Py.splitext := splitext; Py.basename := basename;
     exec := tiny_exec;
     remove_error := fun _ _ => None |}.

(** An engine whose encoding pass fails, and one whose encoding pass writes
    100 bytes only. *)
Definition deaf_exec (code : Z) (cmd : list string) (s : unit) (files : gmap string N)
  : unit * gmap string N * result CompletedProcess :=
  if existsb (String.eqb "-filter_complex") cmd then studio_exec cmd s files
  else if existsb (String.eqb "-c:a") cmd then
    (tt, <[List.last cmd "" := 100%N]> files, completed code "Encoder not found")
  else studio_exec cmd s files.

Definition deaf : Platform unit :=
  {| FFMPEG_PATH := "ffmpeg"; Py.splitext := splitext; Py.basename := basename;
     exec := deaf_exec 1;
     remove_error := fun _ _ => None |}.

Definition short : Platform unit :=
  {| FFMPEG_PATH := "ffmpeg"; Py.splitext := splitext; Py.basename := basename;
     exec := deaf_exec 0;
     remove_error := fun _ _ => None |}.

(** An engine that cannot be started: every invocation raises. *)
Definition dead : Platform unit :=
  {| FFMPEG_PATH := "ffmpeg"; Py.splitext := splitext; Py.basename := basename;
     exec := fun _ s files => (s, files, Raise (SubprocessError "No such file: ffmpeg"));
     remove_error := fun _ _ => None |}.

(** An engine whose probe prints nothing and whose measurement passes all
    time out. *)
Definition mute : Platform unit :=
  {| FFMPEG_PATH := "ffmpeg"; Py.splitext := splitext; Py.basename := basename;
     exec := fun cmd s files =>
       if existsb (String.eqb "-af") cmd
       then (s, files, Raise (SubprocessError "timed out"))
       else (s, files, completed 1 "");
     remove_error := fun _ _ => None |}.

(** An engine that reports success for every invocation and writes
    nothing. *)
Definition idle : Platform unit :=
  {| FFMPEG_PATH := "ffmpeg"; Py.splitext := splitext; Py.basename := basename;
     exec := fun _ s files => (s, files, completed 0 "");
     remove_error := fun _ _ => None |}.

(** The working engine on a system that refuses to remove any file whose
    name ends in [_temp.wav]. *)
Definition locked : Platform unit :=
  {| FFMPEG_PATH := "ffmpeg"; Py.splitext := splitext; Py.basename := basename;
     exec := studio_exec;
     remove_error := fun _ p =>
       if String.eqb (substring (String.length p - 9) 9 p) "_temp.wav"
       then Some ("[Errno 13] Permission denied: '" ++ p ++ "'")
       else None |}.

(** An engine whose volume pass names its input before the summary, the
    input being the argument after [-i]. *)
Definition echo_exec (cmd : list string) (s : unit) (files : gmap string N)
  : unit * gmap string N * result CompletedProcess :=
  if existsb (String.eqb "volumedetect") cmd then
    (tt, files,
     completed 0 ("Input #0, mp3, from '" ++ nth 2 cmd "" ++ "':" ++ nl ++ volume_text))
  else studio_exec cmd s files.

Definition echo : Platform unit :=
  {| FFMPEG_PATH := "ffmpeg"; Py.splitext := splitext; Py.basename := basename;
     exec := echo_exec;
     remove_error := fun _ _ => None |}.

(** The v3.3 worker with the defaults of the window, and the v2.7 worker with
    compression on, each for a batch of two files of which only the first
    exists. *)
Definition pro_thread : Pro33.Thread :=
  {| Pro33.file_list := ["a.mp3"; "b.mp3"]; Pro33.preset := "通用配音";
     Pro33.voice_clarity := 3; Pro33.warmth_level := 3; Pro33.reverb_amount := 2;
     Pro33.noise_reduction := "中"; Pro33.abort := fun _ => false |}.


(** A disk that holds the input file only. *)
Definition disk : World unit :=
  {| fs := {[ "a.mp3" := 4000000%N ]}; engine := tt; logged := [] |}.

End Samples.

(** * Properties *)

Section ScoreFacts.

Import Py Pro33.
Local Open Scope Q_scope.

Lemma fle_iff (x y : Q) : fle x y = true <-> x <= y.
Proof. apply Qle_bool_iff. Qed.

Lemma fle_false_iff (x y : Q) : fle x y = false <-> y < x.
Proof.
  unfold fle. split; intros H.
  - apply Qnot_le_lt. intros L. apply Qle_bool_iff in L. congruence.
  - destruct (Qle_bool x y) eqn:E; [|reflexivity].
    apply Qle_bool_iff in E. exfalso. apply (Qlt_not_le _ _ H E).
Qed.

Lemma flt_iff (x y : Q) : flt x y = true <-> x < y.
Proof.
  unfold flt. rewrite negb_true_iff. apply (fle_false_iff y x).
Qed.

Lemma flt_false_iff (x y : Q) : flt x y = false <-> y <= x.
Proof.
  unfold flt. rewrite negb_false_iff. apply (fle_iff y x).
Qed.

Lemma loudness_distance (l k : Q) :
  fle (Qabs (l + 16)) k = Qle_bool (Qabs (l - (-16))) k.
Proof.
  unfold fle. apply Qleb_comp; [|reflexivity].
  apply Qabs_wd. ring.
Qed.

(** The sequential accumulation of the code computes the additive formula. *)
Lemma calculate_quality_score_additive (a : Analysis) :
  calculate_quality_score a == Spec.score a.
Proof.
  unfold calculate_quality_score, Spec.score, Spec.format_bonus,
    Spec.sample_rate_bonus, Spec.loudness_bonus, Spec.dynamic_range_bonus,
    Spec.noise_floor_bonus, fge.
  rewrite !loudness_distance, !Z.geb_leb. unfold fle.
  destruct (is_lossless a), (320 <=? bitrate a)%Z, (192 <=? bitrate a)%Z,
    (48000 <=? sample_rate a)%Z,
    (Qle_bool (Qabs (loudness a - -16)) 2),
    (Qle_bool (Qabs (loudness a - -16)) 4),
    (Qle_bool 15 (dynamic_range a)), (Qle_bool 12 (dynamic_range a)),
    (Qle_bool (noise_floor a) (-55)), (Qle_bool (noise_floor a) (-45));
    apply Q.min_compat; lra.
Qed.

Lemma format_bonus_range (a : Analysis) :
  0 <= Spec.format_bonus a <= 15.
Proof.
  unfold Spec.format_bonus.
  destruct (is_lossless a), (320 <=? bitrate a)%Z, (192 <=? bitrate a)%Z; lra.
Qed.

Lemma sample_rate_bonus_range (a : Analysis) :
  0 <= Spec.sample_rate_bonus a <= 5.
Proof.
  unfold Spec.sample_rate_bonus. destruct (48000 <=? sample_rate a)%Z; lra.
Qed.

Lemma loudness_bonus_range (a : Analysis) :
  0 <= Spec.loudness_bonus a <= 10.
Proof.
  unfold Spec.loudness_bonus.
  destruct (Qle_bool (Qabs (loudness a - -16)) 2),
    (Qle_bool (Qabs (loudness a - -16)) 4); lra.
Qed.

Lemma dynamic_range_bonus_range (a : Analysis) :
  0 <= Spec.dynamic_range_bonus a <= 10.
Proof.
  unfold Spec.dynamic_range_bonus.
  destruct (Qle_bool 15 (dynamic_range a)), (Qle_bool 12 (dynamic_range a)); lra.
Qed.

Lemma noise_floor_bonus_range (a : Analysis) :
  0 <= Spec.noise_floor_bonus a <= 10.
Proof.
  unfold Spec.noise_floor_bonus.
  destruct (Qle_bool (noise_floor a) (-55)), (Qle_bool (noise_floor a) (-45)); lra.
Qed.

(** The bonus for dynamic range grows with the dynamic range. *)
Lemma dynamic_range_bonus_mono (a : Analysis) (dr1 dr2 : Q) :
  dr1 <= dr2 ->
  Spec.dynamic_range_bonus (with_dynamic_range dr1 a)
  <= Spec.dynamic_range_bonus (with_dynamic_range dr2 a).
Proof.
  intros Hle. unfold Spec.dynamic_range_bonus. simpl.
  destruct (Qle_bool 15 dr1) eqn:A1, (Qle_bool 15 dr2) eqn:A2,
    (Qle_bool 12 dr1) eqn:B1, (Qle_bool 12 dr2) eqn:B2;
    try lra;
    repeat match goal with
    | H : Qle_bool _ _ = true |- _ => apply fle_iff in H
    | H : Qle_bool _ _ = false |- _ => apply fle_false_iff in H
    end; lra.
Qed.

(** C2. The quality score is the additive formula: baseline 50, plus 15 for
    a lossless file, else 10 for a bitrate of at least 320, else 5 for at
    least 192; plus 5 for a sample rate of at least 48000; plus 10 when
    the loudness is within 2 dB of -16 LUFS, else 5 within 4 dB; plus 10
    for a dynamic range of at least 15 dB, else 5 for at least 12 dB; plus
    10 for a noise floor of at most -55 dBFS, else 5 for at most -45 dBFS;
    capped at 100.  The score therefore lies between 0 and 100. *)
Theorem quality_score_is_additive_and_bounded (a : Analysis) :
  calculate_quality_score a == Spec.score a
  /\ 0 <= calculate_quality_score a
  /\ calculate_quality_score a <= 100.
Proof.
  pose proof (calculate_quality_score_additive a) as E.
  split; [exact E|]. rewrite E. unfold Spec.score.
  pose proof (format_bonus_range a). pose proof (sample_rate_bonus_range a).
  pose proof (loudness_bonus_range a). pose proof (dynamic_range_bonus_range a).
  pose proof (noise_floor_bonus_range a).
  split.
  - apply Q.min_glb; lra.
  - apply Q.le_min_r.
Qed.

(** C9. With every other field of the analysis held fixed, a larger dynamic
    range never gives a smaller quality score. *)
Theorem quality_score_monotone_in_dynamic_range (a : Analysis) (dr1 dr2 : Q) :
  dr1 <= dr2 ->
  calculate_quality_score (with_dynamic_range dr1 a)
  <= calculate_quality_score (with_dynamic_range dr2 a).
Proof.
  intros Hle. rewrite !calculate_quality_score_additive. unfold Spec.score.
  apply Q.min_le_compat_r.
  pose proof (dynamic_range_bonus_mono a dr1 dr2 Hle) as M.
  change (Spec.format_bonus (with_dynamic_range dr1 a)) with (Spec.format_bonus a).
  change (Spec.format_bonus (with_dynamic_range dr2 a)) with (Spec.format_bonus a).
  change (Spec.sample_rate_bonus (with_dynamic_range dr1 a)) with (Spec.sample_rate_bonus a).
  change (Spec.sample_rate_bonus (with_dynamic_range dr2 a)) with (Spec.sample_rate_bonus a).
  change (Spec.loudness_bonus (with_dynamic_range dr1 a)) with (Spec.loudness_bonus a).
  change (Spec.loudness_bonus (with_dynamic_range dr2 a)) with (Spec.loudness_bonus a).
  change (Spec.noise_floor_bonus (with_dynamic_range dr1 a)) with (Spec.noise_floor_bonus a).
  change (Spec.noise_floor_bonus (with_dynamic_range dr2 a)) with (Spec.noise_floor_bonus a).
  lra.
Qed.

End ScoreFacts.

(** ** Facts about the string operations *)

Section StringFacts.

Import Py.
Local Open Scope string_scope.

Lemma app_cons (c : ascii) (a b : string) : String c a ++ b = String c (a ++ b).
Proof. reflexivity. Qed.

Lemma app_empty (b : string) : "" ++ b = b.
Proof. reflexivity. Qed.

Lemma chars_app (a b : string) :
  list_ascii_of_string (a ++ b)
  = (list_ascii_of_string a ++ list_ascii_of_string b)%list.
Proof.
  induction a as [|c a IH]; [reflexivity|].
  rewrite app_cons. simpl. now rewrite IH.
Qed.

Lemma app_empty_r (a : string) : a ++ "" = a.
Proof. induction a as [|c a IH]; [reflexivity|]. now rewrite app_cons, IH. Qed.

Lemma string_app_assoc (a b c : string) : (a ++ b) ++ c = a ++ b ++ c.
Proof.
  induction a as [|x a IH]; [reflexivity|].
  rewrite !app_cons. now rewrite IH.
Qed.

Lemma prefix_nil (s : string) : String.prefix "" s = true.
Proof. destruct s; reflexivity. Qed.

Lemma prefix_app (sub b : string) : String.prefix sub (sub ++ b) = true.
Proof.
  induction sub as [|c sub IH].
  - apply prefix_nil.
  - rewrite app_cons. simpl. destruct (ascii_dec c c); [exact IH | congruence].
Qed.

Lemma prefix_elim (sub s : string) :
  String.prefix sub s = true -> exists b, s = sub ++ b.
Proof.
  revert s. induction sub as [|c sub IH]; intros s Hp.
  - exists s. reflexivity.
  - destruct s as [|d s]; simpl in Hp; [discriminate|].
    destruct (ascii_dec c d) as [->|]; [|discriminate].
    destruct (IH s Hp) as [b ->]. exists b. reflexivity.
Qed.

Lemma contains_eq (sub s : string) :
  contains sub s
  = String.prefix sub s
    || match s with
       | "" => false
       | String _ s' => contains sub s'
       end.
Proof. destruct s; reflexivity. Qed.

Lemma contains_prefix (sub s : string) :
  String.prefix sub s = true -> contains sub s = true.
Proof. intros Hp. rewrite contains_eq, Hp. reflexivity. Qed.

Lemma contains_app_r (sub a b : string) :
  contains sub b = true -> contains sub (a ++ b) = true.
Proof.
  intros Hb. induction a as [|c a IH]; [exact Hb|].
  rewrite app_cons, contains_eq, IH. apply orb_true_r.
Qed.

Lemma contains_app_l (sub a b : string) :
  contains sub a = true -> contains sub (a ++ b) = true.
Proof.
  induction a as [|c a IH]; intros Ha.
  - rewrite contains_eq, orb_false_r in Ha. destruct sub; [|discriminate].
    apply contains_prefix, prefix_nil.
  - rewrite contains_eq in Ha. apply orb_true_iff in Ha as [Hp|Hc].
    + destruct (prefix_elim _ _ Hp) as [t Ht].
      rewrite Ht, string_app_assoc.
      apply contains_prefix, prefix_app.
    + rewrite app_cons, contains_eq, (IH Hc). apply orb_true_r.
Qed.

Lemma contains_elim (sub s : string) :
  contains sub s = true -> exists a b, s = a ++ sub ++ b.
Proof.
  induction s as [|c s IH]; rewrite contains_eq; intros Hc.
  - rewrite orb_false_r in Hc. destruct (prefix_elim _ _ Hc) as [b Hb].
    exists "", b. exact Hb.
  - apply orb_true_iff in Hc as [Hp|Hc].
    + destruct (prefix_elim _ _ Hp) as [b Hb]. exists "", b. exact Hb.
    + destruct (IH Hc) as (a & b & ->). exists (String c a), b. reflexivity.
Qed.

(** A string that contains [sub] contains every character of [sub]. *)
Lemma contains_chars (sub s : string) (c : ascii) :
  contains sub s = true ->
  In c (list_ascii_of_string sub) -> In c (list_ascii_of_string s).
Proof.
  intros Hc Hin. destruct (contains_elim _ _ Hc) as (a & b & ->).
  rewrite !chars_app, !in_app_iff. auto.
Qed.

Lemma contains_char (c : ascii) (s : string) :
  contains (String c "") s = true <-> In c (list_ascii_of_string s).
Proof.
  split.
  - intros Hc. apply (contains_chars _ _ c Hc). simpl. auto.
  - induction s as [|d s IH]; [intros []|].
    rewrite contains_eq. intros [->|Hin].
    + pose proof (prefix_app (String c "") s) as Hp.
      rewrite app_cons, app_empty in Hp. rewrite Hp. reflexivity.
    + rewrite (IH Hin). apply orb_true_r.
Qed.

Lemma contains_char_false (c : ascii) (s : string) :
  contains (String c "") s = false <-> ~ In c (list_ascii_of_string s).
Proof.
  rewrite <- contains_char.
  destruct (contains (String c "") s); split; intros; congruence.
Qed.

(** *** Replacing one character by nothing *)

Lemma replace_char_cons (c d : ascii) (s : string) :
  replace (String c "") "" (String d s)
  = if ascii_dec c d then replace (String c "") "" s
    else String d (replace (String c "") "" s).
Proof.
  unfold replace. simpl. destruct (ascii_dec c d); [|reflexivity].
  now rewrite prefix_nil.
Qed.

Lemma replace_char_app (c : ascii) (a b : string) :
  replace (String c "") "" (a ++ b)
  = replace (String c "") "" a ++ replace (String c "") "" b.
Proof.
  induction a as [|d a IH]; [reflexivity|].
  rewrite app_cons, !replace_char_cons, IH.
  destruct (ascii_dec c d); reflexivity.
Qed.

Lemma in_replace_char (c x : ascii) (s : string) :
  In x (list_ascii_of_string (replace (String c "") "" s))
  <-> In x (list_ascii_of_string s) /\ x <> c.
Proof.
  induction s as [|d s IH]; [simpl; tauto|].
  rewrite replace_char_cons. destruct (ascii_dec c d) as [->|Hne]; simpl; rewrite IH.
  - split; [tauto|]. intros [[->|Hin] Hx]; [congruence | tauto].
  - split.
    + intros [->|[Hin Hx]]; [split; [auto | congruence] | tauto].
    + intros [[->|Hin] Hx]; tauto.
Qed.

(** What the closing [.replace("\n", "").replace(" ", "")] guarantees. *)
Lemma sanitized_no_blank (s : string) :
  contains " " (replace " " "" (replace nl "" s)) = false
  /\ contains nl (replace " " "" (replace nl "" s)) = false.
Proof.
  unfold nl. split; apply contains_char_false; rewrite !in_replace_char.
  - intros [_ Hn]. apply Hn. reflexivity.
  - intros [[_ Hn] _]. apply Hn. reflexivity.
Qed.

Lemma sanitized_app (a b : string) :
  replace " " "" (replace nl "" (a ++ b))
  = replace " " "" (replace nl "" a) ++ replace " " "" (replace nl "" b).
Proof. unfold nl. now rewrite !replace_char_app. Qed.

(** A string without spaces contains no text that has a space. *)
Lemma no_space_no_sub (sub s : string) :
  contains " " s = false -> contains " " sub = true -> contains sub s = false.
Proof.
  intros Hs Hsub. destruct (contains sub s) eqn:E; [|reflexivity].
  apply contains_char_false in Hs. exfalso. apply Hs.
  apply (contains_chars sub s _ E). now apply contains_char.
Qed.

(** *** Joining *)

Lemma join_cons (sep x y : string) (l : list string) :
  join sep (x :: y :: l) = x ++ sep ++ join sep (y :: l).
Proof. reflexivity. Qed.

Lemma join_split (sep x : string) (l : list string) :
  In x l -> exists p q, join sep l = p ++ x ++ q.
Proof.
  induction l as [|y l IH]; [intros []|].
  intros [->|Hin].
  - destruct l as [|z l].
    + exists "", "". simpl. now rewrite app_empty_r.
    + exists "", (sep ++ join sep (z :: l)). now rewrite join_cons.
  - destruct l as [|z l]; [destruct Hin|].
    destruct (IH Hin) as (p & q & E).
    exists (y ++ sep ++ p), q. rewrite join_cons, E, !string_app_assoc. reflexivity.
Qed.

(** A stage survives the final sanitation up to its own sanitation. *)
Lemma contains_sanitized_join (sub x : string) (l : list string) :
  In x l ->
  contains sub (replace " " "" (replace nl "" x)) = true ->
  contains sub (replace " " "" (replace nl "" (join "," l))) = true.
Proof.
  intros Hin Hx. destruct (join_split "," x l Hin) as (p & q & ->).
  rewrite !sanitized_app. now apply contains_app_r, contains_app_l.
Qed.

Lemma contains_join (sub sep : string) (l : list string) (x : string) :
  In x l -> contains sub x = true -> contains sub (join sep l) = true.
Proof.
  induction l as [|y l IH]; [intros []|].
  intros [->|Hin] Hx.
  - destruct l; [exact Hx|]. rewrite join_cons. now apply contains_app_l.
  - destruct l as [|z l]; [destruct Hin|].
    rewrite join_cons. apply contains_app_r, contains_app_r. now apply IH.
Qed.

End StringFacts.

(** ** Facts about the chain builders *)

Section ChainFacts.

Import Py.
Local Open Scope string_scope.
Context {FT : FloatText}.

Lemma blank_free_app (a b : string) :
  blank_free (a ++ b) = blank_free a && blank_free b.
Proof. unfold blank_free. rewrite chars_app. apply forallb_app. Qed.

Lemma blank_free_spec (s : string) :
  blank_free s = true <-> contains " " s = false /\ contains nl s = false.
Proof.
  unfold blank_free, nl. rewrite !contains_char_false, forallb_forall. split.
  - intros Hall. split; intros Hin; apply Hall in Hin; discriminate.
  - intros [Hs Hn] c Hin.
    destruct (Ascii.eqb_spec c " ") as [->|]; [tauto|].
    destruct (Ascii.eqb_spec c "010") as [->|]; [tauto|]. reflexivity.
Qed.

Lemma blank_free_join (l : list string) :
  forallb blank_free l = true -> blank_free (join "," l) = true.
Proof.
  induction l as [|x l IH]; [reflexivity|].
  intros Hall. apply andb_true_iff in Hall as [Hx Hl].
  destruct l as [|y l]; [exact Hx|].
  rewrite join_cons, !blank_free_app, Hx, (IH Hl). reflexivity.
Qed.

Lemma blank_free_uint (u : Decimal.uint) :
  blank_free (NilEmpty.string_of_uint u) = true.
Proof. induction u; simpl; try exact IHu; reflexivity. Qed.

(** The decimal text of an integer has no blank. *)
Lemma blank_free_str_int (z : Z) : blank_free (str_int z) = true.
Proof.
  unfold str_int, NilZero.string_of_int, NilZero.string_of_uint.
  destruct (Z.to_int z) as [u|u]; destruct u; try reflexivity;
    try (apply (blank_free_uint (_ u)));
    try (change (blank_free (NilEmpty.string_of_uint (Decimal.D0 u)) = true);
         apply blank_free_uint).
Qed.

(** *** The v3.3 builder *)

Lemma reverb_presets_complete (r : Z) (p : gmap string string) :
  Pro33.reverb_presets !! r = Some p -> Pro33.complete_preset p.
Proof.
  unfold Pro33.reverb_presets. intros Hl.
  repeat (apply lookup_insert_Some in Hl as [[_ <-]|[_ Hl]];
          [do 3 eexists; repeat split; reflexivity|]).
  apply lookup_singleton_Some in Hl as [_ <-].
  do 3 eexists; repeat split; reflexivity.
Qed.

Lemma build_gentle_reverb_filter_ok (r : Z) :
  exists f, Pro33.build_gentle_reverb_filter r = Ok f.
Proof.
  unfold Pro33.build_gentle_reverb_filter.
  destruct (r =? 0)%Z; [eexists; reflexivity|].
  destruct (getitem_int Pro33.reverb_presets 2) as [fallback|] eqn:Hf; [|discriminate].
  assert (Pro33.complete_preset (get Pro33.reverb_presets r fallback))
    as (d & c & w & Hd & Hc & Hw).
  { unfold get. destruct (Pro33.reverb_presets !! r) eqn:Hr.
    - apply (reverb_presets_complete r _ Hr).
    - unfold getitem_int in Hf.
      destruct (Pro33.reverb_presets !! 2%Z) eqn:H2; [|discriminate].
      injection Hf as <-. apply (reverb_presets_complete 2 _ H2). }
  cbn [mbind result_bind]. unfold getitem. rewrite Hd, Hc, Hw.
  eexists. reflexivity.
Qed.

Lemma professional_filters_ok preset vc wl ra nr a :
  exists l, Pro33.professional_filters preset vc wl ra nr a = Ok l.
Proof.
  unfold Pro33.professional_filters.
  destruct (ra >? 0)%Z; [|eexists; reflexivity].
  destruct (build_gentle_reverb_filter_ok ra) as [f ->].
  eexists. reflexivity.
Qed.

Lemma professional_chain_ok preset vc wl ra nr a :
  exists chain,
    Pro33.build_professional_filter_chain preset vc wl ra nr a = Ok chain
    /\ contains " " chain = false /\ contains nl chain = false.
Proof.
  unfold Pro33.build_professional_filter_chain.
  destruct (professional_filters_ok preset vc wl ra nr a) as [l ->].
  eexists. split; [reflexivity|]. apply sanitized_no_blank.
Qed.

(** *** The v2.0 builder *)

Lemma base_dn_tier (tier : string) :
  Vocal20.base_dn tier = Ok (Vocal20.Spec.tier_base tier).
Proof.
  unfold Vocal20.base_dn, Vocal20.Spec.tier_base, get, Vocal20.dn_map.
  destruct (String.eqb_spec tier "low") as [->|Hl]; [reflexivity|].
  destruct (String.eqb_spec tier "mid") as [->|Hm]; [reflexivity|].
  destruct (String.eqb_spec tier "high") as [->|Hh]; [reflexivity|].
  rewrite !lookup_insert_ne, lookup_singleton_ne by congruence. reflexivity.
Qed.

Lemma vocal_compress_collapsed (ratio : Q) :
  contains "amix=inputs=3:weights=1.11.00.9"
    (replace " " "" (replace nl "" (Vocal20.compress_stage ratio))) = true.
Proof.
  unfold Vocal20.compress_stage. rewrite !sanitized_app.
  do 10 apply contains_app_r. reflexivity.
Qed.


Lemma vocal_filters_ok scene lvl de sf dn a :
  exists l ratio,
    Vocal20.vocal_filters scene lvl de sf dn a = Ok l
    /\ In (Vocal20.compress_stage ratio) l.
Proof.
  unfold Vocal20.vocal_filters, Vocal20.denoise_stage, Vocal20.final_dn.
  rewrite base_dn_tier. cbn [mbind result_bind mret result_ret].
  change (getitem Vocal20.sound_field_presets "轻微扩展")
    with (Ok "stereo|c0=0.8*c0+0.2*c1|c1=0.2*c0+0.8*c1" : result string).
  cbn [mbind result_bind mret result_ret].
  eexists. eexists. split; [reflexivity|].
  destruct de; unfold append; rewrite !in_app_iff; simpl; tauto.
Qed.

Lemma vocal_chain_ok scene lvl de sf dn a :
  exists chain,
    Vocal20.build_vocal_filter_chain scene lvl de sf dn a = Ok chain
    /\ contains "amix=inputs=3:weights=1.11.00.9" chain = true
    /\ contains "weights=1.1 1.0 0.9" chain = false.
Proof.
  unfold Vocal20.build_vocal_filter_chain.
  destruct (vocal_filters_ok scene lvl de sf dn a) as (l & ratio & -> & Hin).
  cbn [mbind result_bind mret result_ret].
  eexists. split; [reflexivity|]. split.
  - apply (contains_sanitized_join _ (Vocal20.compress_stage ratio)).
    + apply filter_In. split; [exact Hin | reflexivity].
    + apply vocal_compress_collapsed.
  - apply no_space_no_sub; [apply sanitized_no_blank | reflexivity].
Qed.

(** *** The v2.7 builder *)

Lemma bgm_compress_collapsed (ratio : Q) :
  contains "amix=inputs=3:weights=1.11.00.9"
    (replace " " "" (replace nl "" (Bgm27.compress_stage ratio))) = true.
Proof.
  unfold Bgm27.compress_stage. rewrite !sanitized_app.
  do 10 apply contains_app_r. reflexivity.
Qed.

Lemma bgm_pan_lookup :
  Forall (fun sf => exists pan, getitem Bgm27.sound_field_presets sf = Ok pan)
    Bgm27.sound_field_items.
Proof. repeat constructor; eexists; reflexivity. Qed.

Lemma bgm_filters_ok uc sf av a :
  In sf Bgm27.sound_field_items ->
  exists l,
    Bgm27.processing_filters uc sf av a = Ok l
    /\ (uc = true -> exists ratio, In (Bgm27.compress_stage ratio) l).
Proof.
  intros Hin.
  destruct (proj1 (List.Forall_forall _ _) bgm_pan_lookup sf Hin) as [pan Hpan].
  unfold Bgm27.processing_filters. rewrite Hpan.
  cbn [mbind result_bind mret result_ret].
  eexists. split; [reflexivity|].
  intros ->. eexists.
  destruct av; unfold append; rewrite !in_app_iff; simpl; tauto.
Qed.

Lemma bgm_chain_ok uc sf av a :
  In sf Bgm27.sound_field_items ->
  exists chain,
    Bgm27.build_processing_chain uc sf av a = Ok chain
    /\ contains " " chain = false /\ contains nl chain = false
    /\ (uc = true -> contains "amix=inputs=3:weights=1.11.00.9" chain = true).
Proof.
  intros Hin. unfold Bgm27.build_processing_chain.
  destruct (bgm_filters_ok uc sf av a Hin) as (l & -> & Hc).
  cbn [mbind result_bind mret result_ret].
  eexists. split; [reflexivity|].
  split; [apply sanitized_no_blank|]. split; [apply sanitized_no_blank|].
  intros Huc. destruct (Hc Huc) as [ratio Hr].
  apply (contains_sanitized_join _ (Bgm27.compress_stage ratio)); [exact Hr|].
  apply bgm_compress_collapsed.
Qed.

(** *** The v2.5 chain *)

Lemma multi_band_keeps_spaces dr attack release f g :
  contains "amix=inputs=3:weights=1.2 1 0.8"
    (Bgm25.get_multi_band_params dr attack release f g) = true.
Proof.
  unfold Bgm25.get_multi_band_params. cbv zeta.
  do 9 apply contains_app_r. reflexivity.
Qed.

Lemma traditional_blank_free dr :
  blank_free (Bgm25._get_traditional_compress_params dr) = true.
Proof.
  unfold Bgm25._get_traditional_compress_params.
  destruct (fge dr 20); [reflexivity|].
  destruct (fle 10 dr && flt dr 20); reflexivity.
Qed.

Lemma pan_options_lookup :
  Forall (fun p => negb (String.eqb p "") = true
                   /\ exists pan, getitem Bgm25.pan_options p = Ok pan
                                  /\ blank_free pan = true)
    Bgm25.pan_items.
Proof. repeat constructor; eexists; split; reflexivity. Qed.

Lemma pre_filter_complex_shape (self : Bgm25.Thread) (cf : string) :
  In (Bgm25.pan_type self) Bgm25.pan_items ->
  exists chain l,
    Bgm25.pre_filter_complex self cf = Ok chain
    /\ chain = join "," l /\ In cf l
    /\ (blank_free cf = true -> forallb blank_free l = true).
Proof.
  intros Hin.
  destruct (proj1 (List.Forall_forall _ _) pan_options_lookup _ Hin)
    as (Hne & pan & Hpan & Hclean).
  unfold Bgm25.pre_filter_complex. rewrite Hne, Hpan.
  cbn [mbind result_bind mret result_ret].
  eexists. eexists. split; [reflexivity|]. split; [reflexivity|]. split.
  - destruct (Bgm25.eq_enabled self); unfold append; rewrite !in_app_iff; simpl; tauto.
  - intros Hcf. destruct (Bgm25.eq_enabled self); unfold append; simpl;
      rewrite ?blank_free_app, ?blank_free_str_int, Hcf, Hclean; reflexivity.
Qed.

Lemma pre_filter_complex_selected (self : Bgm25.Thread) dr attack release lufs :
  In (Bgm25.pan_type self) Bgm25.pan_items ->
  exists chain,
    Bgm25.pre_filter_complex self
      (fst (Bgm25.select_filters self dr attack release lufs)) = Ok chain
    /\ if Bgm25.compress_enabled self && Bgm25.use_smart_compress self
       then contains "amix=inputs=3:weights=1.2 1 0.8" chain = true
            /\ contains " " chain = true
       else contains " " chain = false /\ contains nl chain = false.
Proof.
  intros Hin.
  destruct (pre_filter_complex_shape self
              (fst (Bgm25.select_filters self dr attack release lufs)) Hin)
    as (chain & l & -> & -> & Hcf & Hclean).
  eexists. split; [reflexivity|].
  unfold Bgm25.select_filters in *.
  destruct (Bgm25.compress_enabled self && Bgm25.use_smart_compress self) eqn:Hs.
  - assert (contains "amix=inputs=3:weights=1.2 1 0.8" (join "," l) = true) as Hw.
    { apply (contains_join _ _ _ _ Hcf). apply multi_band_keeps_spaces. }
    split; [exact Hw|].
    destruct (contains " " (join "," l)) eqn:Hsp; [reflexivity|].
    rewrite (no_space_no_sub _ _ Hsp) in Hw; [discriminate | reflexivity].
  - apply blank_free_spec, blank_free_join, Hclean.
    destruct (Bgm25.compress_enabled self); simpl;
      [rewrite blank_free_app, traditional_blank_free|]; reflexivity.
Qed.

(** ** The claims about the chain builders *)

(** C1. For every analysis and every combination of settings, each chain
    builder returns a chain and does not raise; the stereo-field lookup of
    the v2.7 builder succeeds for each of the three values its window
    offers. *)
Theorem chain_builders_return :
  (forall scene lvl de sf dn a,
      exists chain, Vocal20.build_vocal_filter_chain scene lvl de sf dn a = Ok chain)
  /\ (forall preset vc wl ra nr a,
      exists chain,
        Pro33.build_professional_filter_chain preset vc wl ra nr a = Ok chain)
  /\ Forall (fun sf =>
               (exists pan, getitem Bgm27.sound_field_presets sf = Ok pan)
               /\ forall uc av a,
                    exists chain, Bgm27.build_processing_chain uc sf av a = Ok chain)
       Bgm27.sound_field_items.
Proof.
  split; [|split].
  - intros. destruct (vocal_chain_ok scene lvl de sf dn a) as (chain & E & _).
    exists chain. exact E.
  - intros. destruct (professional_chain_ok preset vc wl ra nr a) as (chain & E & _).
    exists chain. exact E.
  - apply List.Forall_forall. intros sf Hin. split.
    + apply (proj1 (List.Forall_forall _ _) bgm_pan_lookup sf Hin).
    + intros. destruct (bgm_chain_ok uc sf av a Hin) as (chain & E & _).
      exists chain. exact E.
Qed.

(** C3, as amended.  The chain of the v3.3 builder contains no space and no
    newline.  The v2.5 worker hands its chain over as joined, without a
    sanitation step: the chain contains no space and no newline unless
    smart multi-band compression is selected, and with smart compression
    it keeps the spaces of the weight list [weights=1.2 1 0.8]. *)
Theorem chain_blank_free_unless_smart :
  (forall preset vc wl ra nr a,
      exists chain,
        Pro33.build_professional_filter_chain preset vc wl ra nr a = Ok chain
        /\ contains " " chain = false /\ contains nl chain = false)
  /\ Forall (fun pan => forall self dr attack release lufs,
               Bgm25.pan_type self = pan ->
               exists chain,
                 Bgm25.pre_filter_complex self
                   (fst (Bgm25.select_filters self dr attack release lufs)) = Ok chain
                 /\ if Bgm25.compress_enabled self && Bgm25.use_smart_compress self
                    then contains "amix=inputs=3:weights=1.2 1 0.8" chain = true
                         /\ contains " " chain = true
                    else contains " " chain = false /\ contains nl chain = false)
       Bgm25.pan_items.
Proof.
  split.
  - apply professional_chain_ok.
  - apply List.Forall_forall. intros pan Hin self dr attack release lufs E.
    apply pre_filter_complex_selected. now rewrite E.
Qed.

(** C10. With multi-band compression enabled, the closing removal of spaces
    turns the weight list [weights=1.1 1.0 0.9] of the band-mixing stage
    into the single token [weights=1.11.00.9]: the chain handed to the
    engine contains the collapsed token and no longer the three weights. *)
Theorem compression_weights_collapse :
  Forall (fun sf => forall av a,
            exists chain,
              Bgm27.build_processing_chain true sf av a = Ok chain
              /\ contains "amix=inputs=3:weights=1.11.00.9" chain = true
              /\ contains "weights=1.1 1.0 0.9" chain = false)
    Bgm27.sound_field_items
  /\ (forall scene lvl de sf dn a,
        exists chain,
          Vocal20.build_vocal_filter_chain scene lvl de sf dn a = Ok chain
          /\ contains "amix=inputs=3:weights=1.11.00.9" chain = true
          /\ contains "weights=1.1 1.0 0.9" chain = false).
Proof.
  split.
  - apply List.Forall_forall. intros sf Hin av a.
    destruct (bgm_chain_ok true sf av a Hin) as (chain & E & Hs & _ & Hw).
    exists chain. split; [exact E|]. split; [now apply Hw|].
    apply no_space_no_sub; [exact Hs | reflexivity].
  - apply vocal_chain_ok.
Qed.

End ChainFacts.

(** ** Facts about the decision rules *)

Section DecisionFacts.

Import Py.
Local Open Scope string_scope.
Local Open Scope Q_scope.
Context {FT : FloatText}.

Lemma final_dn_strength (tier : string) (a : Vocal20.Analysis) :
  Vocal20.final_dn tier a
  = Ok (Vocal20.Spec.strength (Vocal20.Spec.tier_base tier)
          (default (-50.0) (Vocal20.noise_floor a))).
Proof.
  unfold Vocal20.final_dn, Vocal20.Spec.strength. rewrite base_dn_tier.
  cbn [mbind result_bind mret result_ret]. f_equal.
  set (nf := default (-50.0) (Vocal20.noise_floor a)).
  destruct (Qlt_le_dec (-45) nf) as [Hhi|Hhi].
  - apply (flt_iff (-45) nf) in Hhi. unfold fgt. now rewrite Hhi.
  - apply (flt_false_iff (-45) nf) in Hhi. unfold fgt. rewrite Hhi.
    destruct (Qlt_le_dec nf (-55)) as [Hlo|Hlo].
    + apply (flt_iff nf (-55)) in Hlo. now rewrite Hlo.
    + apply (flt_false_iff nf (-55)) in Hlo. now rewrite Hlo.
Qed.

Lemma noise_stage_values (tier : string) :
  In (Pro33.noise_stage tier)
    ["highpass=f=100,lowpass=f=14000"; "highpass=f=150,lowpass=f=12000";
     "highpass=f=200,lowpass=f=10000"].
Proof.
  unfold Pro33.noise_stage. unfold get at 1.
  destruct (Pro33.nr_map !! _) as [v|] eqn:Hl; [|simpl; tauto].
  unfold Pro33.nr_map in Hl.
  repeat (apply lookup_insert_Some in Hl as [[_ <-]|[_ Hl]]; [simpl; tauto|]).
  apply lookup_singleton_Some in Hl as [_ <-]. simpl; tauto.
Qed.

Lemma adaptive_target_split (L : Q) :
  (L < -16 - 10 /\ Bgm25.adaptive_target L = L + 8)
  \/ (-16 - 10 <= L /\ Bgm25.adaptive_target L = Bgm25.TARGET_LUFS).
Proof.
  unfold Bgm25.adaptive_target.
  destruct (flt L (Bgm25.TARGET_LUFS - 10)) eqn:E.
  - left. split; [|reflexivity]. apply flt_iff in E. unfold Bgm25.TARGET_LUFS in E. lra.
  - right. split; [|reflexivity]. apply flt_false_iff in E. unfold Bgm25.TARGET_LUFS in E. lra.
Qed.

Lemma professional_filters_head preset vc wl ra nr a :
  exists rest,
    Pro33.professional_filters preset vc wl ra nr a = Ok (Pro33.noise_stage nr :: rest).
Proof.
  unfold Pro33.professional_filters.
  destruct (ra >? 0)%Z; [|eexists; reflexivity].
  destruct (build_gentle_reverb_filter_ok ra) as [f ->].
  cbn [mbind result_bind mret result_ret].
  destruct (String.eqb f ""); eexists; reflexivity.
Qed.

(** C6, as amended.  In the v2.0 builder the strength of the noise
    suppression is the base level of the tier (-20, -30 or -40, and -30 for
    a tier that is not recognised) when the noise floor is above -45 dBFS,
    the base relaxed by 10 when the floor is below -55 dBFS and the base
    relaxed by 5 otherwise, and the stage always ends with the high-pass
    corner at 80 Hz.  In the v3.3 builder the noise stage is one of three
    high-pass/low-pass pairs, chosen by the tier alone. *)
Theorem noise_suppression_by_tier (tier : string) :
  (forall a : Vocal20.Analysis,
      let strength :=
        Vocal20.Spec.strength (Vocal20.Spec.tier_base tier)
          (default (-50.0) (Vocal20.noise_floor a)) in
      Vocal20.final_dn tier a = Ok strength
      /\ Vocal20.denoise_stage tier a
         = Ok ("afftdn=nf=" ++ str_int strength ++ ":nt=w,highpass=f=80"))
  /\ In (Pro33.noise_stage tier)
       ["highpass=f=100,lowpass=f=14000"; "highpass=f=150,lowpass=f=12000";
        "highpass=f=200,lowpass=f=10000"]
  /\ (forall preset vc wl ra a,
        exists rest,
          Pro33.professional_filters preset vc wl ra tier a
          = Ok (Pro33.noise_stage tier :: rest)).
Proof.
  split; [|split].
  - intros a strength. split; [apply final_dn_strength|].
    unfold Vocal20.denoise_stage. rewrite final_dn_strength. reflexivity.
  - apply noise_stage_values.
  - intros. apply professional_filters_head.
Qed.

(** C7, as amended.  When the input loudness is more than 10 dB below the
    target of -16 LUFS the effective target is the input plus 8; otherwise
    it is the target itself.  The effective target never exceeds the input
    by more than 10 dB. *)
Theorem adaptive_target_boost (L : Q) :
  ((L < -16 - 10 /\ Bgm25.adaptive_target L = L + 8)
   \/ (-16 - 10 <= L /\ Bgm25.adaptive_target L = Bgm25.TARGET_LUFS))
  /\ Bgm25.adaptive_target L - L <= 10
  /\ Bgm25.get_adaptive_loudnorm L
     = ("loudnorm=I=" ++ str_of_float (Bgm25.adaptive_target L) ++ ":LRA=11:TP=-1.5")%string.
Proof.
  split; [apply adaptive_target_split|]. split; [|reflexivity].
  destruct (adaptive_target_split L) as [[Hq ->]|[Hq ->]].
  - lra.
  - unfold Bgm25.TARGET_LUFS. lra.
Qed.

End DecisionFacts.

(** In the v3.3 builder no high-pass corner between 80 and 100 Hz serves
    every tier: the medium tier cuts at 150 Hz and the high tier at 200 Hz.
    C6 as stated fails on that builder. *)
Lemma professional_high_pass_follows_tier :
  Pro33.noise_stage "中" = "highpass=f=150,lowpass=f=12000"%string
  /\ Pro33.noise_stage "重" = "highpass=f=200,lowpass=f=10000"%string
  /\ ~ (exists c : Z,
          (80 <= c <= 100)%Z
          /\ forall tier,
               Py.contains ("highpass=f=" ++ Py.str_int c ++ ",")%string
                 (Pro33.noise_stage tier) = true).
Proof.
  split; [reflexivity|]. split; [reflexivity|].
  intros (c & Hc & Hall). specialize (Hall "中"%string).
  assert (exists n : nat, (n <= 20)%nat /\ c = (80 + Z.of_nat n)%Z) as (n & Hn & ->).
  { exists (Z.to_nat (c - 80)). split; lia. }
  do 21 (destruct n as [|n]; [vm_compute in Hall; discriminate Hall|]).
  lia.
Qed.

(** An input at -25 LUFS is not more than 10 dB below the target, so it is
    normalised to -16 LUFS: a boost of 9 dB.  C7 as stated fails here. *)
Lemma quiet_input_guard_allows_9_dB :
  (Bgm25.adaptive_target (-25) == -16)%Q
  /\ ~ (Bgm25.adaptive_target (-25) - (-25) <= 8)%Q.
Proof.
  split.
  - vm_compute. reflexivity.
  - intros Hle. vm_compute in Hle. apply Hle. reflexivity.
Qed.

Lemma quality_score_monotone_witness :
  (10 <= 16)%Q
  /\ (Pro33.calculate_quality_score (Pro33.with_dynamic_range 10 Samples.pro_analysis)
      <= Pro33.calculate_quality_score (Pro33.with_dynamic_range 16 Samples.pro_analysis))%Q.
Proof.
  split.
  - unfold Qle. simpl. lia.
  - apply quality_score_monotone_in_dynamic_range. unfold Qle. simpl. lia.
Defined.

(** ** Facts about the code that runs the engine *)

Section IoFacts.

Import Py.
Local Open Scope string_scope.
Context {S : Type} {OS : Platform S}.

Lemma io_bind_eq {A B} (m : io S A) (f : A -> io S B) (w : World S) :
(m ≫= f) w
= match m w with
  | (w', Ok a) => f a w'
  | (w', Raise e) => (w', Raise e)
  end.
Proof. reflexivity. Qed.

Lemma io_bind_ok {A B} (m : io S A) (f : A -> io S B) (w w' : World S) (b : B) :
  (m ≫= f) w = (w', Ok b) ->
  exists w1 a, m w = (w1, Ok a) /\ f a w1 = (w', Ok b).
Proof.
  rewrite io_bind_eq. destruct (m w) as [w1 [a|e]]; [eauto | discriminate].
Qed.

(** [if os.path.exists(p): os.remove(p)], case by case: nothing to do, a
    removal that the operating system refuses, a removal. *)
Lemma remove_if_exists_eq (p : string) (w : World S) :
  (found ← os_path_exists p; when found (os_remove p)) w
  = match fs w !! p with
    | None => (w, Ok tt)
    | Some _ =>
        match remove_error (engine w) p with
        | Some msg => (w, Raise (OSError msg))
        | None =>
            ({| fs := delete p (fs w); engine := engine w; logged := logged w |}, Ok tt)
        end
    end.
Proof.
  rewrite io_bind_eq. unfold os_path_exists, when, os_remove.
  destruct (fs w !! p) as [n|] eqn:Hp.
  - rewrite bool_decide_eq_true_2 by eauto. rewrite Hp. reflexivity.
  - rewrite bool_decide_eq_false_2 by (intros [? ?]; congruence). reflexivity.
Qed.

(** When the guarded removal completes, no file is left at [p] and no other
    file has changed. *)
Lemma remove_if_exists_ok (p : string) (w w' : World S) (u : unit) :
  (found ← os_path_exists p; when found (os_remove p)) w = (w', Ok u) ->
  fs w' !! p = None /\ fs w' = delete p (fs w).
Proof.
  rewrite remove_if_exists_eq.
  destruct (fs w !! p) as [n|] eqn:Hp.
  - destruct (remove_error (engine w) p); [discriminate|].
    intros [= <- _]. cbn [fs]. split; [apply lookup_delete_eq | reflexivity].
  - intros [= <- _]. split; [exact Hp|]. symmetry. now apply delete_id.
Qed.

(** The guarded removal leaves no file at [p], or raises the error of the
    operating system and leaves the machine as it was. *)
Lemma remove_if_exists_outcome (p : string) (w : World S) :
  (exists w',
      (found ← os_path_exists p; when found (os_remove p)) w = (w', Ok tt)
      /\ fs w' !! p = None)
  \/ (exists msg,
        (found ← os_path_exists p; when found (os_remove p)) w = (w, Raise (OSError msg))
        /\ remove_error (engine w) p = Some msg
        /\ is_Some (fs w !! p)).
Proof.
  rewrite remove_if_exists_eq.
  destruct (fs w !! p) as [n|] eqn:Hp.
  - destruct (remove_error (engine w) p) as [msg|].
    + right. exists msg. repeat split; eauto.
    + left. eexists. split; [reflexivity|]. cbn [fs]. apply lookup_delete_eq.
  - left. exists w. split; [reflexivity | exact Hp].
Qed.

(** A [try] whose [finally] removes [p] leaves no file at [p], whether the
    body returns or raises, unless the removal itself is refused: then the
    statement raises the error of the operating system in place of the
    outcome of its body, and the file stays. *)
Lemma finally_removes {A} (body : io S A) (p : string) (w : World S) :
  let outcome :=
    io_try_finally body (found ← os_path_exists p; when found (os_remove p)) w in
  match outcome.2 with
  | Raise (OSError msg) =>
      fs outcome.1 !! p = None
      \/ (remove_error (engine outcome.1) p = Some msg /\ is_Some (fs outcome.1 !! p))
  | _ => fs outcome.1 !! p = None
  end.
Proof.
  cbv zeta. unfold io_try_finally. destruct (body w) as [w1 r].
  destruct (remove_if_exists_outcome p w1) as [(w2 & -> & Hp)|(msg & -> & Hr & Hp)].
  - cbn [fst snd]. destruct r as [a|[]]; auto.
  - cbn [fst snd]. auto.
Qed.

Lemma professional_process_removes_temp input chain params (w : World S) :
  let temp := (splitext input).1 ++ "_professional_temp.wav" in
  let outcome := Pro33._professional_process_safe input chain params w in
  match outcome.2 with
  | Raise (OSError msg) =>
      fs outcome.1 !! temp = None
      \/ (remove_error (engine outcome.1) temp = Some msg /\ is_Some (fs outcome.1 !! temp))
  | _ => fs outcome.1 !! temp = None
  end.
Proof.
  cbv zeta. unfold Pro33._professional_process_safe.
  cbn [mapM]. rewrite 2 io_bind_eq.
  destruct (remove_if_exists_outcome ((splitext input).1 ++ "_professional_temp.wav") w)
    as [(w1 & -> & Hp)|(msg & -> & Hr & Hp)]; [|cbn [fst snd]; auto].
  rewrite 2 io_bind_eq.
  destruct (remove_if_exists_outcome
              ((splitext input).1 ++ "_专业优化后" ++ Pro33.ext params) w1)
    as [(w2 & -> & _)|(msg & -> & _ & _)]; [|cbn [fst snd]; auto].
  cbn [mbind mret io_bind io_ret]. apply finally_removes.
Qed.

Lemma process_removes_temp input chain params (w : World S) :
  let temp := (splitext input).1 ++ "_bgm_temp.wav" in
  let outcome := Bgm27._process input chain params w in
  match outcome.2 with
  | Raise (OSError msg) =>
      fs outcome.1 !! temp = None
      \/ (remove_error (engine outcome.1) temp = Some msg /\ is_Some (fs outcome.1 !! temp))
  | _ => fs outcome.1 !! temp = None
  end.
Proof. unfold Bgm27._process. apply finally_removes. Qed.

(** C5, as amended.  After the two-phase routine exits, by returning or by
    raising at any of its checks, the intermediate WAV file does not exist,
    unless the operating system refused to remove it: the routine then
    exits with the error of [os.remove], and the file is still there. *)
Theorem intermediate_removed_unless_removal_refused
    (input chain : string) (w : World S) :
  (forall params : Pro33.OutputParams,
      let temp := (splitext input).1 ++ "_professional_temp.wav" in
      let outcome := Pro33._professional_process_safe input chain params w in
      match outcome.2 with
      | Raise (OSError msg) =>
          fs outcome.1 !! temp = None
          \/ (remove_error (engine outcome.1) temp = Some msg
              /\ is_Some (fs outcome.1 !! temp))
      | _ => fs outcome.1 !! temp = None
      end)
  /\ (forall params : Bgm27.OutputParams,
      let temp := (splitext input).1 ++ "_bgm_temp.wav" in
      let outcome := Bgm27._process input chain params w in
      match outcome.2 with
      | Raise (OSError msg) =>
          fs outcome.1 !! temp = None
          \/ (remove_error (engine outcome.1) temp = Some msg
              /\ is_Some (fs outcome.1 !! temp))
      | _ => fs outcome.1 !! temp = None
      end).
Proof.
  split; intros params.
  - apply professional_process_removes_temp.
  - apply process_removes_temp.
Qed.

End IoFacts.

(** ** Facts about the feature extractor *)

Section ExtractorFacts.

Import Py.
Local Open Scope string_scope.
Local Open Scope Q_scope.
Context {FT : FloatText} {S : Type} {OS : Platform S}.

Lemma measure_loudness_eq (p : string) (w : World S) :
  Pro33.measure_loudness p w
  = match subprocess_run (Pro33.loudness_cmd p) w with
    | (w1, Raise _) => (w1, Ok (-20.0))
    | (w1, Ok r) => (w1, Ok (Pro33.scan_loudness (splitlines (stderr r))))
    end.
Proof.
  unfold Pro33.measure_loudness. cbv zeta. rewrite io_bind_eq. unfold io_catch.
  destruct (subprocess_run (Pro33.loudness_cmd p) w) as [w1 [r|e]]; reflexivity.
Qed.

Lemma scan_loudness_default (lines : list string) :
  Forall Pro33.loudness_silent lines -> Pro33.scan_loudness lines = -20.0.
Proof.
  induction 1 as [|line lines Hline _ IH]; [reflexivity|].
  simpl. destruct Hline as [-> | Hr]; [exact IH|].
  destruct (contains "Input Integrated Loudness" line); [|exact IH].
  destruct (Pro33.loudness_of_line line); [discriminate | exact IH].
Qed.

Lemma get_volume_stats_eq (p : string) (w : World S) :
  Pro33.get_volume_stats p w
  = match subprocess_run (Pro33.volume_cmd p) w with
    | (w1, Raise _) =>
        (w1, Ok {| Pro33.stat_max := -10.0; Pro33.stat_min := -60.0;
                   Pro33.stat_mean := -20.0 |})
    | (w1, Ok r) =>
        (w1, Ok (let '(max_vol, min_vol, mean_vol) :=
                   fold_left Pro33.scan_volume_line (splitlines (stderr r))
                     (-10.0, -60.0, -20.0) in
                 {| Pro33.stat_max := max_vol; Pro33.stat_min := min_vol;
                    Pro33.stat_mean := mean_vol |}))
    end.
Proof.
  unfold Pro33.get_volume_stats. cbv zeta. rewrite io_bind_eq. unfold io_catch.
  destruct (subprocess_run (Pro33.volume_cmd p) w) as [w1 [r|e]]; [|reflexivity].
  destruct (fold_left _ _ _) as [[a b] c]. reflexivity.
Qed.

Lemma get_volume_stats_total (p : string) (w : World S) :
  exists w1 st, Pro33.get_volume_stats p w = (w1, Ok st).
Proof.
  rewrite get_volume_stats_eq.
  destruct (subprocess_run (Pro33.volume_cmd p) w) as [w1 [r|e]]; eauto.
Qed.

Lemma if_same_andb_r {A} (b : bool) (x y : A) :
  (if b && false then x else y) = y.
Proof. now rewrite andb_false_r. Qed.

Lemma measure_loudness_total (p : string) (w : World S) :
  exists w1 l, Pro33.measure_loudness p w = (w1, Ok l).
Proof.
  rewrite measure_loudness_eq.
  destruct (subprocess_run (Pro33.loudness_cmd p) w) as [w1 [r|e]]; eauto.
Qed.

Lemma parse_probe_line_channels (a : Pro33.Analysis) (line : string) :
  Pro33.channels (Pro33.parse_probe_line a line)
  = if contains "Audio" line
    then if (contains "kb/s" line && raises (Pro33.bitrate_of_line line))
            || (contains "Hz" line && raises (Pro33.sample_rate_of_line line))
         then Pro33.channels a
         else if contains "stereo" line then 2%Z else Pro33.channels a
    else Pro33.channels a.
Proof.
  unfold Pro33.parse_probe_line, Pro33.parse_audio_line.
  destruct (contains "Duration" line), (Pro33.duration_of_line line) as [[d|]|],
    (contains "Audio" line), (contains "flac" line || contains "wav" line),
    (contains "kb/s" line), (Pro33.bitrate_of_line line),
    (contains "Hz" line), (Pro33.sample_rate_of_line line),
    (contains "stereo" line); reflexivity.
Qed.

Lemma parse_probe_line_bitrate (a : Pro33.Analysis) (line : string) :
  Pro33.bitrate (Pro33.parse_probe_line a line)
  = if contains "Audio" line && contains "kb/s" line
    then match Pro33.bitrate_of_line line with
         | Ok b => b
         | Raise _ => Pro33.bitrate a
         end
    else Pro33.bitrate a.
Proof.
  unfold Pro33.parse_probe_line, Pro33.parse_audio_line.
  destruct (contains "Duration" line), (Pro33.duration_of_line line) as [[d|]|],
    (contains "Audio" line), (contains "flac" line || contains "wav" line),
    (contains "kb/s" line), (Pro33.bitrate_of_line line),
    (contains "Hz" line), (Pro33.sample_rate_of_line line),
    (contains "stereo" line); reflexivity.
Qed.

Lemma parse_probe_line_sample_rate (a : Pro33.Analysis) (line : string) :
  Pro33.sample_rate (Pro33.parse_probe_line a line)
  = if contains "Audio" line && contains "Hz" line
       && negb (contains "kb/s" line && raises (Pro33.bitrate_of_line line))
    then match Pro33.sample_rate_of_line line with
         | Ok r => r
         | Raise _ => Pro33.sample_rate a
         end
    else Pro33.sample_rate a.
Proof.
  unfold Pro33.parse_probe_line, Pro33.parse_audio_line.
  destruct (contains "Duration" line), (Pro33.duration_of_line line) as [[d|]|],
    (contains "Audio" line), (contains "flac" line || contains "wav" line),
    (contains "kb/s" line), (Pro33.bitrate_of_line line),
    (contains "Hz" line), (Pro33.sample_rate_of_line line),
    (contains "stereo" line); reflexivity.
Qed.

Lemma bitrate_silent_keeps (a : Pro33.Analysis) (line : string) :
  Pro33.bitrate_silent line ->
  Pro33.bitrate (Pro33.parse_probe_line a line) = Pro33.bitrate a.
Proof.
  intros Hs. rewrite parse_probe_line_bitrate.
  destruct Hs as [-> | [-> | Hr]]; [reflexivity | apply if_same_andb_r |].
  destruct (Pro33.bitrate_of_line line); [discriminate Hr|].
  destruct (_ && _); reflexivity.
Qed.

Lemma sample_rate_silent_keeps (a : Pro33.Analysis) (line : string) :
  Pro33.sample_rate_silent line ->
  Pro33.sample_rate (Pro33.parse_probe_line a line) = Pro33.sample_rate a.
Proof.
  intros Hs. rewrite parse_probe_line_sample_rate.
  destruct Hs as [-> | [[-> Hr] | [-> | Hr]]].
  - reflexivity.
  - rewrite Hr. simpl. rewrite andb_false_r. reflexivity.
  - rewrite andb_false_r. reflexivity.
  - destruct (Pro33.sample_rate_of_line line); [discriminate Hr|].
    destruct (_ && _); reflexivity.
Qed.

Lemma probe_channels (lines : list string) (a : Pro33.Analysis) :
  Pro33.channels a = 2%Z ->
  Pro33.channels (fold_left Pro33.parse_probe_line lines a) = 2%Z.
Proof.
  revert a. induction lines as [|line lines IH]; intros a Ha; [exact Ha|].
  simpl. apply IH. rewrite parse_probe_line_channels, Ha.
  repeat match goal with |- context [if ?b then _ else _] => destruct b end;
    reflexivity.
Qed.

Lemma probe_bitrate (lines : list string) (a : Pro33.Analysis) :
  Forall Pro33.bitrate_silent lines ->
  Pro33.bitrate (fold_left Pro33.parse_probe_line lines a) = Pro33.bitrate a.
Proof.
  intros Hall. revert a. induction Hall as [|line lines Hl _ IH]; intros a; [reflexivity|].
  simpl. rewrite IH. now apply bitrate_silent_keeps.
Qed.

Lemma probe_sample_rate (lines : list string) (a : Pro33.Analysis) :
  Forall Pro33.sample_rate_silent lines ->
  Pro33.sample_rate (fold_left Pro33.parse_probe_line lines a) = Pro33.sample_rate a.
Proof.
  intros Hall. revert a. induction Hall as [|line lines Hl _ IH]; intros a; [reflexivity|].
  simpl. rewrite IH. now apply sample_rate_silent_keeps.
Qed.

Lemma analyze_missing_file (p : string) (w : World S) :
  fs w !! p = None ->
  Pro33.analyze_audio_quality p w = (w, Raise (FileNotFoundError ("文件不存在: " ++ p))).
Proof.
  intros Hp. unfold Pro33.analyze_audio_quality. rewrite io_bind_eq.
  unfold os_path_exists. rewrite Hp.
  rewrite bool_decide_eq_false_2 by (intros [? ?]; congruence). reflexivity.
Qed.

Lemma analyze_probe_raises (p : string) (w w1 : World S) (e : exn) :
  is_Some (fs w !! p) ->
  subprocess_run (Pro33.probe_cmd p) w = (w1, Raise e) ->
  Pro33.analyze_audio_quality p w
  = (w1, Raise (RuntimeError ("分析文件失败: " ++ str_exn e))).
Proof.
  intros Hp Hrun. unfold Pro33.analyze_audio_quality. rewrite io_bind_eq.
  unfold os_path_exists. rewrite bool_decide_eq_true_2 by exact Hp.
  cbn [negb]. cbv zeta. rewrite io_bind_eq. unfold io_try_except. rewrite Hrun.
  reflexivity.
Qed.

(** Once the probe has completed the analysis completes, and each entry of
    the result is what the pass that measures it returned. *)
Lemma analyze_probe_completes (p : string) (w w1 : World S) (r : CompletedProcess) :
  is_Some (fs w !! p) ->
  subprocess_run (Pro33.probe_cmd p) w = (w1, Ok r) ->
  exists w2 w3 w4 w5 l st1 st2 st3 a,
    Pro33.measure_loudness p w1 = (w2, Ok l)
    /\ Pro33.get_volume_stats p w2 = (w3, Ok st1)
    /\ Pro33.get_volume_stats p w3 = (w4, Ok st2)
    /\ Pro33.get_volume_stats p w4 = (w5, Ok st3)
    /\ Pro33.analyze_audio_quality p w = (w5, Ok a)
    /\ Pro33.loudness a = l
    /\ Pro33.dynamic_range a
       = Qabs (float_sub (Pro33.stat_max st1) (Pro33.stat_min st1))
    /\ Pro33.noise_floor a = Pro33.stat_min st1
    /\ Pro33.high_freq_energy a = Pro33.stat_max st2
    /\ Pro33.volume_level a = Pro33.stat_mean st3
    /\ (let probed := fold_left Pro33.parse_probe_line (splitlines (stderr r))
                        (Pro33.initial_analysis p) in
        Pro33.bitrate a = Pro33.bitrate probed
        /\ Pro33.sample_rate a = Pro33.sample_rate probed
        /\ Pro33.channels a = Pro33.channels probed
        /\ Pro33.is_lossless a = Pro33.is_lossless probed).
Proof.
  intros Hp Hrun.
  destruct (measure_loudness_total p w1) as (w2 & l & Hl).
  destruct (get_volume_stats_total p w2) as (w3 & st1 & H1).
  destruct (get_volume_stats_total p w3) as (w4 & st2 & H2).
  destruct (get_volume_stats_total p w4) as (w5 & st3 & H3).
  exists w2, w3, w4, w5, l, st1, st2, st3.
  eexists. repeat (split; [eassumption|]).
  split.
  - unfold Pro33.analyze_audio_quality. rewrite io_bind_eq.
    unfold os_path_exists. rewrite bool_decide_eq_true_2 by exact Hp.
    cbn [negb]. cbv zeta. rewrite io_bind_eq. unfold io_try_except. rewrite Hrun.
    rewrite io_bind_eq, Hl.
    rewrite io_bind_eq. unfold Pro33.analyze_dynamics. rewrite io_bind_eq, H1.
    cbn [mret io_ret]. rewrite io_bind_eq.
    unfold Pro33.detect_voice_characteristics. rewrite io_bind_eq, H2.
    cbn [mret io_ret]. rewrite io_bind_eq.
    unfold Pro33.calculate_perceived_loudness. rewrite io_bind_eq, H3.
    cbn [mret io_ret]. reflexivity.
  - cbn. repeat split; reflexivity.
Qed.


(** C4, as amended.  Extraction raises when the input file does not exist
    and when the invocation of the container probe itself raises.  Once the
    probe has completed, extraction returns a complete analysis whatever the
    measurement passes do: the channel count is 2; the bitrate is 192 and
    the sample rate 44100 when the probe output yields none; the loudness is
    -20.0 when the loudness pass raises or prints no loudness that parses. *)
Theorem analysis_degrades_to_defaults (p : string) (w : World S) :
  match fs w !! p with
  | None =>
      exists msg, Pro33.analyze_audio_quality p w = (w, Raise (FileNotFoundError msg))
  | Some _ =>
      match subprocess_run (Pro33.probe_cmd p) w with
      | (w1, Raise e) =>
          exists msg, Pro33.analyze_audio_quality p w = (w1, Raise (RuntimeError msg))
      | (w1, Ok r) =>
          exists w' a,
            Pro33.analyze_audio_quality p w = (w', Ok a)
            /\ Pro33.channels a = 2%Z
            /\ (Forall Pro33.bitrate_silent (splitlines (stderr r)) ->
                Pro33.bitrate a = 192%Z)
            /\ (Forall Pro33.sample_rate_silent (splitlines (stderr r)) ->
                Pro33.sample_rate a = 44100%Z)
            /\ match subprocess_run (Pro33.loudness_cmd p) w1 with
               | (_, Raise _) => Pro33.loudness a = -20.0
               | (_, Ok r') =>
                   Forall Pro33.loudness_silent (splitlines (stderr r')) ->
                   Pro33.loudness a = -20.0
               end
      end
  end.
Proof.
  destruct (fs w !! p) as [n|] eqn:Hp.
  - assert (is_Some (fs w !! p)) as Hsome by (rewrite Hp; eauto).
    destruct (subprocess_run (Pro33.probe_cmd p) w) as [w1 [r|e]] eqn:Hrun.
    + destruct (analyze_probe_completes p w w1 r Hsome Hrun)
        as (w2 & w3 & w4 & w5 & l & st1 & st2 & st3 & a & Hl & _ & _ & _ & Ha
            & El & _ & _ & _ & _ & Eb & Es & Ec & _).
      exists w5, a. split; [exact Ha|]. split; [|split; [|split]].
      * rewrite Ec. now apply probe_channels.
      * intros Hall. rewrite Eb. now rewrite probe_bitrate.
      * intros Hall. rewrite Es. now rewrite probe_sample_rate.
      * rewrite measure_loudness_eq in Hl.
        destruct (subprocess_run (Pro33.loudness_cmd p) w1) as [w1' [r'|e']].
        -- intros Hall. injection Hl as _ <-. rewrite El.
           now apply scan_loudness_default.
        -- injection Hl as _ <-. exact El.
    + eexists. apply (analyze_probe_raises p w w1 e Hsome Hrun).
  - eexists. apply (analyze_missing_file p w Hp).
Qed.

End ExtractorFacts.

(** ** The loudness that the workers hand to the normalisation stage *)

Section WorkerFacts.

Import Py.
Local Open Scope string_scope.
Local Open Scope Q_scope.
Context {FT : FloatText} {FF : FloatFormat} {S : Type} {OS : Platform S}.






End WorkerFacts.

(** The routine on the working engine returns the output path, and on the
    engine whose filter pass fails it raises; the intermediate file is gone
    both times. *)
Example professional_process_returns :
  let run := Pro33._professional_process_safe (OS := Samples.studio) "a.mp3" "anull"
               (Pro33.get_professional_output_params Samples.pro_analysis)
               Samples.disk in
  run.2 = Py.Ok "a_专业优化后.mp3"%string
  /\ Py.fs run.1 !! "a_专业优化后.mp3"%string = Some 300000%N
  /\ Py.fs run.1 !! "a_professional_temp.wav"%string = None.
Proof. vm_compute. repeat split. Qed.

Example professional_process_raises :
  let run := Pro33._professional_process_safe (OS := Samples.broken) "a.mp3" "anull"
               (Pro33.get_professional_output_params Samples.pro_analysis)
               Samples.disk in
  run.2 = Py.Raise (Py.Exception "预处理失败：Error in filter")
  /\ Py.fs run.1 !! "a_professional_temp.wav"%string = None.
Proof. vm_compute. repeat split. Qed.

(** The three other checks of the routine raise in their turn, and the
    intermediate file is gone each time. *)
Example professional_process_other_exits :
  let run (os : Py.Platform unit) :=
    Pro33._professional_process_safe (OS := os) "a.mp3" "anull"
      (Pro33.get_professional_output_params Samples.pro_analysis) Samples.disk in
  (run Samples.tiny).2 = Py.Raise (Py.Exception "预处理未生成有效文件")
  /\ (run Samples.deaf).2 = Py.Raise (Py.Exception "编码失败：Encoder not found")
  /\ (run Samples.short).2 = Py.Raise (Py.Exception "输出文件无效")
  /\ Py.fs (run Samples.tiny).1 !! "a_professional_temp.wav"%string = None
  /\ Py.fs (run Samples.deaf).1 !! "a_professional_temp.wav"%string = None
  /\ Py.fs (run Samples.short).1 !! "a_professional_temp.wav"%string = None.
Proof. vm_compute. repeat split. Qed.

(** On a system that refuses to remove the intermediate file, both routines
    run the engine to the end, exit with the error of [os.remove] and leave
    the intermediate file on the disk.  C5 as stated fails on this input. *)
Lemma scratch_survives_refused_removal :
  let pro :=
    Pro33._professional_process_safe (OS := Samples.locked) "a.mp3" "anull"
      (Pro33.get_professional_output_params Samples.pro_analysis) Samples.disk in
  let bgm :=
    Bgm27._process (OS := Samples.locked) "a.mp3" "anull"
      (Bgm27.get_output_params (FT := Decimal.runtime) Samples.bgm_analysis)
      Samples.disk in
  pro.2 = Py.Raise (Py.OSError "[Errno 13] Permission denied: 'a_professional_temp.wav'")
  /\ Py.fs pro.1 !! "a_professional_temp.wav"%string = Some 2000000%N
  /\ bgm.2 = Py.Raise (Py.OSError "[Errno 13] Permission denied: 'a_bgm_temp.wav'")
  /\ Py.fs bgm.1 !! "a_bgm_temp.wav"%string = Some 2000000%N.
Proof. vm_compute. repeat split. Qed.

(** The three tiers that the v2.0 window passes on are no keys of [dn_map]:
    each of them gets the default base level. *)
Example window_tiers_share_base :
  Forall (fun tier => Vocal20.base_dn tier = Py.Ok (-30)%Z) Vocal20.denoise_items.
Proof. repeat constructor. Qed.

(** The default settings of the v2.5 window, with a dynamic range of 18 dB
    and slow transients, give a chain that contains spaces: C3 as stated
    fails on this input. *)
Lemma smart_chain_contains_spaces :
  Bgm25.pre_filter_complex Samples.smart_thread
    (fst (Bgm25.select_filters (FT := Decimal.runtime) Samples.smart_thread
            18 30 500 (-20)))
  = Py.Ok ("equalizer=f=2000:g=-6:w=1.0,asplit=3[low][mid][high];[low]lowpass=250,acompressor=threshold=-22dB:ratio=3:attack=30:release=500:knee=12dB:makeup=4dB[low_out];[mid]highpass=250,lowpass=2000,acompressor=threshold=-20dB:ratio=2.5:attack=50:release=800:knee=8dB:makeup=3dB,equalizer=f=2000:g=-6:w=1.0[mid_out];[high]highpass=2000,acompressor=threshold=-18dB:ratio=2:attack=28:release=500:knee=6dB:makeup=2dB[high_out];[low_out][mid_out][high_out]amix=inputs=3:weights=1.2 1 0.8,pan=stereo|c0=0.8*c0+0.2*c1|c1=0.2*c0+0.8*c1")%string
  /\ ~ (forall chain,
          Bgm25.pre_filter_complex Samples.smart_thread
            (fst (Bgm25.select_filters (FT := Decimal.runtime) Samples.smart_thread
                    18 30 500 (-20))) = Py.Ok chain ->
          Py.contains " " chain = false /\ Py.contains Py.nl chain = false).
Proof.
  split; [reflexivity|].
  intros Hall. destruct (Hall _ eq_refl) as [Hs _]. discriminate Hs.
Qed.

Lemma chain_blank_free_unless_smart_witness :
  exists chain,
    Bgm25.pre_filter_complex Samples.plain_thread
      (fst (Bgm25.select_filters (FT := Decimal.runtime) Samples.plain_thread
              18 30 500 (-20))) = Py.Ok chain
    /\ Py.contains " " chain = false /\ Py.contains Py.nl chain = false.
Proof.
  pose proof (proj2 (chain_blank_free_unless_smart (FT := Decimal.runtime))) as Hall.
  apply List.Forall_inv in Hall.
  apply (Hall Samples.plain_thread 18%Q 30%Z 500%Z (-20)%Q).
  reflexivity.
Defined.

(** With the input file present, extraction raises when the engine cannot
    be started; and when every measurement pass times out the dynamic range
    it reports is 50 dB, not 12 dB.  C4 as stated fails on these inputs. *)
Lemma analysis_raises_with_file_present :
  is_Some (Py.fs Samples.disk !! "a.mp3"%string)
  /\ (Pro33.analyze_audio_quality (FT := Decimal.runtime) (OS := Samples.dead)
        "a.mp3" Samples.disk).2
     = Py.Raise (Py.RuntimeError "分析文件失败: No such file: ffmpeg")
  /\ exists a,
       (Pro33.analyze_audio_quality (FT := Decimal.runtime) (OS := Samples.mute)
          "a.mp3" Samples.disk).2 = Py.Ok a
       /\ (Pro33.dynamic_range a == 50)%Q
       /\ ~ (Pro33.dynamic_range a == 12)%Q.
Proof.
  split; [eexists; reflexivity|].
  split; [vm_compute; reflexivity|].
  eexists. split; [vm_compute; reflexivity|].
  split; [reflexivity|].
  intros E. vm_compute in E. discriminate E.
Qed.

Lemma analysis_degrades_to_defaults_witness :
  exists w' a,
    Pro33.analyze_audio_quality (FT := Decimal.runtime) (OS := Samples.mute)
      "a.mp3" Samples.disk = (w', Py.Ok a)
    /\ Pro33.channels a = 2%Z
    /\ Pro33.bitrate a = 192%Z
    /\ Pro33.sample_rate a = 44100%Z
    /\ Pro33.loudness a = (-20.0)%Q.
Proof.
  pose proof (analysis_degrades_to_defaults (FT := Decimal.runtime)
                (OS := Samples.mute) "a.mp3" Samples.disk) as T.
  vm_compute in T.
  destruct T as (w' & a & E & Hc & Hb & Hs & Hl).
  exists w', a.
  split; [rewrite <- E; vm_compute; reflexivity|].
  split; [exact Hc|].
  split; [apply Hb; constructor|].
  split; [apply Hs; constructor|].
  exact Hl.
Defined.



(** * Further properties of the code *)

(** ** The quality scorer *)

Section ScoreMore.

Import Py Pro33.
Local Open Scope Q_scope.

Lemma format_bonus_mono (a : Analysis) (b1 b2 : Z) :
  (b1 <= b2)%Z ->
  Spec.format_bonus (set_bitrate b1 a) <= Spec.format_bonus (set_bitrate b2 a).
Proof.
  intros Hle. unfold Spec.format_bonus. simpl.
  destruct (is_lossless a); [lra|].
  destruct (Z.leb_spec 320 b1), (Z.leb_spec 320 b2), (Z.leb_spec 192 b1),
    (Z.leb_spec 192 b2); try lra; lia.
Qed.

Lemma sample_rate_bonus_mono (a : Analysis) (r1 r2 : Z) :
  (r1 <= r2)%Z ->
  Spec.sample_rate_bonus (set_sample_rate r1 a)
  <= Spec.sample_rate_bonus (set_sample_rate r2 a).
Proof.
  intros Hle. unfold Spec.sample_rate_bonus. simpl.
  destruct (Z.leb_spec 48000 r1), (Z.leb_spec 48000 r2); try lra; lia.
Qed.

Lemma noise_floor_bonus_antimono (a : Analysis) (n1 n2 : Q) :
  n2 <= n1 ->
  Spec.noise_floor_bonus (set_noise_floor n1 a)
  <= Spec.noise_floor_bonus (set_noise_floor n2 a).
Proof.
  intros Hle. unfold Spec.noise_floor_bonus. simpl.
  destruct (Qle_bool n1 (-55)) eqn:A1, (Qle_bool n2 (-55)) eqn:A2,
    (Qle_bool n1 (-45)) eqn:B1, (Qle_bool n2 (-45)) eqn:B2;
    try lra;
    repeat match goal with
    | H : Qle_bool _ _ = true |- _ => apply fle_iff in H
    | H : Qle_bool _ _ = false |- _ => apply fle_false_iff in H
    end; lra.
Qed.

(** The cap at 100 never cuts anything: the five bonuses add up to 50 at
    most, so the score is the plain sum, and it never falls below the
    baseline of 50. *)
Theorem quality_score_cap_never_cuts (a : Analysis) :
  calculate_quality_score a
  == 50 + Spec.format_bonus a + Spec.sample_rate_bonus a + Spec.loudness_bonus a
     + Spec.dynamic_range_bonus a + Spec.noise_floor_bonus a
  /\ 50 <= calculate_quality_score a.
Proof.
  rewrite calculate_quality_score_additive. unfold Spec.score.
  pose proof (format_bonus_range a). pose proof (sample_rate_bonus_range a).
  pose proof (loudness_bonus_range a). pose proof (dynamic_range_bonus_range a).
  pose proof (noise_floor_bonus_range a).
  split.
  - apply Q.min_l. lra.
  - apply Q.min_glb; lra.
Qed.

(** A higher bitrate, a higher sample rate and a lower noise floor never
    lower the score, the other entries being equal. *)
Theorem quality_score_monotone_in_format_and_noise
    (a : Analysis) (b1 b2 r1 r2 : Z) (n1 n2 : Q) :
  (b1 <= b2)%Z -> (r1 <= r2)%Z -> n2 <= n1 ->
  calculate_quality_score (set_noise_floor n1 (set_sample_rate r1 (set_bitrate b1 a)))
  <= calculate_quality_score (set_noise_floor n2 (set_sample_rate r2 (set_bitrate b2 a))).
Proof.
  intros Hb Hr Hn. rewrite !calculate_quality_score_additive. unfold Spec.score.
  apply Q.min_le_compat_r.
  pose proof (format_bonus_mono a b1 b2 Hb) as Mb.
  pose proof (sample_rate_bonus_mono a r1 r2 Hr) as Mr.
  pose proof (noise_floor_bonus_antimono a n1 n2 Hn) as Mn.
  change (Spec.format_bonus (set_noise_floor n1 (set_sample_rate r1 (set_bitrate b1 a))))
    with (Spec.format_bonus (set_bitrate b1 a)).
  change (Spec.format_bonus (set_noise_floor n2 (set_sample_rate r2 (set_bitrate b2 a))))
    with (Spec.format_bonus (set_bitrate b2 a)).
  change (Spec.sample_rate_bonus (set_noise_floor n1 (set_sample_rate r1 (set_bitrate b1 a))))
    with (Spec.sample_rate_bonus (set_sample_rate r1 a)).
  change (Spec.sample_rate_bonus (set_noise_floor n2 (set_sample_rate r2 (set_bitrate b2 a))))
    with (Spec.sample_rate_bonus (set_sample_rate r2 a)).
  change (Spec.noise_floor_bonus (set_noise_floor n1 (set_sample_rate r1 (set_bitrate b1 a))))
    with (Spec.noise_floor_bonus (set_noise_floor n1 a)).
  change (Spec.noise_floor_bonus (set_noise_floor n2 (set_sample_rate r2 (set_bitrate b2 a))))
    with (Spec.noise_floor_bonus (set_noise_floor n2 a)).
  change (Spec.loudness_bonus (set_noise_floor n1 (set_sample_rate r1 (set_bitrate b1 a))))
    with (Spec.loudness_bonus a).
  change (Spec.loudness_bonus (set_noise_floor n2 (set_sample_rate r2 (set_bitrate b2 a))))
    with (Spec.loudness_bonus a).
  change (Spec.dynamic_range_bonus (set_noise_floor n1 (set_sample_rate r1 (set_bitrate b1 a))))
    with (Spec.dynamic_range_bonus a).
  change (Spec.dynamic_range_bonus (set_noise_floor n2 (set_sample_rate r2 (set_bitrate b2 a))))
    with (Spec.dynamic_range_bonus a).
  lra.
Qed.

(** The score does not tell a recording that is too loud from one that is
    too quiet: loudness values at the same distance above and below
    -16 LUFS score alike. *)
Theorem quality_score_symmetric_in_loudness (a : Analysis) (l : Q) :
  calculate_quality_score (set_loudness l a)
  == calculate_quality_score (set_loudness (-32 - l) a).
Proof.
  rewrite !calculate_quality_score_additive. unfold Spec.score.
  apply Q.min_compat; [|reflexivity].
  assert (Spec.loudness_bonus (set_loudness l a)
          = Spec.loudness_bonus (set_loudness (-32 - l) a)) as ->.
  { unfold Spec.loudness_bonus. simpl.
    assert (Qabs (-32 - l - -16) == Qabs (l - -16)) as E.
    { rewrite <- (Qabs_opp (l - -16)). apply Qabs_wd. ring. }
    rewrite !(Qleb_comp _ _ E _ _ (Qeq_refl _)). reflexivity. }
  reflexivity.
Qed.

(** For a lossless file the bitrate plays no part in the score. *)
Theorem quality_score_lossless_ignores_bitrate (a : Analysis) (b1 b2 : Z) :
  is_lossless a = true ->
  calculate_quality_score (set_bitrate b1 a) = calculate_quality_score (set_bitrate b2 a).
Proof.
  intros Hl. unfold calculate_quality_score. simpl. rewrite Hl. reflexivity.
Qed.

End ScoreMore.

Lemma quality_score_monotone_in_format_and_noise_witness :
  (128 <= 320)%Z /\ (44100 <= 48000)%Z /\ (-60 <= -40)%Q
  /\ (Pro33.calculate_quality_score
        (Pro33.set_noise_floor (-40)
           (Pro33.set_sample_rate 44100 (Pro33.set_bitrate 128 Samples.pro_analysis)))
      <= Pro33.calculate_quality_score
           (Pro33.set_noise_floor (-60)
              (Pro33.set_sample_rate 48000 (Pro33.set_bitrate 320 Samples.pro_analysis))))%Q.
Proof.
  split; [lia|]. split; [lia|]. split; [unfold Qle; simpl; lia|].
  apply quality_score_monotone_in_format_and_noise;
    [lia | lia | unfold Qle; simpl; lia].
Defined.

Lemma quality_score_lossless_ignores_bitrate_witness :
  Pro33.is_lossless Samples.hot_analysis = true
  /\ Pro33.calculate_quality_score (Pro33.set_bitrate 64 Samples.hot_analysis)
     = Pro33.calculate_quality_score (Pro33.set_bitrate 1411 Samples.hot_analysis).
Proof.
  split; [reflexivity|].
  apply quality_score_lossless_ignores_bitrate. reflexivity.
Defined.

(** ** The stages of the v3.3 chain *)

Section ProChainMore.

Import Py.
Local Open Scope string_scope.
Context {FT : FloatText}.

Lemma reverb_presets_outside (r : Z) :
  (1 <=? r)%Z && (r <=? 5)%Z = false -> Pro33.reverb_presets !! r = None.
Proof.
  intros Hr. unfold Pro33.reverb_presets.
  rewrite !lookup_insert_ne, lookup_singleton_ne by lia. reflexivity.
Qed.

Lemma reverb_filter_in_range :
  Forall (fun r =>
            exists f,
              Pro33.build_gentle_reverb_filter r = Ok f
              /\ blank_free f = true
              /\ contains "[dry][wet_out]amix=inputs=2:normalize=0" f = true)
    [1; 2; 3; 4; 5]%Z.
Proof. repeat constructor; eexists; (split; [reflexivity|]); split; reflexivity. Qed.

Lemma reverb_filter_cases (r : Z) :
  Pro33.build_gentle_reverb_filter r
  = (if (r =? 0)%Z then Ok ""
     else Pro33.build_gentle_reverb_filter (if (1 <=? r)%Z && (r <=? 5)%Z then r else 2%Z))
  /\ exists f,
       Pro33.build_gentle_reverb_filter r = Ok f
       /\ blank_free f = true
       /\ if (r =? 0)%Z then f = ""
          else contains "[dry][wet_out]amix=inputs=2:normalize=0" f = true.
Proof.
  assert (Pro33.build_gentle_reverb_filter r
          = (if (r =? 0)%Z then Ok ""
             else Pro33.build_gentle_reverb_filter
                    (if (1 <=? r)%Z && (r <=? 5)%Z then r else 2%Z))) as E.
  { destruct (r =? 0)%Z eqn:H0.
    - unfold Pro33.build_gentle_reverb_filter. rewrite H0. reflexivity.
    - destruct ((1 <=? r)%Z && (r <=? 5)%Z) eqn:Hr; [reflexivity|].
      unfold Pro33.build_gentle_reverb_filter. rewrite H0.
      change (2 =? 0)%Z with false. cbv iota zeta.
      destruct (getitem_int Pro33.reverb_presets 2) as [fb|] eqn:Hfb; [|reflexivity].
      cbn [mbind result_bind].
      assert (get Pro33.reverb_presets r fb = fb) as ->.
      { unfold get. now rewrite (reverb_presets_outside r Hr). }
      assert (get Pro33.reverb_presets 2%Z fb = fb) as ->.
      { unfold getitem_int in Hfb. unfold get.
        destruct (Pro33.reverb_presets !! 2%Z); [|discriminate Hfb].
        now injection Hfb as ->. }
      reflexivity. }
  split; [exact E|]. rewrite E.
  destruct (r =? 0)%Z eqn:H0.
  - exists "". repeat split; reflexivity.
  - assert (In (if (1 <=? r)%Z && (r <=? 5)%Z then r else 2%Z) [1; 2; 3; 4; 5]%Z) as Hin.
    { destruct ((1 <=? r)%Z && (r <=? 5)%Z) eqn:Hr; [|simpl; tauto].
      apply andb_true_iff in Hr as [H1 H5].
      apply Z.leb_le in H1, H5.
      simpl. lia. }
    apply (proj1 (List.Forall_forall _ _) reverb_filter_in_range _ Hin).
Qed.

(** The reverb builder returns the empty text for the amount 0.  For every
    other amount it returns, free of spaces and newlines, a graph of three
    stages: the split into a dry and a wet branch, the echo of the wet
    branch with the delays, the decays and the wet level of the preset of
    that amount, and last the mix of the two branches.  An amount outside
    1..5 is served by the preset of the amount 2. *)
Theorem reverb_filter_by_amount (r : Z) :
  let graph (delays decays wet : string) :=
    "asplit=2[dry][wet];" ++
    "[wet]aecho=0.6:0.4:" ++ delays ++ ":" ++ decays ++
    ",highpass=f=180,lowpass=f=8000,volume=" ++ wet ++ "[wet_out];" ++
    "[dry][wet_out]amix=inputs=2:normalize=0" in
  Pro33.build_gentle_reverb_filter r
  = Ok (if (r =? 0)%Z then ""
        else if (r =? 1)%Z then
          graph "30|55|80|110" "0.20|0.16|0.13|0.10" "0.12"
        else if (r =? 3)%Z then
          graph "20|40|60|85|110|140" "0.28|0.24|0.20|0.16|0.13|0.10" "0.20"
        else if (r =? 4)%Z then
          graph "18|36|54|76|98|122|150" "0.32|0.28|0.24|0.20|0.16|0.13|0.10" "0.24"
        else if (r =? 5)%Z then
          graph "16|32|48|68|88|110|135|165"
            "0.36|0.32|0.28|0.24|0.20|0.16|0.13|0.10" "0.28"
        else
          graph "25|50|75|100|130" "0.24|0.20|0.16|0.13|0.10" "0.16")
  /\ forall f, Pro33.build_gentle_reverb_filter r = Ok f -> blank_free f = true.
Proof.
  cbv zeta. destruct (reverb_filter_cases r) as (E & f & Ef & Hb & _).
  split; [|intros f' Ef'; rewrite Ef in Ef'; now injection Ef' as <-].
  rewrite E. clear E f Ef Hb.
  destruct (r =? 0)%Z eqn:H0; [reflexivity|].
  destruct (r =? 1)%Z eqn:H1; [apply Z.eqb_eq in H1; subst r; reflexivity|].
  destruct (r =? 3)%Z eqn:H3; [apply Z.eqb_eq in H3; subst r; reflexivity|].
  destruct (r =? 4)%Z eqn:H4; [apply Z.eqb_eq in H4; subst r; reflexivity|].
  destruct (r =? 5)%Z eqn:H5; [apply Z.eqb_eq in H5; subst r; reflexivity|].
  destruct ((1 <=? r)%Z && (r <=? 5)%Z) eqn:Hr; [|reflexivity].
  assert (r = 2%Z) as -> by lia. reflexivity.
Qed.

(** The stages of the v3.3 chain come in a fixed order: noise suppression,
    equaliser, compressor, tone equaliser at 2000 Hz, then the reverb graph when
    and only when the reverb amount is positive, then loudness
    normalisation, and the limiter last. *)
Theorem professional_filters_order preset vc wl ra nr (a : Pro33.Analysis) :
  exists reverb_stage,
    Pro33.professional_filters preset vc wl ra nr a
    = Ok ([ Pro33.noise_stage nr;
            Pro33.eq_stage preset vc wl;
            "acompressor=threshold=-20dB:ratio=2.0:attack=50:release=500:makeup=2";
            "equalizer=f=2000:g=0.5:w=2.0" ]
          ++ reverb_stage
          ++ [ Pro33.loudnorm_filter a;
               "alimiter=level_in=1:level_out=1:limit=0.9:attack=0.1:release=5:asc=0" ])%list
    /\ if (ra >? 0)%Z
       then exists f,
              reverb_stage = [f]
              /\ Pro33.build_gentle_reverb_filter ra = Ok f
              /\ contains "[dry][wet_out]amix=inputs=2:normalize=0" f = true
       else reverb_stage = [].
Proof.
  unfold Pro33.professional_filters.
  destruct (ra >? 0)%Z eqn:Hra.
  - destruct (reverb_filter_cases ra) as (_ & f & Ef & _ & Hf).
    assert ((ra =? 0)%Z = false) as H0 by lia.
    rewrite H0 in Hf. rewrite Ef.
    cbn [mbind result_bind mret result_ret].
    destruct (String.eqb_spec f "") as [->|Hne]; [discriminate Hf|].
    exists [f]. split; [reflexivity|]. exists f. repeat split; assumption.
  - exists []. split; reflexivity.
Qed.

End ProChainMore.

(** The v3.3 builder accepts a tier by its Chinese and by its English name,
    and serves a tier that it does not recognise like the medium tier. *)
Theorem noise_stage_unrecognised_tier (nr : string) :
  ~ In nr ["轻"; "中"; "重"; "low"; "medium"; "high"]%string ->
  Pro33.noise_stage nr = Pro33.noise_stage "medium"
  /\ Pro33.noise_stage "轻" = Pro33.noise_stage "low"
  /\ Pro33.noise_stage "中" = Pro33.noise_stage "medium"
  /\ Pro33.noise_stage "重" = Pro33.noise_stage "high".
Proof.
  intros Hn. split; [|repeat split; reflexivity].
  unfold Pro33.noise_stage.
  assert (Py.get Pro33.nr_names nr nr = nr) as ->.
  { unfold Py.get, Pro33.nr_names.
    rewrite !lookup_insert_ne, lookup_singleton_ne; [reflexivity|..];
      intros <-; apply Hn; simpl; tauto. }
  unfold Py.get at 1. unfold Pro33.nr_map.
  rewrite !lookup_insert_ne, lookup_singleton_ne; [reflexivity|..];
    intros <-; apply Hn; simpl; tauto.
Qed.

Lemma noise_stage_unrecognised_tier_witness :
  ~ In "strong"%string ["轻"; "中"; "重"; "low"; "medium"; "high"]%string
  /\ Pro33.noise_stage "strong" = "highpass=f=150,lowpass=f=12000"%string.
Proof.
  assert (~ In "strong"%string ["轻"; "中"; "重"; "low"; "medium"; "high"]%string) as Hn.
  { simpl. intros [H|[H|[H|[H|[H|[H|[]]]]]]]; discriminate H. }
  split; [exact Hn|].
  rewrite (proj1 (noise_stage_unrecognised_tier "strong" Hn)). reflexivity.
Defined.

(** Each item of the tier selector of the v3.3 window reaches the builder
    as a tier it recognises: the chain then starts with the high-pass and
    low-pass pair of that tier, whatever the other settings. *)
Theorem window_tier_selects_noise_stage {FT : Py.FloatText} :
  Forall2 (fun item stage =>
             exists tier,
               Pro33.selected_noise_reduction item = Py.Ok tier
               /\ forall preset vc wl ra a,
                    exists rest,
                      Pro33.professional_filters preset vc wl ra tier a
                      = Py.Ok (stage :: rest))
    Pro33.noise_combo_items
    ["highpass=f=100,lowpass=f=14000"; "highpass=f=150,lowpass=f=12000";
     "highpass=f=200,lowpass=f=10000"]%string.
Proof.
  unfold Pro33.noise_combo_items.
  do 3 (constructor;
        [eexists; split; [reflexivity|]; intros;
         match goal with
         | |- context [Pro33.professional_filters _ _ _ _ ?t _] =>
             destruct (professional_filters_head preset vc wl ra t a) as [rest E];
             exists rest; rewrite E; reflexivity
         end|]).
  constructor.
Qed.

(** The output format of the v3.3 tool.  A video container always gets AAC
    in an MP4 file.  Any other source that is lossless or has a bitrate of
    at least 320 is written as FLAC and never with a lossy codec; every
    remaining source is written with a lossy codec at 192k.  The
    intermediate format is 44100 Hz at 16 bit in every case. *)
Theorem output_params_decision (a : Pro33.Analysis) :
  let p := Pro33.get_professional_output_params a in
  Pro33.out_sample_rate p = 44100%Z /\ Pro33.bit_depth p = 16%Z
  /\ Pro33.is_video p
     = existsb (String.eqb (Pro33.format a)) [".mp4"; ".mov"; ".mkv"; ".avi"]%string
  /\ if Pro33.is_video p
     then Pro33.codec p = "aac"%string /\ Pro33.ext p = ".mp4"%string
     else if Pro33.is_lossless a || (320 <=? Pro33.bitrate a)%Z
          then Pro33.codec p = "flac"%string /\ Pro33.ext p = ".flac"%string
          else In "192k"%string (Pro33.params p)
               /\ In (Pro33.codec p, Pro33.ext p)
                    [("aac", ".m4a"); ("libmp3lame", ".mp3")]%string.
Proof.
  unfold Pro33.get_professional_output_params. rewrite Z.geb_leb.
  destruct (existsb (String.eqb (Pro33.format a)) [".mp4"; ".mov"; ".mkv"; ".avi"]%string);
    [repeat split; reflexivity|].
  destruct (Pro33.is_lossless a || (320 <=? Pro33.bitrate a)%Z);
    [repeat split; reflexivity|].
  destruct (existsb (String.eqb (Pro33.format a)) [".m4a"; ".aac"]%string);
    cbn; repeat split; tauto.
Qed.

(** ** Splitting at one character *)

Section SplitFacts.

Import Py.
Local Open Scope string_scope.

Lemma split_char_cons (x c : ascii) (s : string) :
  split (String x "") (String c s)
  = if ascii_dec x c then "" :: split (String x "") s
    else match split (String x "") s with
         | p :: ps => String c p :: ps
         | [] => [String c ""]
         end.
Proof.
  unfold split. simpl. destruct (ascii_dec x c); [|reflexivity].
  now rewrite prefix_nil.
Qed.

(** No piece of a split contains the separator. *)
Lemma split_char_pieces (x : ascii) (s : string) :
  Forall (fun p => ~ In x (list_ascii_of_string p)) (split (String x "") s).
Proof.
  induction s as [|c s IH].
  - repeat constructor. intros [].
  - rewrite split_char_cons. destruct (ascii_dec x c) as [->|Hne].
    + constructor; [intros []|exact IH].
    + destruct (split (String x "") s) as [|p ps].
      * repeat constructor. simpl. intros [->|[]]. now apply Hne.
      * apply List.Forall_cons_iff in IH as [Hp Hps]. constructor; [|exact Hps].
        simpl. intros [->|Hin]; [now apply Hne | now apply Hp].
Qed.

(** A text without the separator is its own single piece. *)
Lemma split_char_none (x : ascii) (s : string) :
  ~ In x (list_ascii_of_string s) -> split (String x "") s = [s].
Proof.
  induction s as [|c s IH]; [reflexivity|].
  intros Hn. rewrite split_char_cons.
  destruct (ascii_dec x c) as [->|Hne]; [exfalso; apply Hn; simpl; auto|].
  rewrite IH; [reflexivity|]. intros Hin. apply Hn. simpl. auto.
Qed.

Lemma last_In {A} (l : list A) (t : A) : last l = Ok t -> In t l.
Proof.
  unfold last. destruct (rev l) as [|y r] eqn:E; [discriminate|].
  intros [= <-]. apply in_rev. rewrite E. simpl. auto.
Qed.

Lemma lstrip_chars (c : ascii) (s : string) :
  In c (list_ascii_of_string (lstrip s)) -> In c (list_ascii_of_string s).
Proof.
  induction s as [|d s IH]; [exact id|].
  simpl. destruct (isspace d); [|exact id].
  intros Hin. right. now apply IH.
Qed.

Lemma reverse_chars (s : string) :
  list_ascii_of_string (reverse s) = rev (list_ascii_of_string s).
Proof. unfold reverse. apply list_ascii_of_string_of_list_ascii. Qed.

(** Stripping adds no character. *)
Lemma strip_chars (c : ascii) (s : string) :
  In c (list_ascii_of_string (strip s)) -> In c (list_ascii_of_string s).
Proof.
  unfold strip, rstrip. rewrite reverse_chars, <- in_rev.
  intros Hin. apply lstrip_chars in Hin.
  rewrite reverse_chars, <- in_rev in Hin. now apply lstrip_chars.
Qed.

End SplitFacts.

(** ** What the v3.3 extractor returns *)

Section ExtractorMore.

Import Py.
Local Open Scope string_scope.
Local Open Scope Q_scope.
Context {FT : FloatText} {S : Type} {OS : Platform S}.

(** The text after the last colon has no colon left, so it never splits
    into hours, minutes and seconds: the duration parser yields nothing. *)
Lemma duration_of_line_yields_nothing (line : string) :
  match Pro33.duration_of_line line with
  | Ok (Some _) => False
  | Ok None | Raise _ => True
  end.
Proof.
  unfold Pro33.duration_of_line.
  destruct (first (split "," line)) as [head|e]; [|exact I].
  cbn [mbind result_bind].
  destruct (last (split ":" head)) as [tail|e] eqn:Hl; [|exact I].
  cbn [mbind result_bind].
  assert (~ In ":"%char (list_ascii_of_string (strip tail))) as Hn.
  { intros Hin. apply strip_chars in Hin.
    apply last_In in Hl.
    apply (proj1 (List.Forall_forall _ _) (split_char_pieces ":" head) tail Hl Hin). }
  rewrite (split_char_none ":" _ Hn). exact I.
Qed.

Lemma parse_probe_line_duration (a : Pro33.Analysis) (line : string) :
  Pro33.duration (Pro33.parse_probe_line a line) = Pro33.duration a.
Proof.
  pose proof (duration_of_line_yields_nothing line) as Hd.
  unfold Pro33.parse_probe_line, Pro33.parse_audio_line.
  destruct (contains "Duration" line), (Pro33.duration_of_line line) as [[d|]|],
    (contains "Audio" line), (contains "flac" line || contains "wav" line),
    (contains "kb/s" line), (Pro33.bitrate_of_line line),
    (contains "Hz" line), (Pro33.sample_rate_of_line line),
    (contains "stereo" line); try reflexivity; destruct Hd.
Qed.

Lemma parse_probe_line_format (a : Pro33.Analysis) (line : string) :
  Pro33.format (Pro33.parse_probe_line a line) = Pro33.format a.
Proof.
  unfold Pro33.parse_probe_line, Pro33.parse_audio_line.
  destruct (contains "Duration" line), (Pro33.duration_of_line line) as [[d|]|],
    (contains "Audio" line), (contains "flac" line || contains "wav" line),
    (contains "kb/s" line), (Pro33.bitrate_of_line line),
    (contains "Hz" line), (Pro33.sample_rate_of_line line),
    (contains "stereo" line); reflexivity.
Qed.

Lemma probe_duration (lines : list string) (a : Pro33.Analysis) :
  Pro33.duration (fold_left Pro33.parse_probe_line lines a) = Pro33.duration a.
Proof.
  revert a. induction lines as [|line lines IH]; intros a; [reflexivity|].
  simpl. rewrite IH. apply parse_probe_line_duration.
Qed.

Lemma probe_format (lines : list string) (a : Pro33.Analysis) :
  Pro33.format (fold_left Pro33.parse_probe_line lines a) = Pro33.format a.
Proof.
  revert a. induction lines as [|line lines IH]; intros a; [reflexivity|].
  simpl. rewrite IH. apply parse_probe_line_format.
Qed.

(** The analysis that the extractor returns, entry by entry. *)
Lemma analyze_returns (p : string) (w w' : World S) (a : Pro33.Analysis) :
  Pro33.analyze_audio_quality p w = (w', Ok a) ->
  exists (r : CompletedProcess) (l : Q) (st1 st2 st3 : Pro33.VolumeStats),
    let probed := fold_left Pro33.parse_probe_line (splitlines (stderr r))
                    (Pro33.initial_analysis p) in
    let measured :=
      Pro33.set_volume_level (Pro33.stat_mean st3)
        (Pro33.set_high_freq_energy (Pro33.stat_max st2)
           (Pro33.set_gender (Pro33.gender_of_peak (Pro33.stat_max st2))
              (Pro33.set_noise_floor (Pro33.stat_min st1)
                 (Pro33.with_dynamic_range
                    (Qabs (float_sub (Pro33.stat_max st1) (Pro33.stat_min st1)))
                    (Pro33.set_loudness l probed))))) in
    a = Pro33.set_quality_score (Pro33.calculate_quality_score measured) measured.
Proof.
  intros Ha.
  destruct (fs w !! p) as [n|] eqn:Hp;
    [|rewrite (analyze_missing_file p w Hp) in Ha; discriminate Ha].
  assert (is_Some (fs w !! p)) as Hsome by (rewrite Hp; eauto).
  destruct (subprocess_run (Pro33.probe_cmd p) w) as [w1 [r|e]] eqn:Hrun;
    [|rewrite (analyze_probe_raises p w w1 e Hsome Hrun) in Ha; discriminate Ha].
  destruct (measure_loudness_total p w1) as (w2 & l & Hl).
  destruct (get_volume_stats_total p w2) as (w3 & st1 & H1).
  destruct (get_volume_stats_total p w3) as (w4 & st2 & H2).
  destruct (get_volume_stats_total p w4) as (w5 & st3 & H3).
  exists r, l, st1, st2, st3.
  revert Ha. unfold Pro33.analyze_audio_quality. rewrite io_bind_eq.
  unfold os_path_exists. rewrite bool_decide_eq_true_2 by exact Hsome.
  cbn [negb]. cbv zeta. rewrite io_bind_eq. unfold io_try_except. rewrite Hrun.
  rewrite io_bind_eq, Hl.
  rewrite io_bind_eq. unfold Pro33.analyze_dynamics. rewrite io_bind_eq, H1.
  cbn [mret io_ret]. rewrite io_bind_eq.
  unfold Pro33.detect_voice_characteristics. rewrite io_bind_eq, H2.
  cbn [mret io_ret]. rewrite io_bind_eq.
  unfold Pro33.calculate_perceived_loudness. rewrite io_bind_eq, H3.
  cbn [mret io_ret]. intros [= _ <-]. reflexivity.
Qed.

(** The entries of a returned analysis fit together: the format is the
    lower-cased extension of the path, the channel count is 2, the dynamic
    range is not negative, the gender is the one that the thresholds of -6
    and -12 dB assign to the reported peak, and the stored score is the
    score of the other entries and lies between 50 and 100. *)
Theorem returned_analysis_is_coherent (p : string) (w w' : World S) (a : Pro33.Analysis) :
  Pro33.analyze_audio_quality p w = (w', Ok a) ->
  Pro33.format a = lower (snd (splitext p))
  /\ Pro33.channels a = 2%Z
  /\ 0 <= Pro33.dynamic_range a
  /\ Pro33.gender a = Pro33.gender_of_peak (Pro33.high_freq_energy a)
  /\ Pro33.quality_score a = Pro33.calculate_quality_score a
  /\ 50 <= Pro33.quality_score a <= 100.
Proof.
  intros Ha. destruct (analyze_returns p w w' a Ha) as (r & l & st1 & st2 & st3 & E).
  cbv zeta in E.
  assert (Pro33.quality_score a = Pro33.calculate_quality_score a) as Hq
    by (rewrite E; reflexivity).
  set (probed := fold_left Pro33.parse_probe_line (splitlines (stderr r))
                   (Pro33.initial_analysis p)) in E.
  assert (Pro33.format a = Pro33.format probed) as -> by (rewrite E; reflexivity).
  assert (Pro33.channels a = Pro33.channels probed) as -> by (rewrite E; reflexivity).
  assert (Pro33.dynamic_range a = Qabs (float_sub (Pro33.stat_max st1) (Pro33.stat_min st1))) as ->
    by (rewrite E; reflexivity).
  split; [unfold probed; now rewrite probe_format|].
  split; [unfold probed; now apply probe_channels|].
  split; [apply Qabs_nonneg|].
  split; [rewrite E; reflexivity|].
  split; [exact Hq|]. rewrite Hq.
  pose proof (calculate_quality_score_additive a) as Hs.
  pose proof (format_bonus_range a). pose proof (sample_rate_bonus_range a).
  pose proof (loudness_bonus_range a). pose proof (dynamic_range_bonus_range a).
  pose proof (noise_floor_bonus_range a).
  rewrite Hs. unfold Pro33.Spec.score. split.
  - apply Q.min_glb; lra.
  - apply Q.le_min_r.
Qed.

(** The extractor never measures the duration: whatever the probe prints,
    the duration of a returned analysis is the initial 0. *)
Theorem duration_is_never_measured (p : string) (w w' : World S) (a : Pro33.Analysis) :
  Pro33.analyze_audio_quality p w = (w', Ok a) ->
  Pro33.duration a = 0.
Proof.
  intros Ha. destruct (analyze_returns p w w' a Ha) as (r & l & st1 & st2 & st3 & E).
  cbv zeta in E.
  set (probed := fold_left Pro33.parse_probe_line (splitlines (stderr r))
                   (Pro33.initial_analysis p)) in E.
  assert (Pro33.duration a = Pro33.duration probed) as -> by (rewrite E; reflexivity).
  unfold probed. now rewrite probe_duration.
Qed.

End ExtractorMore.

Lemma returned_analysis_is_coherent_witness :
  exists w' a,
    Pro33.analyze_audio_quality (FT := Decimal.runtime) (OS := Samples.studio)
      "a.mp3" Samples.disk = (w', Py.Ok a)
    /\ Pro33.format a = ".mp3"%string
    /\ Pro33.channels a = 2%Z
    /\ (0 <= Pro33.dynamic_range a)%Q
    /\ Pro33.gender a = "male"%string
    /\ Pro33.quality_score a = Pro33.calculate_quality_score a.
Proof.
  destruct (Pro33.analyze_audio_quality (FT := Decimal.runtime) (OS := Samples.studio)
              "a.mp3" Samples.disk) as [w' r] eqn:E.
  destruct r as [a|e]; [|vm_compute in E; discriminate E].
  destruct (returned_analysis_is_coherent _ _ _ _ E) as (Hf & Hc & Hd & Hg & Hq & _).
  exists w', a. split; [reflexivity|].
  vm_compute in E. injection E as _ <-.
  repeat split; assumption.
Defined.

Lemma duration_is_never_measured_witness :
  Py.contains "Duration: 00:00:12.50" Samples.probe_text = true
  /\ exists w' a,
       Pro33.analyze_audio_quality (FT := Decimal.runtime) (OS := Samples.studio)
         "a.mp3" Samples.disk = (w', Py.Ok a)
       /\ Pro33.duration a = 0%Q.
Proof.
  split; [reflexivity|].
  destruct (Pro33.analyze_audio_quality (FT := Decimal.runtime) (OS := Samples.studio)
              "a.mp3" Samples.disk) as [w' r] eqn:E.
  destruct r as [a|e]; [|vm_compute in E; discriminate E].
  exists w', a. split; [reflexivity|].
  apply (duration_is_never_measured _ _ _ _ E).
Defined.

(** ** The advice of the v3.3 window *)

Section AdviceFacts.

Import Py.
Local Open Scope string_scope.
Local Open Scope Q_scope.

Ltac thresholds :=
  repeat match goal with
  | H : fgt _ _ = _ |- _ => unfold fgt in H
  | H : flt _ _ = true |- _ => apply flt_iff in H
  | H : flt _ _ = false |- _ => apply flt_false_iff in H
  end.

(** The window calls a recording good, and gives no advice, exactly when
    the loudness lies in [-18, -14], the dynamic range in [10, 18], the
    noise floor is at most -45 and the high-frequency energy at least -25.
    Otherwise each piece of advice appears exactly under its own condition:
    stronger noise reduction for a noise floor above -45, more compression
    for a dynamic range above 18 and less for one below 10, more level for
    a loudness below -18 and less for one above -14, more treble for a
    high-frequency energy below -25. *)
Theorem advice_matches_measurements (a : Pro33.Analysis) :
  let advice := Pro33.get_improvement_suggestions a in
  (advice = "音频质量良好，适合专业使用"
   <-> (-18 <= Pro33.loudness a /\ Pro33.loudness a <= -14)
       /\ (10 <= Pro33.dynamic_range a /\ Pro33.dynamic_range a <= 18)
       /\ Pro33.noise_floor a <= -45
       /\ -25 <= Pro33.high_freq_energy a)
  /\ (contains "建议提升整体响度" advice = true <-> Pro33.loudness a < -18)
  /\ (contains "建议降低整体响度" advice = true <-> -14 < Pro33.loudness a)
  /\ (contains "建议增加压缩量" advice = true <-> 18 < Pro33.dynamic_range a)
  /\ (contains "建议减少压缩量" advice = true <-> Pro33.dynamic_range a < 10)
  /\ (contains "建议加强降噪" advice = true <-> -45 < Pro33.noise_floor a)
  /\ (contains "建议提升高频细节" advice = true <-> Pro33.high_freq_energy a < -25).
Proof.
  unfold Pro33.get_improvement_suggestions.
  destruct (flt (Pro33.loudness a) (-18)) eqn:L1,
    (fgt (Pro33.loudness a) (-14)) eqn:L2,
    (fgt (Pro33.dynamic_range a) 18) eqn:D1,
    (flt (Pro33.dynamic_range a) 10) eqn:D2,
    (fgt (Pro33.noise_floor a) (-45)) eqn:N,
    (flt (Pro33.high_freq_energy a) (-25)) eqn:H;
    thresholds; cbv zeta;
    repeat match goal with
    | |- _ /\ _ => split
    | |- _ <-> _ => split
    end;
    intros;
    repeat match goal with Hc : _ /\ _ |- _ => destruct Hc end;
    repeat match goal with |- _ /\ _ => split end;
    first [ reflexivity
          | match goal with
            | Hyp : _ = _ |- _ => vm_compute in Hyp; discriminate Hyp
            end
          | lra
          | exfalso; lra ].
Qed.

End AdviceFacts.

(** ** What a successful run of the two-phase routines guarantees *)

Section ProcessMore.

Import Py.
Local Open Scope string_scope.
Context {S : Type} {OS : Platform S}.

Lemma try_finally_ok {A} (body : io S A) (cleanup : io S unit)
    (w w' : World S) (a : A) :
  io_try_finally body cleanup w = (w', Ok a) ->
  exists w1, body w = (w1, Ok a) /\ cleanup w1 = (w', Ok tt).
Proof.
  unfold io_try_finally. destruct (body w) as [w1 r].
  destruct (cleanup w1) as [w2 [[]|e]] eqn:Hc; [|discriminate].
  intros H. injection H as <- ->. exists w1. split; [reflexivity | exact Hc].
Qed.

Lemma raise_if_ok (b : bool) (e : exn) (w w' : World S) (u : unit) :
  raise_if b e w = (w', Ok u) -> b = false /\ w' = w.
Proof.
  destruct b; [discriminate|]. intros [= <- _]. auto.
Qed.

Lemma log_emit_fs (line : string) (w w' : World S) (u : unit) :
  log_emit line w = (w', Ok u) -> fs w' = fs w.
Proof. intros [= <- _]. reflexivity. Qed.

Lemma missing_or_smaller_ok (p : string) (n : N) (w w' : World S) (b : bool) :
  missing_or_smaller p n w = (w', Ok b) ->
  w' = w
  /\ b = match fs w !! p with
         | Some size => (size <? n)%N
         | None => true
         end.
Proof.
  unfold missing_or_smaller. rewrite io_bind_eq. unfold os_path_exists.
  destruct (fs w !! p) as [size|] eqn:Hp.
  - rewrite bool_decide_eq_true_2 by eauto. cbn [negb].
    rewrite io_bind_eq. unfold os_path_getsize. rewrite Hp.
    intros [= <- <-]. auto.
  - rewrite bool_decide_eq_false_2 by (intros [? ?]; congruence). cbn [negb].
    intros [= <- <-]. auto.
Qed.

Lemma string_app_inv_head (a x y : string) : a ++ x = a ++ y -> x = y.
Proof.
  induction a as [|c a IH]; [exact id|].
  rewrite !app_cons. intros [= H]. now apply IH.
Qed.

Ltac step H := apply io_bind_ok in H as (? & ? & ? & H).

(** When the v3.3 routine returns, it returns the path of the input with
    the suffix of the tool and the extension of the output parameters; a
    file of at least 8 KiB exists at that path, and the intermediate file
    does not exist. *)
Theorem professional_process_success
    (input chain : string) (params : Pro33.OutputParams) (w w' : World S) (out : string) :
  Pro33._professional_process_safe input chain params w = (w', Ok out) ->
  out = (splitext input).1 ++ "_专业优化后" ++ Pro33.ext params
  /\ (exists size, fs w' !! out = Some size /\ (8 * 1024 <= size)%N)
  /\ fs w' !! ((splitext input).1 ++ "_professional_temp.wav") = None.
Proof.
  intros H.
  pose proof (professional_process_removes_temp input chain params w) as Htemp.
  cbv zeta in Htemp. rewrite H in Htemp. cbn [fst snd] in Htemp.
  unfold Pro33._professional_process_safe in H. cbv zeta in H.
  step H. apply try_finally_ok in H as (w2 & Hbody & Hclean).
  apply remove_if_exists_ok in Hclean as [_ Hclean].
  do 10 step Hbody.
  match goal with
  | Hm : missing_or_smaller (_ ++ "_专业优化后" ++ _) _ _ = _ |- _ =>
      apply missing_or_smaller_ok in Hm as [-> Hinv]
  end.
  match goal with
  | Hr : raise_if _ (Exception "输出文件无效") _ = _ |- _ =>
      apply raise_if_ok in Hr as [-> ->]
  end.
  step Hbody.
  match goal with
  | Hl : log_emit _ _ = _ |- _ => apply log_emit_fs in Hl
  end.
  injection Hbody as -> <-.
  split; [reflexivity|]. split; [|exact Htemp].
  rewrite Hclean, lookup_delete_ne.
  - match goal with Hl : fs _ = fs _ |- _ => rewrite Hl end.
    symmetry in Hinv.
    destruct (fs _ !! _) as [size|]; [|discriminate Hinv].
    exists size. split; [reflexivity|]. apply N.ltb_ge in Hinv. exact Hinv.
  - intros E. apply string_app_inv_head in E.
    apply (f_equal (String.get 1)) in E. vm_compute in E. discriminate E.
Qed.

(** When the v2.7 routine returns, a file of at least 10 KiB exists at the
    path it returns, and the intermediate file does not exist. *)
Theorem process_success
    (input chain : string) (params : Bgm27.OutputParams) (w w' : World S) (out : string) :
  Bgm27._process input chain params w = (w', Ok out) ->
  out = (splitext input).1 ++ "_背景音乐适配后" ++ Bgm27.out_ext params
  /\ (exists size, fs w' !! out = Some size /\ (10 * 1024 <= size)%N)
  /\ fs w' !! ((splitext input).1 ++ "_bgm_temp.wav") = None.
Proof.
  intros H.
  pose proof (process_removes_temp input chain params w) as Htemp.
  cbv zeta in Htemp. rewrite H in Htemp. cbn [fst snd] in Htemp.
  unfold Bgm27._process in H. cbv zeta in H.
  apply try_finally_ok in H as (w2 & Hbody & Hclean).
  apply remove_if_exists_ok in Hclean as [_ Hclean].
  do 6 step Hbody.
  match goal with
  | Hm : missing_or_smaller _ _ _ = _ |- _ =>
      apply missing_or_smaller_ok in Hm as [-> Hinv]
  end.
  match goal with
  | Hr : raise_if _ (Exception "输出文件无效") _ = _ |- _ =>
      apply raise_if_ok in Hr as [-> ->]
  end.
  step Hbody.
  match goal with
  | Hl : log_emit _ _ = _ |- _ => apply log_emit_fs in Hl
  end.
  injection Hbody as -> <-.
  split; [reflexivity|]. split; [|exact Htemp].
  rewrite Hclean, lookup_delete_ne.
  - match goal with Hl : fs _ = fs _ |- _ => rewrite Hl end.
    symmetry in Hinv.
    destruct (fs _ !! _) as [size|]; [|discriminate Hinv].
    exists size. split; [reflexivity|]. apply N.ltb_ge in Hinv. exact Hinv.
  - intros E. apply string_app_inv_head in E.
    apply (f_equal (String.get 1)) in E. vm_compute in E. discriminate E.
Qed.

Lemma process_audio_removes_temp
    (self : Bgm25.Thread) (ffmpeg input cf lf : string) (w : World S) :
  let temp := (splitext input).1 ++ "_temp.wav" in
  let outcome := Bgm25._process_audio self ffmpeg input cf lf w in
  match outcome.2 with
  | Raise (OSError msg) =>
      fs outcome.1 !! temp = None
      \/ (remove_error (engine outcome.1) temp = Some msg
          /\ is_Some (fs outcome.1 !! temp))
  | _ => fs outcome.1 !! temp = None
  end.
Proof. unfold Bgm25._process_audio. apply finally_removes. Qed.

(** The v2.5 routine leaves no intermediate file either, on any exit,
    unless the operating system refuses the removal: then it exits with the
    error of [os.remove] and the file stays.  Every path it returns is the
    path of the input with the suffix of the tool and the extension [.mp3],
    whatever the format of the input. *)
Theorem process_audio_exits
    (self : Bgm25.Thread) (ffmpeg input cf lf : string) (w : World S) :
  let temp := (splitext input).1 ++ "_temp.wav" in
  let outcome := Bgm25._process_audio self ffmpeg input cf lf w in
  match outcome.2 with
  | Ok out =>
      out = (splitext input).1 ++ "_母带处理后.mp3" /\ fs outcome.1 !! temp = None
  | Raise (OSError msg) =>
      fs outcome.1 !! temp = None
      \/ (remove_error (engine outcome.1) temp = Some msg
          /\ is_Some (fs outcome.1 !! temp))
  | Raise _ => fs outcome.1 !! temp = None
  end.
Proof.
  pose proof (process_audio_removes_temp self ffmpeg input cf lf w) as Htemp.
  cbv zeta in *.
  destruct (Bgm25._process_audio self ffmpeg input cf lf w) as [w' [out|e]] eqn:H;
    cbn [fst snd] in *; [|exact Htemp].
  split; [|exact Htemp].
  unfold Bgm25._process_audio in H. cbv zeta in H.
  apply try_finally_ok in H as (w2 & Hbody & _).
  do 8 step Hbody. now injection Hbody as _ <-.
Qed.

(** The v2.5 routine judges success by the two exit codes alone: when the
    chain can be assembled and both runs of the engine exit with code 0, it
    returns the output path, and the files are as the engine left them
    less the intermediate file.  No statement looks at the output file.
    The one other exit is the removal of the intermediate file that the
    operating system refuses. *)
Theorem process_audio_trusts_exit_codes
    (self : Bgm25.Thread) (ffmpeg input cf lf chain : string) (w : World S)
    (e1 e2 : S) (f1 f2 : gmap string N) (r1 r2 : CompletedProcess) :
  let base := (splitext input).1 in
  Bgm25.pre_filter_complex self cf = Ok chain ->
  exec [ffmpeg; "-y"; "-hide_banner"; "-i"; input; "-filter_complex"; chain;
        "-codec:a"; "pcm_s16le"; "-ar"; "44100"; "-ac"; "2"; base ++ "_temp.wav"]
    (engine w) (fs w) = (e1, f1, Ok r1) ->
  returncode r1 = 0%Z ->
  exec [ffmpeg; "-y"; "-hide_banner"; "-i"; base ++ "_temp.wav"; "-af"; lf;
        "-codec:a"; "libmp3lame"; "-qscale:a"; "2"; base ++ "_母带处理后.mp3"]
    e1 f1 = (e2, f2, Ok r2) ->
  returncode r2 = 0%Z ->
  let outcome := Bgm25._process_audio self ffmpeg input cf lf w in
  match f2 !! (base ++ "_temp.wav"), remove_error e2 (base ++ "_temp.wav") with
  | Some _, Some msg => outcome.2 = Raise (OSError msg) /\ fs outcome.1 = f2
  | _, _ =>
      outcome.2 = Ok (base ++ "_母带处理后.mp3")
      /\ fs outcome.1 = delete (base ++ "_temp.wav") f2
  end.
Proof.
  intros base Hchain Hpre Hc1 Hpost Hc2. subst base. cbv zeta.
  unfold Bgm25._process_audio. cbv zeta. unfold io_try_finally.
  match goal with
  | |- context [let (w1, r) := ?body w in _] =>
      assert (exists w1,
                body w = (w1, Ok ((splitext input).1 ++ "_母带处理后.mp3"))
                /\ fs w1 = f2 /\ engine w1 = e2)
        as (w1 & -> & Hfs & Heng)
  end.
  { rewrite io_bind_eq. unfold lift. rewrite Hchain.
    rewrite io_bind_eq. unfold log_emit at 1.
    rewrite io_bind_eq. unfold subprocess_run at 1. cbn [fs engine logged].
    rewrite Hpre.
    rewrite io_bind_eq, Hc1. cbn [Z.eqb negb raise_if mret io_ret].
    rewrite io_bind_eq. unfold log_emit at 1.
    rewrite io_bind_eq. unfold subprocess_run at 1. cbn [fs engine logged].
    rewrite Hpost.
    rewrite io_bind_eq, Hc2. cbn [Z.eqb negb raise_if mret io_ret].
    rewrite io_bind_eq. unfold log_emit at 1.
    eexists. repeat split; reflexivity. }
  rewrite remove_if_exists_eq, Hfs, Heng.
  destruct (f2 !! ((splitext input).1 ++ "_temp.wav")) as [n|] eqn:Hp.
  - destruct (remove_error e2 ((splitext input).1 ++ "_temp.wav")) as [msg|].
    + split; [reflexivity | exact Hfs].
    + split; reflexivity.
  - split; [reflexivity|]. cbn [fst]. rewrite Hfs. symmetry. now apply delete_id.
Qed.

End ProcessMore.

Lemma professional_process_success_witness :
  exists w' out,
    Pro33._professional_process_safe (OS := Samples.studio) "a.mp3" "anull"
      (Pro33.get_professional_output_params Samples.pro_analysis) Samples.disk
    = (w', Py.Ok out)
    /\ out = "a_专业优化后.mp3"%string
    /\ (exists size, Py.fs w' !! out = Some size /\ (8 * 1024 <= size)%N)
    /\ Py.fs w' !! "a_professional_temp.wav"%string = None.
Proof.
  destruct (Pro33._professional_process_safe (OS := Samples.studio) "a.mp3" "anull"
              (Pro33.get_professional_output_params Samples.pro_analysis) Samples.disk)
    as [w' r] eqn:E.
  destruct r as [out|e]; [|vm_compute in E; discriminate E].
  exists w', out. split; [reflexivity|].
  exact (professional_process_success (OS := Samples.studio) _ _ _ _ _ _ E).
Defined.

Lemma process_success_witness :
  exists w' out,
    Bgm27._process (OS := Samples.studio) "a.mp3" "anull"
      (Bgm27.get_output_params (FT := Decimal.runtime) Samples.bgm_analysis) Samples.disk
    = (w', Py.Ok out)
    /\ out = "a_背景音乐适配后.mp3"%string
    /\ (exists size, Py.fs w' !! out = Some size /\ (10 * 1024 <= size)%N)
    /\ Py.fs w' !! "a_bgm_temp.wav"%string = None.
Proof.
  destruct (Bgm27._process (OS := Samples.studio) "a.mp3" "anull"
              (Bgm27.get_output_params (FT := Decimal.runtime) Samples.bgm_analysis)
              Samples.disk) as [w' r] eqn:E.
  destruct r as [out|e]; [|vm_compute in E; discriminate E].
  exists w', out. split; [reflexivity|].
  exact (process_success (OS := Samples.studio) _ _ _ _ _ _ E).
Defined.

(** On an engine that reports success and writes nothing, the v2.5 routine
    returns the path of an output file that does not exist. *)
Lemma process_audio_trusts_exit_codes_witness :
  let outcome :=
    Bgm25._process_audio (OS := Samples.idle) Samples.plain_thread "ffmpeg" "a.mp3"
      "anull" "loudnorm=I=-16.0:LRA=11:TP=-1.5" Samples.disk in
  outcome.2 = Py.Ok "a_母带处理后.mp3"%string
  /\ Py.fs outcome.1 = delete "a_temp.wav"%string (Py.fs Samples.disk)
  /\ Py.fs outcome.1 !! "a_母带处理后.mp3"%string = None.
Proof.
  cbv zeta.
  pose proof (process_audio_trusts_exit_codes (OS := Samples.idle) Samples.plain_thread
                "ffmpeg" "a.mp3" "anull" "loudnorm=I=-16.0:LRA=11:TP=-1.5"
                "equalizer=f=2000:g=-6:w=1.0,anull,pan=stereo|c0=0.8*c0+0.2*c1|c1=0.2*c0+0.8*c1"
                Samples.disk tt tt (Py.fs Samples.disk) (Py.fs Samples.disk)
                {| Py.returncode := 0; Py.stderr := "" |}
                {| Py.returncode := 0; Py.stderr := "" |}
                eq_refl eq_refl eq_refl eq_refl eq_refl) as T.
  cbv zeta in T.
  change (Py.fs Samples.disk !! ((Py.splitext "a.mp3").1 ++ "_temp.wav")%string)
    with (@None N) in T.
  destruct T as [Hout Hfs].
  split; [exact Hout|]. split; [exact Hfs|].
  rewrite Hfs. reflexivity.
Defined.

(** ** The worker threads *)

Section RunFacts.

Import Py.
Local Open Scope string_scope.
Context {FT : FloatText} {FF : FloatFormat} {S : Type} {OS : Platform S}.

(** *** The v2.7 worker *)

Lemma bgm_run_file_reports (self : Bgm27.Thread) (i : Z) (p : string) (w : World S) :
  exists w' s,
    Bgm27.run_file self i p w
    = (w', Ok [s; Bgm27.progress_updated
                    (percent i (Z.of_nat (length (Bgm27.file_list self))))])
    /\ Bgm27.reports p s.
Proof.
  unfold Bgm27.run_file. cbv zeta.
  rewrite io_bind_eq. unfold log_emit at 1.
  rewrite io_bind_eq. unfold io_catch.
  destruct (Bgm27.process_file self p _) as [w1 [out|e]];
    eexists; eexists; (split; [reflexivity|]); [left | right]; eauto.
Qed.

Lemma bgm_run_from_reports (self : Bgm27.Thread) (files : list string) :
  forall (i : Z) (w : World S),
  exists w' reported,
    Bgm27.run_from self i files w
    = (w', Ok (Bgm27.batch_signals (Z.of_nat (length (Bgm27.file_list self))) i reported))
    /\ Forall2 Bgm27.reports files reported.
Proof.
  induction files as [|p files IH]; intros i w.
  - exists w, []. split; [reflexivity | constructor].
  - cbn [Bgm27.run_from]. rewrite io_bind_eq.
    destruct (bgm_run_file_reports self i p w) as (w1 & s & -> & Hs).
    rewrite io_bind_eq.
    destruct (IH (i + 1)%Z w1) as (w2 & reported & -> & Hall).
    exists w2, (s :: reported). split; [reflexivity | now constructor].
Qed.

(** The v2.7 worker never raises and never stops at a file that fails:
    for every file of the batch, in order, it emits either the processed
    file or an error, followed by a progress update, and after the last
    file it emits [all_finished]. *)
Theorem bgm_run_reports_every_file (self : Bgm27.Thread) (w : World S) :
  exists w' reported,
    Bgm27.run self w
    = (w', Ok (Bgm27.batch_signals (Z.of_nat (length (Bgm27.file_list self))) 1 reported
               ++ [Bgm27.all_finished])%list)
    /\ Forall2 Bgm27.reports (Bgm27.file_list self) reported.
Proof.
  unfold Bgm27.run. rewrite io_bind_eq.
  destruct (bgm_run_from_reports self (Bgm27.file_list self) 1%Z w)
    as (w' & reported & -> & Hall).
  exists w', reported. split; [reflexivity | exact Hall].
Qed.

(** *** The v3.3 worker *)

Lemma pro_run_file_reports (self : Pro33.Thread) (idx : Z) (p : string) (w : World S) :
  exists w' block,
    Pro33.run_file self idx p w
    = (w', Ok (block ++ [Pro33.progress_updated
                           (percent idx (Z.of_nat (length (Pro33.file_list self))))])%list)
    /\ Pro33.reports p block.
Proof.
  unfold Pro33.run_file. cbv zeta.
  rewrite io_bind_eq. unfold log_emit at 1.
  rewrite io_bind_eq. unfold log_emit at 1.
  rewrite io_bind_eq. unfold io_catch at 1.
  destruct (Pro33.analyze_audio_quality p _) as [w1 [a|e]].
  - rewrite io_bind_eq. rewrite io_bind_eq. unfold io_catch.
    destruct (Pro33.process_analysed self p a w1) as [w2 [out|e]];
      eexists; eexists; (split; [reflexivity|]); right; [right | left]; eauto.
  - rewrite io_bind_eq.
    eexists; eexists; (split; [reflexivity|]); left; eauto.
Qed.

Lemma pro_run_from_reports (self : Pro33.Thread) (files : list string) :
  forall (idx : Z) (w : World S),
  (forall i, Pro33.abort self i = false) ->
  exists w' blocks,
    Pro33.run_from self idx files w
    = (w', Ok (Pro33.batch_signals (Z.of_nat (length (Pro33.file_list self))) idx blocks
               ++ [Pro33.all_finished])%list)
    /\ Forall2 Pro33.reports files blocks.
Proof.
  induction files as [|p files IH]; intros idx w Hgo.
  - exists w, []. split; [reflexivity | constructor].
  - cbn [Pro33.run_from]. rewrite Hgo. rewrite io_bind_eq.
    destruct (pro_run_file_reports self idx p w) as (w1 & block & -> & Hb).
    rewrite io_bind_eq.
    destruct (IH (idx + 1)%Z w1 Hgo) as (w2 & blocks & -> & Hall).
    exists w2, (block :: blocks). split; [|now constructor].
    cbn [mret io_ret Pro33.batch_signals].
    rewrite <- !app_assoc. reflexivity.
Qed.

(** When nobody asks it to stop, the v3.3 worker never raises and never
    stops at a file that fails: for every file of the batch, in order, it
    emits an error alone, or the quality report followed by the processed
    file or by an error, then a progress update; after the last file it
    emits [all_finished]. *)
Theorem pro_run_reports_every_file (self : Pro33.Thread) (w : World S) :
  (forall idx, Pro33.abort self idx = false) ->
  exists w' blocks,
    Pro33.run self w
    = (w', Ok (Pro33.batch_signals (Z.of_nat (length (Pro33.file_list self))) 1 blocks
               ++ [Pro33.all_finished])%list)
    /\ Forall2 Pro33.reports (Pro33.file_list self) blocks.
Proof. intros Hgo. now apply pro_run_from_reports. Qed.




(** A file that does not exist costs no run of the engine: the v3.3 worker
    logs two lines, reports the error under the base name of the file and
    goes on to the progress update, leaving the files and the engine as
    they were. *)
Theorem pro_run_skips_missing_file (self : Pro33.Thread) (idx : Z) (p : string)
    (w : World S) :
  fs w !! p = None ->
  Pro33.run_file self idx p w
  = ({| fs := fs w; engine := engine w;
        logged := (logged w ++ ["开始专业处理：" ++ basename p]) ++ ["  执行专业音频分析..."] |},
     Ok [Pro33.error (basename p ++ " 处理失败：文件不存在: " ++ p);
         Pro33.progress_updated (percent idx (Z.of_nat (length (Pro33.file_list self))))]).
Proof.
  intros Hp. unfold Pro33.run_file. cbv zeta.
  rewrite io_bind_eq. unfold log_emit at 1.
  rewrite io_bind_eq. unfold log_emit at 1.
  rewrite io_bind_eq. unfold io_catch at 1.
  rewrite analyze_missing_file by exact Hp.
  rewrite io_bind_eq. reflexivity.
Qed.

End RunFacts.

Lemma pro_run_reports_every_file_witness :
  (forall idx, Pro33.abort Samples.pro_thread idx = false)
  /\ exists w' blocks,
       Pro33.run (FT := Decimal.runtime) (FF := Decimal.formats) (OS := Samples.studio)
         Samples.pro_thread Samples.disk
       = (w', Py.Ok (@Pro33.batch_signals Decimal.runtime 2 1 blocks ++ [Pro33.all_finished])%list)
       /\ Forall2 Pro33.reports ["a.mp3"; "b.mp3"]%string blocks.
Proof.
  split; [intros idx; reflexivity|].
  apply (pro_run_reports_every_file (FT := Decimal.runtime) (FF := Decimal.formats)
           (OS := Samples.studio) Samples.pro_thread Samples.disk).
  intros idx. reflexivity.
Defined.


Lemma pro_run_skips_missing_file_witness :
  Py.fs Samples.disk !! "b.mp3"%string = None
  /\ (Pro33.run_file (FT := Decimal.runtime) (FF := Decimal.formats) (OS := Samples.studio)
        Samples.pro_thread 2 "b.mp3" Samples.disk).2
     = Py.Ok [Pro33.error "b.mp3 处理失败：文件不存在: b.mp3";
              Pro33.progress_updated 100].
Proof.
  split; [reflexivity|].
  rewrite (pro_run_skips_missing_file (FT := Decimal.runtime) (FF := Decimal.formats)
             (OS := Samples.studio) Samples.pro_thread 2 "b.mp3" Samples.disk eq_refl).
  reflexivity.
Defined.

(** ** The v2.7 builder and extractor, the v2.0 builder *)

Section BuilderMore.

Import Py.
Local Open Scope string_scope.
Local Open Scope Q_scope.
Context {FT : FloatText}.

Lemma bgm_pan_keys (sf pan : string) :
  Bgm27.sound_field_presets !! sf = Some pan -> In sf Bgm27.sound_field_items.
Proof.
  unfold Bgm27.sound_field_presets. intros Hl.
  repeat (apply lookup_insert_Some in Hl as [[<- _]|[_ Hl]]; [simpl; tauto|]).
  apply lookup_singleton_Some in Hl as [<- _]. simpl; tauto.
Qed.

(** The v2.7 builder looks the stereo field up without a default: it
    returns a chain exactly for the three fields of the window, and raises
    [KeyError] with the field as its key for any other text. *)
Theorem processing_chain_key_error
    (uc : bool) (sf : string) (av : bool) (a : Bgm27.Analysis) :
  match Bgm27.build_processing_chain uc sf av a with
  | Ok _ => In sf Bgm27.sound_field_items
  | Raise e => e = KeyError sf /\ ~ In sf Bgm27.sound_field_items
  end.
Proof.
  unfold Bgm27.build_processing_chain, Bgm27.processing_filters, getitem.
  destruct (Bgm27.sound_field_presets !! sf) as [pan|] eqn:Hl.
  - cbn [mbind result_bind mret result_ret]. apply (bgm_pan_keys sf pan Hl).
  - cbn [mbind result_bind]. split; [reflexivity|].
    intros Hin.
    destruct (proj1 (List.Forall_forall _ _) bgm_pan_lookup sf Hin) as [pan Hpan].
    unfold getitem in Hpan. rewrite Hl in Hpan. discriminate Hpan.
Qed.

(** Of the whole analysis the v2.7 chain reads one bit, whether the dynamic
    range exceeds 20 dB, and it reads nothing at all when compression is
    off: loudness, bitrate and format never reach the chain. *)
Theorem processing_chain_reads_one_bit
    (uc : bool) (sf : string) (av : bool) (a1 a2 : Bgm27.Analysis) :
  uc = false
  \/ fgt (Bgm27.dynamic_range a1) 20 = fgt (Bgm27.dynamic_range a2) 20 ->
  Bgm27.build_processing_chain uc sf av a1 = Bgm27.build_processing_chain uc sf av a2.
Proof.
  unfold Bgm27.build_processing_chain, Bgm27.processing_filters.
  intros [-> | ->]; [reflexivity|]. reflexivity.
Qed.

(** *** The v2.0 builder *)

Lemma vocal_chain_by_base (scene : string) (lvl : Z) (de : bool) (sf t1 t2 : string)
    (a : Vocal20.Analysis) :
  Vocal20.base_dn t1 = Vocal20.base_dn t2 ->
  Vocal20.build_vocal_filter_chain scene lvl de sf t1 a
  = Vocal20.build_vocal_filter_chain scene lvl de sf t2 a.
Proof.
  intros E.
  unfold Vocal20.build_vocal_filter_chain, Vocal20.vocal_filters,
    Vocal20.denoise_stage, Vocal20.final_dn.
  now rewrite E.
Qed.

(** The tier selector of the v2.0 window has no effect: each of its three
    items, cut at its opening bracket as [start_processing] does, reaches
    the builder as a word that is no key of its table, so every item gives
    the chain of the medium tier. *)
Theorem window_tier_has_no_effect :
  Forall (fun item =>
            exists tier,
              Vocal20.selected_denoise_level item = Ok tier
              /\ forall scene lvl de sf a,
                   Vocal20.build_vocal_filter_chain scene lvl de sf tier a
                   = Vocal20.build_vocal_filter_chain scene lvl de sf "mid" a)
    Vocal20.denoise_combo_items.
Proof.
  unfold Vocal20.denoise_combo_items.
  do 3 (constructor;
        [eexists; split; [reflexivity|]; intros;
         apply vocal_chain_by_base; reflexivity|]).
  constructor.
Qed.



Lemma strength_range (base : Z) (nf : Q) :
  (base <= Vocal20.Spec.strength base nf <= base + 10)%Z.
Proof.
  unfold Vocal20.Spec.strength.
  destruct (Qlt_le_dec (-45) nf); [lia|].
  destruct (Qlt_le_dec nf (-55)); lia.
Qed.

Lemma strength_antitone (base : Z) (n1 n2 : Q) :
  n1 <= n2 -> (Vocal20.Spec.strength base n2 <= Vocal20.Spec.strength base n1)%Z.
Proof.
  intros Hle. unfold Vocal20.Spec.strength.
  destruct (Qlt_le_dec (-45) n2), (Qlt_le_dec (-45) n1),
    (Qlt_le_dec n2 (-55)), (Qlt_le_dec n1 (-55)); try lia; exfalso; lra.
Qed.

Lemma tier_base_range (tier : string) :
  (-40 <= Vocal20.Spec.tier_base tier <= -20)%Z.
Proof.
  unfold Vocal20.Spec.tier_base.
  destruct (String.eqb tier "low"), (String.eqb tier "mid"), (String.eqb tier "high"); lia.
Qed.

(** In the v2.0 builder a noisier recording never gets a weaker noise
    suppression: of two analyses the one with the higher noise floor gets
    the lower (stronger) level, and every level lies between -40 and -10. *)
Theorem final_dn_follows_noise_floor
    (tier : string) (a1 a2 : Vocal20.Analysis) (n1 n2 : Q) :
  Vocal20.noise_floor a1 = Some n1 ->
  Vocal20.noise_floor a2 = Some n2 ->
  n1 <= n2 ->
  exists d1 d2,
    Vocal20.final_dn tier a1 = Ok d1
    /\ Vocal20.final_dn tier a2 = Ok d2
    /\ (d2 <= d1)%Z
    /\ (-40 <= d2)%Z /\ (d1 <= -10)%Z.
Proof.
  intros H1 H2 Hle. rewrite !final_dn_strength, H1, H2.
  assert (forall x : Q, default (-50.0) (Some x) = x) as Hd by reflexivity.
  rewrite !Hd.
  eexists. eexists. split; [reflexivity|]. split; [reflexivity|].
  pose proof (strength_antitone (Vocal20.Spec.tier_base tier) n1 n2 Hle).
  pose proof (strength_range (Vocal20.Spec.tier_base tier) n1).
  pose proof (strength_range (Vocal20.Spec.tier_base tier) n2).
  pose proof (tier_base_range tier).
  lia.
Qed.

End BuilderMore.

Section AnalyzeFileFacts.

Import Py.
Local Open Scope string_scope.
Local Open Scope Q_scope.
Context {FT : FloatText} {S : Type} {OS : Platform S}.

(** What the v2.7 extractor returns: the extension is the lower-cased
    extension of the path, the file counts as lossless exactly for the four
    lossless extensions, the bitrate is at most 320, so that the encoder is
    never asked for more, and the dynamic range is not negative. *)
Theorem analyze_file_returns (p : string) (w w' : World S) (a : Bgm27.Analysis) :
  Bgm27.analyze_file p w = (w', Ok a) ->
  Bgm27.ext a = lower (snd (splitext p))
  /\ Bgm27.is_lossless a
     = existsb (String.eqb (Bgm27.ext a)) [".flac"; ".wav"; ".alac"; ".aiff"]
  /\ (Bgm27.bitrate a <= 320)%Z
  /\ 0 <= Bgm27.dynamic_range a.
Proof.
  intros H. unfold Bgm27.analyze_file in H. cbv zeta in H.
  apply io_bind_ok in H as (w1 & r & _ & H).
  apply io_bind_ok in H as (w2 & dr & Hdr & H).
  apply io_bind_ok in H as (w3 & l & _ & H).
  assert (0 <= dr) as Hpos.
  { unfold Bgm27.detect_dynamic_range in Hdr. cbv zeta in Hdr.
    apply io_bind_ok in Hdr as (wa & ra & _ & Hdr).
    apply io_bind_ok in Hdr as (wb & vols & _ & Hdr).
    injection Hdr as _ Hdr. rewrite <- Hdr.
    exact (Qabs_nonneg (float_sub (fst vols) (snd vols))). }
  injection H as _ <-.
  cbn [Bgm27.ext Bgm27.is_lossless Bgm27.bitrate Bgm27.dynamic_range].
  split; [reflexivity|]. split; [reflexivity|].
  split; [apply Z.le_min_r | exact Hpos].
Qed.

End AnalyzeFileFacts.

Lemma processing_chain_reads_one_bit_witness :
  (true = false
   \/ Py.fgt (Bgm27.dynamic_range Samples.bgm_analysis) 20
      = Py.fgt (Bgm27.dynamic_range
                  {| Bgm27.is_lossless := true; Bgm27.ext := ".flac"; Bgm27.bitrate := 320;
                     Bgm27.dynamic_range := 30; Bgm27.loudness := -9 |}) 20)
  /\ Bgm27.build_processing_chain (FT := Decimal.runtime) true "宽声场" true
       Samples.bgm_analysis
     = Bgm27.build_processing_chain (FT := Decimal.runtime) true "宽声场" true
         {| Bgm27.is_lossless := true; Bgm27.ext := ".flac"; Bgm27.bitrate := 320;
            Bgm27.dynamic_range := 30; Bgm27.loudness := -9 |}.
Proof.
  split; [right; reflexivity|].
  apply processing_chain_reads_one_bit. right. reflexivity.
Defined.


Lemma final_dn_follows_noise_floor_witness :
  let noisy : Vocal20.Analysis :=
    {| Vocal20.is_lossless := false; Vocal20.ext := ".mp3"; Vocal20.bitrate := 192;
       Vocal20.loudness := Some (-22.0)%Q; Vocal20.dynamic_range := Some 10.0%Q;
       Vocal20.noise_floor := Some (-38.0)%Q;
       Vocal20.high_freq_energy := Some (-3.0)%Q; Vocal20.input_path := "a.mp3" |} in
  let quiet : Vocal20.Analysis :=
    {| Vocal20.is_lossless := false; Vocal20.ext := ".mp3"; Vocal20.bitrate := 192;
       Vocal20.loudness := Some (-22.0)%Q; Vocal20.dynamic_range := Some 10.0%Q;
       Vocal20.noise_floor := Some (-60.0)%Q;
       Vocal20.high_freq_energy := Some (-3.0)%Q; Vocal20.input_path := "a.mp3" |} in
  (-60.0 <= -38.0)%Q
  /\ Vocal20.final_dn "high" quiet = Py.Ok (-30)%Z
  /\ Vocal20.final_dn "high" noisy = Py.Ok (-40)%Z
  /\ exists d1 d2,
       Vocal20.final_dn "high" quiet = Py.Ok d1
       /\ Vocal20.final_dn "high" noisy = Py.Ok d2
       /\ (d2 <= d1)%Z /\ (-40 <= d2)%Z /\ (d1 <= -10)%Z.
Proof.
  intros noisy quiet.
  split; [unfold Qle; simpl; lia|].
  split; [reflexivity|]. split; [reflexivity|].
  apply (final_dn_follows_noise_floor "high" quiet noisy (-60.0)%Q (-38.0)%Q
           eq_refl eq_refl).
  unfold Qle; simpl; lia.
Defined.

Lemma analyze_file_returns_witness :
  exists w' a,
    Bgm27.analyze_file (FT := Decimal.runtime) (OS := Samples.studio) "a.mp3" Samples.disk
    = (w', Py.Ok a)
    /\ Bgm27.ext a = ".mp3"%string
    /\ Bgm27.is_lossless a = false
    /\ (Bgm27.bitrate a <= 320)%Z
    /\ (0 <= Bgm27.dynamic_range a)%Q.
Proof.
  destruct (Bgm27.analyze_file (FT := Decimal.runtime) (OS := Samples.studio)
              "a.mp3" Samples.disk) as [w' r] eqn:E.
  destruct r as [a|e]; [|vm_compute in E; discriminate E].
  destruct (analyze_file_returns (OS := Samples.studio) _ _ _ _ E)
    as (He & Hl & Hb & Hd).
  exists w', a. split; [reflexivity|].
  vm_compute in E. injection E as _ <-.
  repeat split; assumption.
Defined.

(** ** The smart compressor of the v2.5 tool *)

Section SmartFacts.

Import Py.
Local Open Scope string_scope.
Local Open Scope Q_scope.
Context {FT : FloatText}.

(** The text of [get_multi_band_params] in terms of the numbers of the
    three bands. *)
Lemma multi_band_params_numbers (dr : Q) (attack release f g : Z) :
  Bgm25.get_multi_band_params dr attack release f g
  = "asplit=3[low][mid][high];" ++
    "[low]lowpass=250," ++
      ("acompressor=threshold=-22dB:ratio=" ++ str_int (Bgm25.base_ratio dr) ++
       ":attack=" ++ str_int attack ++ ":release=" ++ str_int release ++
       ":knee=12dB:makeup=4dB") ++ "[low_out];" ++
    "[mid]highpass=250,lowpass=2000," ++
      ("acompressor=threshold=-20dB:ratio=" ++ str_num (Bgm25.mid_ratio dr) ++
       ":attack=" ++ str_int (Bgm25.mid_attack attack) ++
       ":release=" ++ str_int (Bgm25.mid_release release) ++ ":knee=8dB:makeup=3dB," ++
       "equalizer=f=" ++ str_int f ++ ":g=" ++ str_int g ++ ":w=1.0") ++ "[mid_out];" ++
    "[high]highpass=2000," ++
      ("acompressor=threshold=-18dB:ratio=" ++ str_num (Bgm25.high_ratio dr) ++
       ":attack=" ++ str_int (Bgm25.high_attack attack) ++
       ":release=" ++ str_int (Bgm25.high_release release) ++ ":knee=6dB:makeup=2dB") ++
      "[high_out];" ++
    "[low_out][mid_out][high_out]amix=inputs=3:weights=1.2 1 0.8".
Proof. reflexivity. Qed.

Lemma base_ratio_mono (dr1 dr2 : Q) :
  dr1 <= dr2 -> (Bgm25.base_ratio dr1 <= Bgm25.base_ratio dr2)%Z.
Proof.
  intros Hle. unfold Bgm25.base_ratio.
  destruct (flt dr1 15) eqn:A1, (flt dr2 15) eqn:A2,
    (flt dr1 20) eqn:B1, (flt dr2 20) eqn:B2; try lia;
    repeat match goal with
    | H : flt _ _ = true |- _ => apply flt_iff in H
    | H : flt _ _ = false |- _ => apply flt_false_iff in H
    end; exfalso; lra.
Qed.

(** The three bands of the smart compressor are compressed in a fixed
    order of strength: the ratio of the high band is at most that of the
    middle band, which is at most that of the low band, and no ratio falls
    below 1.2; the low ratio is 2, 3 or 4 and grows with the dynamic range.
    The attack of the middle band never exceeds 50 ms and its release
    800 ms; the attack of the high band is never below 3 ms and its release
    never above 500 ms. *)
Theorem multi_band_ratios_are_ordered (dr1 dr2 : Q) (attack release f g : Z) :
  dr1 <= dr2 ->
  Bgm25.get_multi_band_params dr1 attack release f g
  = "asplit=3[low][mid][high];" ++
    "[low]lowpass=250," ++
      ("acompressor=threshold=-22dB:ratio=" ++ str_int (Bgm25.base_ratio dr1) ++
       ":attack=" ++ str_int attack ++ ":release=" ++ str_int release ++
       ":knee=12dB:makeup=4dB") ++ "[low_out];" ++
    "[mid]highpass=250,lowpass=2000," ++
      ("acompressor=threshold=-20dB:ratio=" ++ str_num (Bgm25.mid_ratio dr1) ++
       ":attack=" ++ str_int (Bgm25.mid_attack attack) ++
       ":release=" ++ str_int (Bgm25.mid_release release) ++ ":knee=8dB:makeup=3dB," ++
       "equalizer=f=" ++ str_int f ++ ":g=" ++ str_int g ++ ":w=1.0") ++ "[mid_out];" ++
    "[high]highpass=2000," ++
      ("acompressor=threshold=-18dB:ratio=" ++ str_num (Bgm25.high_ratio dr1) ++
       ":attack=" ++ str_int (Bgm25.high_attack attack) ++
       ":release=" ++ str_int (Bgm25.high_release release) ++ ":knee=6dB:makeup=2dB") ++
      "[high_out];" ++
    "[low_out][mid_out][high_out]amix=inputs=3:weights=1.2 1 0.8"
  /\ (2 <= Bgm25.base_ratio dr1 <= Bgm25.base_ratio dr2)%Z
  /\ (Bgm25.base_ratio dr2 <= 4)%Z
  /\ 1.2 <= num_val (Bgm25.high_ratio dr1)
  /\ num_val (Bgm25.high_ratio dr1) <= num_val (Bgm25.mid_ratio dr1)
  /\ num_val (Bgm25.mid_ratio dr1) <= inject_Z (Bgm25.base_ratio dr1)
  /\ (Bgm25.mid_attack attack <= 50)%Z /\ (Bgm25.mid_release release <= 800)%Z
  /\ (3 <= Bgm25.high_attack attack)%Z /\ (Bgm25.high_release release <= 500)%Z.
Proof.
  intros Hle. split; [apply multi_band_params_numbers|].
  pose proof (base_ratio_mono dr1 dr2 Hle) as Hm.
  split; [split; [|exact Hm];
          unfold Bgm25.base_ratio; destruct (flt dr1 15), (flt dr1 20); lia|].
  split; [unfold Bgm25.base_ratio; destruct (flt dr2 15), (flt dr2 20); lia|].
  unfold Bgm25.high_ratio, Bgm25.mid_ratio, Bgm25.base_ratio,
    Bgm25.mid_attack, Bgm25.mid_release, Bgm25.high_attack, Bgm25.high_release.
  repeat split; try lia;
    destruct (flt dr1 15), (flt dr1 20); apply Qle_bool_iff; reflexivity.
Qed.

Lemma scan_peak_factor_counts (line : string) (t n : Z) :
  (0 <= t <= n)%Z ->
  (0 <= (Bgm25.scan_peak_factor (t, n) line).1 <= (Bgm25.scan_peak_factor (t, n) line).2)%Z
  /\ (n <= (Bgm25.scan_peak_factor (t, n) line).2)%Z.
Proof.
  intros H. unfold Bgm25.scan_peak_factor.
  destruct (contains "PeakFactor" line); [|cbn; lia].
  destruct (last (split "=" line) ≫= _) as [pf|e]; [|cbn; lia].
  destruct (fgt pf 6); cbn; lia.
Qed.

Lemma fold_peak_factor_counts (lines : list string) :
  forall t n : Z,
  (0 <= t <= n)%Z ->
  (0 <= (fold_left Bgm25.scan_peak_factor lines (t, n)).1
   <= (fold_left Bgm25.scan_peak_factor lines (t, n)).2)%Z.
Proof.
  induction lines as [|line lines IH]; intros t n H; [exact H|].
  cbn [fold_left].
  destruct (Bgm25.scan_peak_factor (t, n) line) as [t' n'] eqn:E.
  apply IH. pose proof (scan_peak_factor_counts line t n H) as Hc.
  rewrite E in Hc. cbn in Hc. lia.
Qed.

Lemma fold_peak_factor_silent (lines : list string) (acc : Z * Z) :
  Forall (fun line => contains "PeakFactor" line = false) lines ->
  fold_left Bgm25.scan_peak_factor lines acc = acc.
Proof.
  intros Hall. revert acc.
  induction Hall as [|line lines Hl _ IH]; intros [t n]; [reflexivity|].
  cbn [fold_left]. unfold Bgm25.scan_peak_factor at 2. rewrite Hl. apply IH.
Qed.

(** The transient detector knows two settings only: an attack of 5 ms with
    a release of 200 ms when the ratio of the transient frames to the
    measured frames exceeds 0.4, and 30 ms with 500 ms otherwise.  The
    count of the transient frames never exceeds the count of the measured
    frames, and when the engine prints no peak factor at all the ratio is
    the default 0.3, which gives the slow setting. *)
Theorem transient_settings (lines : list string) :
  let '(attack, release, transient_ratio) := Bgm25.transient_of_lines lines in
  (if fgt transient_ratio 0.4
   then attack = 5%Z /\ release = 200%Z
   else attack = 30%Z /\ release = 500%Z)
  /\ (exists transient_count total_count : Z,
        fold_left Bgm25.scan_peak_factor lines (0%Z, 0%Z) = (transient_count, total_count)
        /\ (0 <= transient_count <= total_count)%Z
        /\ transient_ratio
           = if (total_count >? 0)%Z
             then float_div (inject_Z transient_count) (inject_Z total_count)
             else 0.3)
  /\ (Forall (fun line => contains "PeakFactor" line = false) lines ->
      transient_ratio = 0.3 /\ attack = 30%Z /\ release = 500%Z).
Proof.
  unfold Bgm25.transient_of_lines.
  pose proof (fold_peak_factor_counts lines 0 0 ltac:(lia)) as Hc.
  pose proof (fold_peak_factor_silent lines (0%Z, 0%Z)) as Hs.
  destruct (fold_left Bgm25.scan_peak_factor lines (0%Z, 0%Z)) as [t n].
  cbn [fst snd] in Hc. cbv zeta.
  split; [|split].
  - destruct (fgt _ 0.4); split; reflexivity.
  - exists t, n. repeat split; lia.
  - intros Hall. specialize (Hs Hall). injection Hs as -> ->.
    repeat split; reflexivity.
Qed.

Lemma adaptive_target_mono (L1 L2 : Q) :
  L1 <= L2 -> Bgm25.adaptive_target L1 <= Bgm25.adaptive_target L2.
Proof.
  intros Hle.
  destruct (adaptive_target_split L1) as [[H1 ->]|[H1 ->]],
    (adaptive_target_split L2) as [[H2 ->]|[H2 ->]];
    unfold Bgm25.TARGET_LUFS; lra.
Qed.

(** The adaptive target never exceeds the nominal target of -16 LUFS, and
    it grows with the loudness of the input: a quieter input never gets a
    louder target. *)
Theorem adaptive_target_is_capped_and_monotone (L1 L2 : Q) :
  L1 <= L2 ->
  Bgm25.adaptive_target L1 <= Bgm25.adaptive_target L2
  /\ Bgm25.adaptive_target L2 <= -16.
Proof.
  intros Hle. split; [now apply adaptive_target_mono|].
  destruct (adaptive_target_split L2) as [[H2 ->]|[H2 ->]];
    unfold Bgm25.TARGET_LUFS; lra.
Qed.

End SmartFacts.

Lemma multi_band_ratios_are_ordered_witness :
  (18 <= 25)%Q
  /\ (2 <= Bgm25.base_ratio 18 <= Bgm25.base_ratio 25)%Z
  /\ @Py.str_num Decimal.runtime (Bgm25.mid_ratio 18) = "2.5"%string
  /\ @Py.str_num Decimal.runtime (Bgm25.high_ratio 18) = "2"%string.
Proof.
  split; [unfold Qle; simpl; lia|].
  destruct (multi_band_ratios_are_ordered (FT := Decimal.runtime) 18 25 30 500 2000 (-6))
    as (_ & Hb & _).
  - unfold Qle; simpl; lia.
  - split; [exact Hb|]. split; reflexivity.
Defined.

Lemma adaptive_target_is_capped_and_monotone_witness :
  (-40 <= -25)%Q
  /\ (Bgm25.adaptive_target (-40) <= Bgm25.adaptive_target (-25))%Q
  /\ (Bgm25.adaptive_target (-25) <= -16)%Q.
Proof.
  split; [unfold Qle; simpl; lia|].
  apply adaptive_target_is_capped_and_monotone. unfold Qle; simpl; lia.
Defined.

(** ** A line of the volume pass that carries a marker and no number *)

Section VolumeLineFacts.

Import Py.
Local Open Scope string_scope.
Context {FT : FloatText} {FF : FloatFormat} {S : Type} {OS : Platform S}.

Lemma for_each_raises {A B} (body : B -> A -> result B) (l : list A) (x : A) :
  In x l ->
  (forall acc, raises (body acc x) = true) ->
  forall acc, raises (for_each body l acc) = true.
Proof.
  intros Hin Hx. induction l as [|y l IH]; intros acc; [destruct Hin|].
  cbn [for_each]. destruct Hin as [->|Hin].
  - specialize (Hx acc). destruct (body acc x); [discriminate Hx | reflexivity].
  - destruct (body acc y); [now apply IH | reflexivity].
Qed.

Lemma scan_volume_line_raises (line : string) (acc : Q * Q) :
  contains "max_volume" line = true \/ contains "min_volume" line = true ->
  raises (Bgm27.volume_of_line line) = true ->
  raises (Bgm27.scan_volume_line acc line) = true.
Proof.
  intros Hm Hr. destruct acc as [max_vol min_vol]. unfold Bgm27.scan_volume_line.
  destruct (Bgm27.volume_of_line line) as [v|e]; [discriminate Hr|].
  destruct Hm as [-> | ->]; [reflexivity|].
  destruct (contains "max_volume" line); reflexivity.
Qed.

(** The v2.7 volume pass converts without a guard: one line of the engine
    that carries a volume marker and no number that parses makes the whole
    file fail.  The worker reports the error and the progress, and stops
    work on the file right after the volume pass: the loudness pass and the
    two processing passes never run. *)
Theorem bgm_unreadable_volume_line_fails_file
    (self : Bgm27.Thread) (i : Z) (p line : string) (w wa wb : World S)
    (probe volumes : CompletedProcess) :
  let w0 := {| fs := fs w; engine := engine w;
               logged := logged w ++ ["开始处理：" ++ basename p] |} in
  subprocess_run (Bgm27.probe_cmd p) w0 = (wa, Ok probe) ->
  subprocess_run (Bgm27.volume_cmd p) wa = (wb, Ok volumes) ->
  In line (splitlines (stderr volumes)) ->
  contains "max_volume" line = true \/ contains "min_volume" line = true ->
  raises (Bgm27.volume_of_line line) = true ->
  exists e,
    Bgm27.run_file self i p w
    = (wb,
       Ok [Bgm27.error (basename p ++ " 处理失败：" ++ str_exn e);
           Bgm27.progress_updated
             (percent i (Z.of_nat (length (Bgm27.file_list self))))]).
Proof.
  intros w0 Hprobe Hvol Hin Hm Hr.
  pose proof (for_each_raises Bgm27.scan_volume_line (splitlines (stderr volumes)) line
                Hin (fun acc => scan_volume_line_raises line acc Hm Hr) (-10.0, -40.0)%Q)
    as Hloop.
  destruct (for_each Bgm27.scan_volume_line (splitlines (stderr volumes)) (-10.0, -40.0)%Q)
    as [vols|e] eqn:Hfe; [discriminate Hloop|].
  exists e.
  unfold Bgm27.run_file. cbv zeta.
  rewrite io_bind_eq. unfold log_emit at 1.
  rewrite io_bind_eq. unfold io_catch.
  unfold Bgm27.process_file. rewrite io_bind_eq.
  unfold Bgm27.analyze_file. cbv zeta. rewrite io_bind_eq.
  fold w0. rewrite Hprobe.
  rewrite io_bind_eq. unfold Bgm27.detect_dynamic_range. cbv zeta.
  rewrite io_bind_eq, Hvol.
  rewrite io_bind_eq. unfold lift. rewrite Hfe. reflexivity.
Qed.

End VolumeLineFacts.

(** A file whose name holds a marker of the volume pass cannot be processed
    by the v2.7 tool when the engine names its input: the line that names
    it carries the marker and no number. *)
Lemma bgm_unreadable_volume_line_fails_file_witness :
  let self : Bgm27.Thread :=
    {| Bgm27.file_list := ["max_volume.mp3"%string]; Bgm27.use_compress := true;
       Bgm27.sound_field := "轻微扩展"%string; Bgm27.avoid_vocal := true |} in
  let line := "Input #0, mp3, from 'max_volume.mp3':"%string in
  In line (Py.splitlines ("Input #0, mp3, from 'max_volume.mp3':" ++ Py.nl
                          ++ Samples.volume_text)%string)
  /\ Py.contains "max_volume" line = true
  /\ Py.raises (Bgm27.volume_of_line (FT := Decimal.runtime) line) = true
  /\ exists e,
       (Bgm27.run_file (FT := Decimal.runtime) (FF := Decimal.formats) (OS := Samples.echo)
          self 1 "max_volume.mp3" Samples.disk).2
       = Py.Ok [Bgm27.error ("max_volume.mp3 处理失败：" ++ Py.str_exn e)%string;
                Bgm27.progress_updated 100].
Proof.
  intros self line.
  assert (In line (Py.splitlines ("Input #0, mp3, from 'max_volume.mp3':" ++ Py.nl
                                  ++ Samples.volume_text)%string)) as Hin
    by (vm_compute; tauto).
  split; [exact Hin|]. split; [reflexivity|]. split; [reflexivity|].
  destruct (bgm_unreadable_volume_line_fails_file
              (FT := Decimal.runtime) (FF := Decimal.formats) (OS := Samples.echo)
              self 1 "max_volume.mp3" line Samples.disk
              {| Py.fs := Py.fs Samples.disk; Py.engine := tt;
                 Py.logged := ["开始处理：max_volume.mp3"%string] |}
              {| Py.fs := Py.fs Samples.disk; Py.engine := tt;
                 Py.logged := ["开始处理：max_volume.mp3"%string] |}
              {| Py.returncode := 1; Py.stderr := Samples.probe_text |}
              {| Py.returncode := 0;
                 Py.stderr := ("Input #0, mp3, from 'max_volume.mp3':" ++ Py.nl
                               ++ Samples.volume_text)%string |}
              eq_refl eq_refl Hin (or_introl eq_refl) eq_refl) as [e He].
  exists e. rewrite He. reflexivity.
Defined.
